(** * The jumbo file system: directories, inodes and the append/read path

    A shallow embedding of [jumbo_file_system.c]: the directory and inode
    bookkeeping on top of a block store, with the C control flow (early
    returns, index loops, fixed-size arrays, unsigned wrap-around) kept.

    Not modelled: [jfs_mount] and [jfs_unmount], which no property below
    involves, and a [malloc] that returns [NULL]. *)

From Stdlib Require Import ZArith Lia.
From stdpp Require Import base tactics option list gmap strings.

Local Open Scope Z_scope.

(** ** Configuration constants

    [BLOCK_SIZE], [MAX_NAME_LENGTH], [MAX_DIR_ENTRIES], [MAX_DATA_BLOCKS] and
    [MAX_FILE_SIZE] are macros of headers that are not part of the sources;
    the development is parametric in them. *)

Class Config : Type := {
  BLOCK_SIZE : Z;
  MAX_NAME_LENGTH : Z;
  MAX_DIR_ENTRIES : Z;
  MAX_DATA_BLOCKS : Z;
  MAX_FILE_SIZE : Z
}.

(** What the code relies on: a block holds at least one byte, an entry
    count fits the 16-bit [num_entries], a full inode covers
    [MAX_FILE_SIZE], and a byte count fits the [unsigned short] that
    [jfs_write] and [jfs_read] take. *)
Record ConfigOK (cfg : Config) : Prop := {
  block_size_pos : 0 < BLOCK_SIZE;
  max_dir_entries_pos : 0 < MAX_DIR_ENTRIES;
  max_name_length_nonneg : 0 <= MAX_NAME_LENGTH;
  max_dir_entries_short : MAX_DIR_ENTRIES < 65536;
  max_data_blocks_nonneg : 0 <= MAX_DATA_BLOCKS;
  max_file_size_blocks : MAX_FILE_SIZE <= MAX_DATA_BLOCKS * BLOCK_SIZE;
  max_file_size_short : MAX_FILE_SIZE < 65536
}.

(** ** Machine integers *)

(** [unsigned short], and the 16-bit [num_entries] *)
Definition u16 (z : Z) : Z := z mod 65536.

(** Modelled from the spec: the inode's [file_size] is declared in a header
    that is not in the sources; the specification describes its
    arithmetic as unsigned and subject to underflow at [file_size - 1], and
    it is taken as [uint32_t].  No property below depends on the width:
    each holds where the value does not wrap. *)
Definition u32 (z : Z) : Z := z mod 4294967296.

(** [#define MIN(a, b) (((a) < (b)) ? (a) : (b))] *)
Definition MIN (a b : Z) : Z := if a <? b then a else b.

(** ** Error codes *)

(** The codes other than [E_SUCCESS]; their values are in a header that is
    not in the sources and play no role. *)
Inductive errcode : Set :=
  | E_UNKNOWN | E_EXISTS | E_NOT_EXISTS | E_NOT_DIR | E_IS_DIR | E_NOT_EMPTY
  | E_MAX_NAME_LENGTH | E_MAX_DIR_ENTRIES | E_MAX_FILE_SIZE | E_DISK_FULL.

(** ** Blocks *)

Abbreviation byte := Byte.byte.
Abbreviation zero_byte := Byte.x00.

(** One slot of [dirnode.entries] *)
Record dirent : Type := { block_num : Z; name : string }.

(** [contents.dirnode]: a count and the array [entries[MAX_DIR_ENTRIES]] *)
Record dirnode_t : Type := { num_entries : Z; entries : list dirent }.

(** [contents.inode]: the size and the array [data_blocks[MAX_DATA_BLOCKS]] *)
Record inode_t : Type := { file_size : Z; data_blocks : list Z }.

(** Modelled from the spec: [struct block] is declared in a header that is
    not in the sources.  It is the tagged union of the data model
    ([is_dir] is [IS_DIR] or [IS_FILE]) with the fields the code names,
    [contents.dirnode] and [contents.inode] above; a data block is
    [BLOCK_SIZE] raw bytes. *)
Inductive block : Type :=
  | Dirnode (d : dirnode_t)
  | Inode (i : inode_t)
  | Data (bytes : list byte).

Definition zero_dirent : dirent := {| block_num := 0; name := "" |}.

Definition zeros (n : Z) : list byte := replicate (Z.to_nat n) zero_byte.

(** ** The block store *)

(** Modelled from the spec: the block store ([read_block], [write_block],
    [allocate_block], [release_block]) is an external collaborator whose
    code is not in the sources.  The store persists blocks by handle, hands
    out the handles of [free_list] in order ([0] signals exhaustion), and
    takes a released handle back at the front of [free_list].  A read fails
    where no block is persisted, a write or release fails on the handles
    listed in [bad_write] and [bad_release]. *)
Record store : Type := {
  blocks : gmap Z block;
  free_list : list Z;
  bad_write : list Z;
  bad_release : list Z
}.

(** The program state: the store and the global [current_dir]. *)
Record fs : Type := { disk : store; current_dir : Z }.

(** ** Outcomes

    A call returns a value ([Ok], which is [E_SUCCESS] for the [jfs_]
    functions), returns an error code ([Fail]), or leaves the model:
    [OutOfBounds] is an access outside an array (undefined in C),
    [BadLayout] is a block read at a variant it does not hold (the code
    would reinterpret its bytes), [ZeroLengthArray] is the declaration of
    a variable-length array with no element (undefined in C: the size
    shall be greater than zero). *)
Inductive fault : Set := OutOfBounds | BadLayout | ZeroLengthArray.

Inductive step (A : Type) : Type :=
  | Ok (a : A) (s : fs)
  | Fail (e : errcode) (s : fs)
  | Undef (f : fault).
Arguments Ok {A} a s.
Arguments Fail {A} e s.
Arguments Undef {A} f.

Definition M (A : Type) : Type := fs -> step A.

Definition ret {A} (a : A) : M A := fun s => Ok a s.
Definition fail {A} (e : errcode) : M A := fun s => Fail e s.
Definition undef {A} (f : fault) : M A := fun _ => Undef f.
Definition bind {A B} (m : M A) (k : A -> M B) : M B :=
  fun s => match m s with
           | Ok a s' => k a s'
           | Fail e s' => Fail e s'
           | Undef f => Undef f
           end.

Notation "x <- m ;; k" := (bind m (fun x => k))
  (at level 100, m at next level, right associativity).
Notation "m ;;; k" := (bind m (fun _ => k))
  (at level 100, right associativity).

Definition get_current_dir : M Z := fun s => Ok (current_dir s) s.
Definition set_current_dir (h : Z) : M unit :=
  fun s => Ok tt {| disk := disk s; current_dir := h |}.

(** [read_block]: [None] is the negative return value. *)
Definition read_block (h : Z) : M (option block) :=
  fun s => Ok (blocks (disk s) !! h) s.

(** [write_block]: [false] is the negative return value. *)
Definition write_block (h : Z) (b : block) : M bool :=
  fun s =>
    if bool_decide (h ∈ bad_write (disk s)) then Ok false s
    else Ok true {| disk := {| blocks := <[h := b]> (blocks (disk s));
                               free_list := free_list (disk s);
                               bad_write := bad_write (disk s);
                               bad_release := bad_release (disk s) |};
                    current_dir := current_dir s |}.

(** [allocate_block]: the next free handle, [0] when there is none. *)
Definition allocate_block : M Z :=
  fun s =>
    match free_list (disk s) with
    | [] => Ok 0 s
    | h :: rest =>
        Ok h {| disk := {| blocks := blocks (disk s);
                           free_list := rest;
                           bad_write := bad_write (disk s);
                           bad_release := bad_release (disk s) |};
                current_dir := current_dir s |}
    end.

(** [release_block]: [false] is the negative return value. *)
Definition release_block (h : Z) : M bool :=
  fun s =>
    if bool_decide (h ∈ bad_release (disk s)) then Ok false s
    else Ok true {| disk := {| blocks := blocks (disk s);
                               free_list := h :: free_list (disk s);
                               bad_write := bad_write (disk s);
                               bad_release := bad_release (disk s) |};
                    current_dir := current_dir s |}.

(** ** Arrays and buffers *)

(** [a[i]] read: outside the array the behaviour is undefined. *)
Definition arr_get {A} (a : list A) (i : Z) : M A :=
  if bool_decide (0 <= i < Z.of_nat (length a)) then
    match a !! Z.to_nat i with
    | Some x => ret x
    | None => undef OutOfBounds
    end
  else undef OutOfBounds.

(** [a[i] = x] *)
Definition arr_set {A} (a : list A) (i : Z) (x : A) : M (list A) :=
  if bool_decide (0 <= i < Z.of_nat (length a)) then ret (<[Z.to_nat i := x]> a)
  else undef OutOfBounds.

(** [memcpy(dst + off, src, n)] on buffers large enough for it *)
Definition memcpy (dst : list byte) (off : Z) (src : list byte) (n : Z) : list byte :=
  take (Z.to_nat off) dst ++ take (Z.to_nat n) src ++ drop (Z.to_nat (off + n)) dst.

(** The views of a block that was read from the store. *)
Definition as_dirnode (b : block) : M dirnode_t :=
  match b with Dirnode d => ret d | _ => undef BadLayout end.

Definition as_data (b : block) : M (list byte) :=
  match b with Data bytes => ret bytes | _ => undef BadLayout end.

(** [for (int i = lo; i < lo + n; i++) body], threading the locals the body
    updates; a [Fail] of the body is a [return] inside the loop. *)
Fixpoint for_range {L} (i : Z) (n : nat) (body : Z -> L -> M L) (acc : L) : M L :=
  match n with
  | O => ret acc
  | S n' => acc' <- body i acc;; for_range (i + 1) n' body acc'
  end.

Section Jfs.
Context {cfg : Config}.

(** [memset(&blk, 0, sizeof(struct block))] seen through each variant *)
Definition zero_entries : list dirent := replicate (Z.to_nat MAX_DIR_ENTRIES) zero_dirent.
Definition zero_data_blocks : list Z := replicate (Z.to_nat MAX_DATA_BLOCKS) 0.

(** ** [is_dir] *)

Definition is_dir (h : Z) : M bool :=
  r <- read_block h;;
  match r with
  | None => ret false
  | Some (Dirnode _) => ret true
  | Some (Inode _) => ret false
  | Some (Data _) => undef BadLayout
  end.

(** The loop over the entries of the current directory that the operations
    run: [for (i = 0; i < num_entries; i++) if (strcmp(entries[i].name, nm) == 0) ...]
    [found] is what the operation does at the first match, [missing] what
    follows the loop when it runs out. *)
Fixpoint scan_entries {A} (es : list dirent) (nm : string)
    (found : Z -> dirent -> M A) (missing : M A) (i : Z) (n : nat) : M A :=
  match n with
  | O => missing
  | S n' =>
      e <- arr_get es i;;
      if bool_decide (name e = nm) then found i e
      else scan_entries es nm found missing (i + 1) n'
  end.

(** The search of [jfs_creat], [jfs_remove], [jfs_stat], [jfs_write] and
    [jfs_read]: [file_index = i; break;] at the match, [-1] otherwise. *)
Definition find_entry (es : list dirent) (nm : string) (n : nat) : M Z :=
  scan_entries es nm (fun i _ => ret i) (ret (-1)) 0 n.

(** The compaction loop shared by [jfs_rmdir] and [jfs_remove]:
    [for (j = i; j < num_entries - 1; j++) entries[j] = entries[j + 1];] *)
Definition shift_entries (d : dirnode_t) (i : Z) : M (list dirent) :=
  for_range i (Z.to_nat (num_entries d - 1 - i))
    (fun j es => e <- arr_get es (j + 1);; arr_set es j e)
    (entries d).

(** ** [jfs_mkdir] *)

(** The loop that looks for the name and counts the entries. *)
Fixpoint mkdir_scan (es : list dirent) (nm : string) (i : Z) (n : nat) (cnt : Z) : M Z :=
  match n with
  | O => ret cnt
  | S n' =>
      e <- arr_get es i;;
      if bool_decide (name e = nm) then fail E_EXISTS
      else mkdir_scan es nm (i + 1) n' (u16 (cnt + 1))
  end.

Definition jfs_mkdir (directory_name : string) : M unit :=
  current_block_num <- get_current_dir;;
  r <- read_block current_block_num;;
  match r with
  | None => fail E_UNKNOWN
  | Some current_block =>
      d <- as_dirnode current_block;;
      cnt <- mkdir_scan (entries d) directory_name 0 (Z.to_nat (num_entries d)) 0;;
      if MAX_NAME_LENGTH <? Z.of_nat (String.length directory_name) then fail E_MAX_NAME_LENGTH
      else if MAX_DIR_ENTRIES <=? cnt then fail E_MAX_DIR_ENTRIES
      else
        new_dir_block_num <- allocate_block;;
        if new_dir_block_num =? 0 then fail E_DISK_FULL
        else
          ok <- write_block new_dir_block_num
                  (Dirnode {| num_entries := 0; entries := zero_entries |});;
          if negb ok then fail E_UNKNOWN
          else
            es <- arr_set (entries d) cnt
                    {| block_num := new_dir_block_num; name := directory_name |};;
            ok <- write_block current_block_num
                    (Dirnode {| num_entries := u16 (num_entries d + 1); entries := es |});;
            if negb ok then fail E_UNKNOWN else ret tt
  end.

(** ** [jfs_chdir] *)

(** The body of the loop at the matching entry. *)
Definition chdir_entry (e : dirent) : M unit :=
  isd <- is_dir (block_num e);;
  if negb isd then fail E_NOT_DIR
  else set_current_dir (block_num e).

Definition jfs_chdir (directory_name : option string) : M unit :=
  current_block_num <- get_current_dir;;
  match directory_name with
  | None => set_current_dir 1
  | Some nm =>
      r <- read_block current_block_num;;
      match r with
      | None => fail E_UNKNOWN
      | Some current_block =>
          d <- as_dirnode current_block;;
          scan_entries (entries d) nm (fun _ e => chdir_entry e) (fail E_NOT_EXISTS)
            0 (Z.to_nat (num_entries d))
      end
  end.

(** ** [jfs_rmdir] *)

(** The body of the loop at the matching entry [entries[i]]. *)
Definition rmdir_entry (current_block_num : Z) (d : dirnode_t) (i : Z) (e : dirent) : M unit :=
  isd <- is_dir (block_num e);;
  if negb isd then fail E_NOT_DIR
  else
    r <- read_block (block_num e);;
    match r with
    | None => fail E_UNKNOWN
    | Some dir_block =>
        dd <- as_dirnode dir_block;;
        if 0 <? num_entries dd then fail E_NOT_EMPTY
        else
          ok <- release_block (block_num e);;
          if negb ok then fail E_UNKNOWN
          else
            es <- shift_entries d i;;
            ok <- write_block current_block_num
                    (Dirnode {| num_entries := u16 (num_entries d - 1); entries := es |});;
            if negb ok then fail E_UNKNOWN else ret tt
    end.

Definition jfs_rmdir (directory_name : string) : M unit :=
  current_block_num <- get_current_dir;;
  r <- read_block current_block_num;;
  match r with
  | None => fail E_UNKNOWN
  | Some current_block =>
      d <- as_dirnode current_block;;
      scan_entries (entries d) directory_name (rmdir_entry current_block_num d)
        (fail E_NOT_EXISTS) 0 (Z.to_nat (num_entries d))
  end.

(** ** [jfs_creat] *)

Definition jfs_creat (file_name : string) : M unit :=
  current_block_num <- get_current_dir;;
  if MAX_NAME_LENGTH <? Z.of_nat (String.length file_name) then fail E_MAX_NAME_LENGTH
  else
    r <- read_block current_block_num;;
    match r with
    | None => fail E_UNKNOWN
    | Some current_block =>
        d <- as_dirnode current_block;;
        idx <- find_entry (entries d) file_name (Z.to_nat (num_entries d));;
        if negb (idx =? -1) then fail E_EXISTS
        else if MAX_DIR_ENTRIES <=? num_entries d then fail E_MAX_DIR_ENTRIES
        else
          inode_block_num <- allocate_block;;
          if inode_block_num =? 0 then fail E_DISK_FULL
          else
            ok <- write_block inode_block_num
                    (Inode {| file_size := 0; data_blocks := zero_data_blocks |});;
            if negb ok then (release_block inode_block_num;;; fail E_UNKNOWN)
            else
              es <- arr_set (entries d) (num_entries d)
                      {| block_num := inode_block_num; name := file_name |};;
              ok <- write_block current_block_num
                      (Dirnode {| num_entries := u16 (num_entries d + 1); entries := es |});;
              if negb ok then (release_block inode_block_num;;; fail E_UNKNOWN)
              else ret tt
    end.

(** ** [jfs_remove] *)

(** [for (i = 0; i < MAX_DATA_BLOCKS && data_blocks[i] != 0; i++)] *)
Fixpoint release_data (dbs : list Z) (i : Z) (n : nat) : M unit :=
  match n with
  | O => ret tt
  | S n' =>
      h <- arr_get dbs i;;
      if h =? 0 then ret tt
      else
        ok <- release_block h;;
        if negb ok then fail E_UNKNOWN
        else release_data dbs (i + 1) n'
  end.

Definition jfs_remove (file_name : string) : M unit :=
  current_block_num <- get_current_dir;;
  r <- read_block current_block_num;;
  match r with
  | None => fail E_UNKNOWN
  | Some current_block =>
      d <- as_dirnode current_block;;
      file_index <- find_entry (entries d) file_name (Z.to_nat (num_entries d));;
      if file_index =? -1 then fail E_NOT_EXISTS
      else
        e <- arr_get (entries d) file_index;;
        let inode_block_num := block_num e in
        r <- read_block inode_block_num;;
        match r with
        | None => fail E_UNKNOWN
        | Some (Dirnode _) => fail E_IS_DIR
        | Some (Data _) => undef BadLayout
        | Some (Inode ino) =>
            release_data (data_blocks ino) 0 (Z.to_nat MAX_DATA_BLOCKS);;;
            ok <- release_block inode_block_num;;
            if negb ok then fail E_UNKNOWN
            else
              es <- shift_entries d file_index;;
              ok <- write_block current_block_num
                      (Dirnode {| num_entries := u16 (num_entries d - 1); entries := es |});;
              if negb ok then fail E_UNKNOWN else ret tt
        end
  end.

(** ** [jfs_stat] *)

Definition IS_DIR : Z := 0.
Definition IS_FILE : Z := 1.

(** Modelled from the spec: [struct stats] is declared in a header that is
    not in the sources; these are the fields [jfs_stat] assigns. *)
Record stats : Type := {
  st_is_dir : Z;
  st_name : string;
  st_block_num : Z;
  st_num_data_blocks : Z;
  st_file_size : Z
}.

Definition jfs_stat (nm : string) : M stats :=
  current_block_num <- get_current_dir;;
  r <- read_block current_block_num;;
  match r with
  | None => fail E_UNKNOWN
  | Some current_block =>
      d <- as_dirnode current_block;;
      file_index <- find_entry (entries d) nm (Z.to_nat (num_entries d));;
      if file_index =? -1 then fail E_NOT_EXISTS
      else
        e <- arr_get (entries d) file_index;;
        let entry_block_num := block_num e in
        r <- read_block entry_block_num;;
        match r with
        | None => fail E_UNKNOWN
        | Some (Data _) => undef BadLayout
        | Some (Dirnode _) =>
            ret {| st_is_dir := IS_DIR; st_name := nm; st_block_num := entry_block_num;
                   st_num_data_blocks := 0; st_file_size := 0 |}
        | Some (Inode ino) =>
            ret {| st_is_dir := IS_FILE; st_name := nm; st_block_num := entry_block_num;
                   st_num_data_blocks :=
                     (if 0 <? file_size ino
                      then u32 (u32 (file_size ino - 1) / BLOCK_SIZE + 1) else 0);
                   st_file_size := file_size ino |}
        end
  end.

(** ** [jfs_write] *)

(** The clean-up loop of the error paths:
    [for (j = next_start_position; j < i; j++) release_block(data_block_nums[j]);] *)
Definition release_range (data_block_nums : list Z) (lo hi : Z) : M unit :=
  for_range lo (Z.to_nat (hi - lo))
    (fun j _ => h <- arr_get data_block_nums j;; release_block h;;; ret tt) tt.

(** The allocation loop; the local array [data_block_nums] is threaded. *)
Definition alloc_body (next_start_position : Z) (i : Z) (data_block_nums : list Z)
    : M (list Z) :=
  h <- allocate_block;;
  data_block_nums' <- arr_set data_block_nums i h;;
  h' <- arr_get data_block_nums' i;;
  if h' =? 0 then (release_range data_block_nums' next_start_position i;;; fail E_DISK_FULL)
  else ret data_block_nums'.

(** The loop that writes the chunks; [bytes_written] is threaded. *)
Definition write_body (append_buffer : list byte) (write_size next_start_position : Z)
    (data_block_nums : list Z) (i : Z) (bytes_written : Z) : M Z :=
  let bytes_to_write := u16 (MIN (write_size - bytes_written) BLOCK_SIZE) in
  let buffer_to_write :=
    memcpy (zeros BLOCK_SIZE) 0 (drop (Z.to_nat bytes_written) append_buffer) bytes_to_write in
  h <- arr_get data_block_nums i;;
  ok <- write_block h (Data buffer_to_write);;
  if negb ok then (release_range data_block_nums next_start_position i;;; fail E_UNKNOWN)
  else ret (u16 (bytes_written + bytes_to_write)).

(** The loop that copies the new handles into the inode. *)
Definition update_body (data_block_nums : list Z) (i : Z) (dbs : list Z) : M (list Z) :=
  h <- arr_get data_block_nums i;; arr_set dbs i h.

(** [append_position = file_size % BLOCK_SIZE] *)
Definition append_position_of (fsz : Z) : Z := u16 (fsz mod BLOCK_SIZE).

(** [last_block_num = (file_size - 1) / BLOCK_SIZE], in [uint32_t] arithmetic *)
Definition last_block_num_of (fsz : Z) : Z := u16 (u32 (fsz - 1) / BLOCK_SIZE).

(** [blocks_needed = (write_size + BLOCK_SIZE - 1) / BLOCK_SIZE], where
    [write_size] already includes [append_position] *)
Definition blocks_needed_of (write_size : Z) : Z :=
  u16 ((write_size + BLOCK_SIZE - 1) / BLOCK_SIZE).

(** [next_start_position], with its two corrections *)
Definition next_start_position_of (fsz : Z) : Z :=
  if fsz =? 0 then 0
  else if append_position_of fsz =? 0 then u16 (fsz / BLOCK_SIZE)
  else u16 (u32 (u32 (fsz + BLOCK_SIZE - 1) / BLOCK_SIZE - 1)).

Definition jfs_write (file_name : string) (buf : list byte) (count : Z) : M unit :=
  current_block_num <- get_current_dir;;
  let write_size := count in
  r <- read_block current_block_num;;
  match r with
  | None => fail E_UNKNOWN
  | Some current_block =>
      d <- as_dirnode current_block;;
      file_index <- find_entry (entries d) file_name (Z.to_nat (num_entries d));;
      if file_index =? -1 then fail E_NOT_EXISTS
      else
        e <- arr_get (entries d) file_index;;
        r <- read_block (block_num e);;
        match r with
        | None => fail E_UNKNOWN
        | Some (Dirnode _) => fail E_IS_DIR
        | Some (Data _) => undef BadLayout
        | Some (Inode ino) =>
            if MAX_FILE_SIZE <? u32 (file_size ino + write_size) then fail E_MAX_FILE_SIZE
            else
              let append_position := append_position_of (file_size ino) in
              let last_block_num := last_block_num_of (file_size ino) in
              append_buffer <-
                (if (0 <? append_position) && (0 <? file_size ino) then
                   h <- arr_get (data_blocks ino) last_block_num;;
                   r <- read_block h;;
                   match r with
                   | None => fail E_UNKNOWN
                   | Some b =>
                       bytes <- as_data b;;
                       let append_buffer := memcpy (zeros MAX_FILE_SIZE) 0 bytes BLOCK_SIZE in
                       let append_buffer := memcpy append_buffer append_position buf write_size in
                       release_block h;;;
                       ret append_buffer
                   end
                 else ret buf);;
              let write_size := u16 (write_size + append_position) in
              let blocks_needed := blocks_needed_of write_size in
              let next_start_position := next_start_position_of (file_size ino) in
              (* block_num_t data_block_nums[blocks_needed]; *)
              if blocks_needed =? 0 then undef ZeroLengthArray
              else
                data_block_nums <-
                  for_range next_start_position (Z.to_nat blocks_needed)
                    (alloc_body next_start_position)
                    (replicate (Z.to_nat blocks_needed) 0);;
                for_range next_start_position (Z.to_nat blocks_needed)
                  (write_body append_buffer write_size next_start_position data_block_nums) 0;;;
                dbs <-
                  for_range next_start_position (Z.to_nat blocks_needed)
                    (update_body data_block_nums) (data_blocks ino);;
                ok <- write_block (block_num e)
                        (Inode {| file_size := u32 (file_size ino + (write_size - append_position));
                                  data_blocks := dbs |});;
                if negb ok then fail E_UNKNOWN else ret tt
        end
  end.

(** ** [jfs_read] *)

(** The loop that gathers the blocks; [bytes_have_read] and the filled part
    of [buf] are threaded. *)
Definition read_body (dbs : list Z) (bytes_to_read : Z) (i : Z) (acc : Z * list byte)
    : M (Z * list byte) :=
  let bytes_have_read := acc.1 in
  let bytes_this_block := u16 (MIN (bytes_to_read - bytes_have_read) BLOCK_SIZE) in
  h <- arr_get dbs i;;
  r <- read_block h;;
  match r with
  | None => fail E_UNKNOWN
  | Some b =>
      current_block_buf <- as_data b;;
      ret (u16 (bytes_have_read + bytes_this_block),
           acc.2 ++ take (Z.to_nat bytes_this_block) current_block_buf)
  end.

(** The result is the new [*ptr_count] and the bytes [buf[0 .. *ptr_count)]. *)
Definition jfs_read (file_name : string) (count : Z) : M (Z * list byte) :=
  current_block_num <- get_current_dir;;
  r <- read_block current_block_num;;
  match r with
  | None => fail E_UNKNOWN
  | Some current_block =>
      d <- as_dirnode current_block;;
      file_index <- find_entry (entries d) file_name (Z.to_nat (num_entries d));;
      if file_index =? -1 then fail E_NOT_EXISTS
      else
        e <- arr_get (entries d) file_index;;
        r <- read_block (block_num e);;
        match r with
        | None => fail E_UNKNOWN
        | Some (Dirnode _) => fail E_IS_DIR
        | Some (Data _) => undef BadLayout
        | Some (Inode ino) =>
            let bytes_to_read := u16 (MIN (file_size ino) count) in
            let block_used := u16 ((bytes_to_read + BLOCK_SIZE - 1) / BLOCK_SIZE) in
            for_range 0 (Z.to_nat block_used) (read_body (data_blocks ino) bytes_to_read) (0, [])
        end
  end.

(** ** [jfs_ls] *)

(** The body of the loop.  The caller's arrays [directories] and [files]
    and the two counts are threaded; a string that was [malloc]ed and
    filled by [strcpy] is [Some] of the name, [NULL] is [None]. *)
Definition ls_body (es : list dirent) (i : Z)
    (acc : list (option string) * list (option string) * Z * Z)
    : M (list (option string) * list (option string) * Z * Z) :=
  let '(directories, files, dir_count, file_count) := acc in
  e <- arr_get es i;;
  isd <- is_dir (block_num e);;
  if isd then
    directories' <- arr_set directories dir_count (Some (name e));;
    ret (directories', files, dir_count + 1, file_count)
  else
    files' <- arr_set files file_count (Some (name e));;
    ret (directories, files', dir_count, file_count + 1).

Definition jfs_ls (directories files : list (option string))
    : M (list (option string) * list (option string)) :=
  current_block_num <- get_current_dir;;
  r <- read_block current_block_num;;
  match r with
  | None => fail E_UNKNOWN
  | Some current_block =>
      d <- as_dirnode current_block;;
      acc <- for_range 0 (Z.to_nat (num_entries d)) (ls_body (entries d))
               (directories, files, 0, 0);;
      let '(directories, files, dir_count, file_count) := acc in
      directories <- arr_set directories dir_count None;;
      files <- arr_set files file_count None;;
      ret (directories, files)
  end.

End Jfs.

(** ** A small configuration and some disks *)

Definition cfg4 : Config :=
  {| BLOCK_SIZE := 4; MAX_NAME_LENGTH := 7; MAX_DIR_ENTRIES := 3;
     MAX_DATA_BLOCKS := 4; MAX_FILE_SIZE := 16 |}.

Definition bytes_of_string (s : string) : list byte :=
  map Ascii.byte_of_ascii (String.list_ascii_of_string s).

Definition empty_root : dirnode_t :=
  {| num_entries := 0; entries := [zero_dirent; zero_dirent; zero_dirent] |}.

(** A formatted disk: block 1 is the empty root directory, the handles 2
    to 9 are free. *)
Definition fresh_disk : fs :=
  {| disk := {| blocks := {[ 1 := Dirnode empty_root ]};
                free_list := [2; 3; 4; 5; 6; 7; 8; 9];
                bad_write := []; bad_release := [] |};
     current_dir := 1 |}.

(** A disk in use: the root holds the file [a.txt] (inode 2, the five
    bytes of "hello" in the data blocks 3 and 4), the empty directory
    [sub] (block 5) and the directory [docs] (block 6) with the empty file
    [x] (inode 7). *)
Definition demo_root : dirnode_t :=
  {| num_entries := 3;
     entries := [ {| block_num := 2; name := "a.txt" |};
                  {| block_num := 5; name := "sub" |};
                  {| block_num := 6; name := "docs" |} ] |}.

Definition demo_inode : inode_t :=
  {| file_size := 5; data_blocks := [3; 4; 0; 0] |}.

Definition demo_docs : dirnode_t :=
  {| num_entries := 1;
     entries := [ {| block_num := 7; name := "x" |}; zero_dirent; zero_dirent ] |}.

Definition demo_blocks : gmap Z block :=
  {[ 1 := Dirnode demo_root;
     2 := Inode demo_inode;
     3 := Data (bytes_of_string "hell");
     4 := Data (bytes_of_string "o" ++ [zero_byte; zero_byte; zero_byte]);
     5 := Dirnode empty_root;
     6 := Dirnode demo_docs;
     7 := Inode {| file_size := 0; data_blocks := [0; 0; 0; 0] |} ]}.

Definition demo_disk : fs :=
  {| disk := {| blocks := demo_blocks; free_list := [8; 9];
                bad_write := []; bad_release := [] |};
     current_dir := 1 |}.

(** An empty file [a.txt] (inode 2) on a disk where the write of block 3
    fails. *)
Definition faulty_disk : fs :=
  {| disk := {| blocks :=
                  {[ 1 := Dirnode {| num_entries := 1;
                                     entries := [ {| block_num := 2; name := "a.txt" |};
                                                  zero_dirent; zero_dirent ] |};
                     2 := Inode {| file_size := 0; data_blocks := [0; 0; 0; 0] |} ]};
                free_list := [3; 4; 5; 6; 7; 8; 9];
                bad_write := [3]; bad_release := [] |};
     current_dir := 1 |}.

(** The three bytes of "hel" in [a.txt] (inode 2, data block 3) on a disk
    with no free block. *)
Definition short_inode : inode_t :=
  {| file_size := 3; data_blocks := [3; 0; 0; 0] |}.

Definition full_disk : fs :=
  {| disk := {| blocks :=
                  {[ 1 := Dirnode {| num_entries := 1;
                                     entries := [ {| block_num := 2; name := "a.txt" |};
                                                  zero_dirent; zero_dirent ] |};
                     2 := Inode short_inode;
                     3 := Data (bytes_of_string "hel" ++ [zero_byte]) ]};
                free_list := [];
                bad_write := []; bad_release := [] |};
     current_dir := 1 |}.

(** The root directory of [faulty_disk] and [full_disk]. *)
Definition one_file_root : dirnode_t :=
  {| num_entries := 1;
     entries := [ {| block_num := 2; name := "a.txt" |}; zero_dirent; zero_dirent ] |}.

(** The blocks of [full_disk] with the handles 4 to 6 free. *)
Definition short_disk : fs :=
  {| disk := {| blocks := blocks (disk full_disk); free_list := [4; 5; 6];
                bad_write := []; bad_release := [] |};
     current_dir := 1 |}.

(** The blocks of [faulty_disk] with one free handle left and no faulty
    one. *)
Definition scarce_disk : fs :=
  {| disk := {| blocks := blocks (disk faulty_disk); free_list := [3];
                bad_write := []; bad_release := [] |};
     current_dir := 1 |}.

(** ** Specification vocabulary *)

Section Properties.
Context {cfg : Config}.

(** The entries a directory node holds: the first [num_entries] slots. *)
Definition dir_entries (d : dirnode_t) : list dirent :=
  take (Z.to_nat (num_entries d)) (entries d).

(** The first entry with a given name, and its position. *)
Definition dir_find (d : dirnode_t) (nm : string) : option (nat * dirent) :=
  list_find (fun e => name e = nm) (dir_entries d).

(** A directory node as the code keeps it: the array has its declared
    size and the count stays within it. *)
Definition dir_ok (d : dirnode_t) : Prop :=
  length (entries d) = Z.to_nat MAX_DIR_ENTRIES /\
  0 <= num_entries d <= MAX_DIR_ENTRIES.

(** The directory node after an entry was put in the slot [num_entries]. *)
Definition dir_add (d : dirnode_t) (e : dirent) : dirnode_t :=
  {| num_entries := num_entries d + 1;
     entries := <[Z.to_nat (num_entries d) := e]> (entries d) |}.

(** The block persisted at a handle. *)
Definition block_at (s : fs) (h : Z) : option block := blocks (disk s) !! h.

(** The state with other persisted blocks and another free list; the
    cursor and the faulty handles are those of [s]. *)
Definition with_store (s : fs) (bl : gmap Z block) (fl : list Z) : fs :=
  {| disk := {| blocks := bl; free_list := fl;
                bad_write := bad_write (disk s); bad_release := bad_release (disk s) |};
     current_dir := current_dir s |}.

(** The populated slots of [data_blocks]: those before the first [0]. *)
Fixpoint populated (dbs : list Z) : list Z :=
  match dbs with
  | [] => []
  | h :: rest => if h =? 0 then [] else h :: populated rest
  end.

(** The number of blocks that hold [n] bytes: [ceil(n / BLOCK_SIZE)]. *)
Definition blocks_for (n : Z) : Z := (n + BLOCK_SIZE - 1) / BLOCK_SIZE.

(** The bytes persisted at the handle of a data block. *)
Definition block_bytes (s : fs) (h : Z) : list byte :=
  match block_at s h with Some (Data bytes) => bytes | _ => [] end.

(** The content of a file: the first [file_size] bytes of its data blocks,
    taken in the order of [data_blocks]. *)
Definition file_content (s : fs) (ino : inode_t) : list byte :=
  take (Z.to_nat (file_size ino)) (mjoin (block_bytes s <$> data_blocks ino)).

Definition is_data_block (s : fs) (h : Z) : Prop :=
  exists bytes, block_at s h = Some (Data bytes) /\ Z.of_nat (length bytes) = BLOCK_SIZE.

(** An inode as the code keeps it: the size within [MAX_FILE_SIZE], the
    array at its declared size, and a data block behind each of the first
    [ceil(file_size / BLOCK_SIZE)] slots. *)
Definition file_ok (s : fs) (ino : inode_t) : Prop :=
  0 <= file_size ino <= MAX_FILE_SIZE /\
  length (data_blocks ino) = Z.to_nat MAX_DATA_BLOCKS /\
  Forall (is_data_block s)
         (take (Z.to_nat (blocks_for (file_size ino))) (data_blocks ino)).

(** The block that [jfs_write] writes when [bw] of the [ws] bytes of
    [abuf] are written: the next bytes, at most [BLOCK_SIZE], over zeros. *)
Definition chunk (abuf : list byte) (ws bw : Z) : list byte :=
  memcpy (zeros BLOCK_SIZE) 0 (drop (Z.to_nat bw) abuf) (Z.min (ws - bw) BLOCK_SIZE).

(** The successive chunks, [n] of them. *)
Fixpoint chunks_from (abuf : list byte) (ws bw : Z) (n : nat) : list (list byte) :=
  match n with
  | O => []
  | S n' => chunk abuf ws bw
            :: chunks_from abuf ws (bw + Z.min (ws - bw) BLOCK_SIZE) n'
  end.

(** The persisted blocks once the chunks are written to the handles [hs]. *)
Fixpoint put_chunks (hs : list Z) (abuf : list byte) (ws bw : Z)
    (bl : gmap Z block) : gmap Z block :=
  match hs with
  | [] => bl
  | h :: hs' =>
      put_chunks hs' abuf ws (bw + Z.min (ws - bw) BLOCK_SIZE)
        (<[h := Data (chunk abuf ws bw)]> bl)
  end.

(** [frame R m]: whatever [m] returns, the state it returns in is related
    by [R] to the state it started in. *)
Definition frame (R : fs -> fs -> Prop) {A} (m : M A) : Prop :=
  forall s, match m s with
            | Ok _ s' | Fail _ s' => R s s'
            | Undef _ => True
            end.

(** The cursor did not move. *)
Definition same_cursor (s s' : fs) : Prop := current_dir s' = current_dir s.

(** The state with the cursor at [h]. *)
Definition with_cursor (s : fs) (h : Z) : fs := {| disk := disk s; current_dir := h |}.

(** A block as [memset] and the two assignments of [jfs_mkdir] leave it. *)
Definition empty_dirnode : dirnode_t := {| num_entries := 0; entries := zero_entries |}.

(** The names of a directory are unique. *)
Definition names_unique (d : dirnode_t) : Prop := NoDup (name <$> dir_entries d).

(** What [is_dir] answers for the block of an entry when the block is a
    directory node, an inode or unreadable. *)
Definition is_dir_entry (s : fs) (e : dirent) : bool :=
  match block_at s (block_num e) with Some (Dirnode _) => true | _ => false end.

(** The entries of a directory do not point at data blocks. *)
Definition no_data_target (s : fs) (e : dirent) : Prop :=
  forall bytes, block_at s (block_num e) <> Some (Data bytes).

(** The names [jfs_ls] reports as directories and as files. *)
Definition ls_directories (s : fs) (d : dirnode_t) : list string :=
  name <$> List.filter (is_dir_entry s) (dir_entries d).

Definition ls_files (s : fs) (d : dirnode_t) : list string :=
  name <$> List.filter (fun e => negb (is_dir_entry s e)) (dir_entries d).

(** The entry a name resolves to. *)
Definition dir_target (d : dirnode_t) (nm : string) : option dirent :=
  snd <$> dir_find d nm.

(** [jfs_stat] on [g] returns in [s'] what it returns in [s]. *)
Definition stat_agrees (g : string) (s s' : fs) : Prop :=
  match jfs_stat g s with
  | Ok r _ => jfs_stat g s' = Ok r s'
  | Fail c _ => jfs_stat g s' = Fail c s'
  | Undef f => jfs_stat g s' = Undef f
  end.

(** ** The monad, step by step *)

Lemma bind_Ok {A B} (m : M A) (k : A -> M B) s a s' :
  m s = Ok a s' -> bind m k s = k a s'.
Proof. intros H. unfold bind. by rewrite H. Qed.

Lemma bind_Fail {A B} (m : M A) (k : A -> M B) s e s' :
  m s = Fail e s' -> bind m k s = Fail e s'.
Proof. intros H. unfold bind. by rewrite H. Qed.

Lemma arr_get_Ok {A} (a : list A) (i : nat) (x : A) s :
  a !! i = Some x -> arr_get a (Z.of_nat i) s = Ok x s.
Proof.
  intros H. unfold arr_get.
  rewrite bool_decide_eq_true_2.
  - by rewrite Nat2Z.id, H.
  - apply lookup_lt_Some in H. lia.
Qed.

Lemma arr_set_Ok {A} (a : list A) (i : nat) (x : A) s :
  (i < length a)%nat -> arr_set a (Z.of_nat i) x s = Ok (<[i := x]> a) s.
Proof.
  intros H. unfold arr_set.
  rewrite bool_decide_eq_true_2 by lia. by rewrite Nat2Z.id.
Qed.

(** The loop acts on the first matching slot of the range it scans. *)
Lemma scan_entries_spec {A} (es : list dirent) (nm : string)
    (found : Z -> dirent -> M A) (missing : M A) (n i : nat) s :
  (i + n <= length es)%nat ->
  scan_entries es nm found missing (Z.of_nat i) n s =
    match list_find (fun e => name e = nm) (take n (drop i es)) with
    | Some (k, e) => found (Z.of_nat (i + k)) e s
    | None => missing s
    end.
Proof.
  revert i. induction n as [|n IH]; intros i Hlen; [done|].
  destruct (es !! i) as [x|] eqn:Hx;
    [|apply lookup_ge_None in Hx; lia].
  cbn [scan_entries]. erewrite bind_Ok by (by apply arr_get_Ok).
  rewrite (drop_S _ _ _ Hx). cbn [take list_find].
  unfold decide_rel, list_find. cbn.
  case_bool_decide as Hnm.
  - rewrite decide_True by done. cbn. by rewrite Nat.add_0_r.
  - rewrite decide_False by done.
    replace (Z.of_nat i + 1) with (Z.of_nat (S i)) by lia.
    rewrite IH by lia.
    unfold list_find.
    destruct (_ (take n (drop (S i) es))) as [[k e]|]; cbn; [|done].
    do 2 f_equal. lia.
Qed.

Lemma scan_entries_dir {A} (d : dirnode_t) (nm : string)
    (found : Z -> dirent -> M A) (missing : M A) s :
  dir_ok d ->
  scan_entries (entries d) nm found missing 0 (Z.to_nat (num_entries d)) s =
    match dir_find d nm with
    | Some (k, e) => found (Z.of_nat k) e s
    | None => missing s
    end.
Proof.
  intros [Hlen Hn].
  rewrite (scan_entries_spec _ _ _ _ _ 0) by (cbn; lia).
  by rewrite drop_0.
Qed.

Lemma find_entry_dir (d : dirnode_t) (nm : string) s :
  dir_ok d ->
  find_entry (entries d) nm (Z.to_nat (num_entries d)) s =
    Ok (match dir_find d nm with
        | Some (k, _) => Z.of_nat k
        | None => -1
        end) s.
Proof.
  intros Hok. unfold find_entry. rewrite scan_entries_dir by done.
  by destruct (dir_find d nm) as [[k e]|].
Qed.

Lemma dir_find_absent (d : dirnode_t) (nm : string) :
  nm ∉ name <$> dir_entries d -> dir_find d nm = None.
Proof.
  intros Hn. apply list_find_None, Forall_forall.
  intros e He Heq. apply Hn, list_elem_of_fmap. by exists e.
Qed.

Lemma dir_find_slot (d : dirnode_t) (nm : string) (k : nat) (e : dirent) :
  dir_find d nm = Some (k, e) ->
  entries d !! k = Some e /\ name e = nm /\ (Z.of_nat k < num_entries d).
Proof.
  intros H. apply list_find_Some in H as (Hk & Hnm & _).
  unfold dir_entries in Hk. apply lookup_take_Some in Hk as [Hk Hlt].
  repeat split; [done..|lia].
Qed.

Lemma found_index (k : nat) : (Z.of_nat k =? -1) = false.
Proof. apply Z.eqb_neq. lia. Qed.

(** Runs an operation up to the look-up of the name: the read of the
    current directory and the search loop. *)
Ltac run_lookup Hcwd Hok :=
  unfold bind at 1, get_current_dir; unfold bind at 1, read_block;
  rewrite Hcwd; cbn [as_dirnode]; unfold bind at 1, ret;
  erewrite bind_Ok by (by apply find_entry_dir).

(** ** The store primitives *)

Lemma write_block_Ok (h : Z) (b : block) (s : fs) :
  h ∉ bad_write (disk s) ->
  write_block h b s = Ok true (with_store s (<[h := b]> (blocks (disk s))) (free_list (disk s))).
Proof. intros H. unfold write_block. by rewrite bool_decide_eq_false_2. Qed.

Lemma release_block_Ok (h : Z) (s : fs) :
  h ∉ bad_release (disk s) ->
  release_block h s = Ok true (with_store s (blocks (disk s)) (h :: free_list (disk s))).
Proof. intros H. unfold release_block. by rewrite bool_decide_eq_false_2. Qed.

Lemma read_block_Ok (h : Z) (s : fs) : read_block h s = Ok (block_at s h) s.
Proof. done. Qed.

(** ** [jfs_chdir] *)

Lemma is_dir_frame (h : Z) (s : fs) :
  match is_dir h s with
  | Ok _ s' => s' = s
  | Fail _ s' => s' = s
  | Undef _ => True
  end.
Proof.
  unfold is_dir, bind, read_block.
  by destruct (blocks (disk s) !! h) as [[| |]|].
Qed.

Lemma chdir_scan_fail (es : list dirent) (nm : string) (i : Z) (n : nat) s e s' :
  scan_entries es nm (fun _ e => chdir_entry e) (fail E_NOT_EXISTS) i n s = Fail e s' ->
  s' = s.
Proof.
  revert i. induction n as [|n IH]; intros i; cbn [scan_entries].
  - unfold fail. congruence.
  - unfold bind at 1, arr_get.
    destruct (bool_decide _); [|done].
    destruct (es !! _) as [x|]; [|done]. unfold ret at 1.
    destruct (bool_decide _); [|by apply IH].
    unfold chdir_entry, bind. pose proof (is_dir_frame (block_num x) s) as Hd.
    destruct (is_dir _ s) as [[] s1|e1 s1|]; subst; cbn;
      unfold fail, set_current_dir; congruence.
Qed.

(** C10: when [jfs_chdir] returns an error code, [current_dir] and the
    whole store are as before the call: nothing was written, allocated or
    released, and the cursor moves only on success. *)
Theorem chdir_error_frame (directory_name : option string) (s : fs) (e : errcode) (s' : fs) :
  jfs_chdir directory_name s = Fail e s' -> s' = s.
Proof.
  unfold jfs_chdir, bind at 1, get_current_dir.
  destruct directory_name as [nm|]; [|by unfold set_current_dir].
  unfold bind at 1, read_block.
  destruct (blocks (disk s) !! _) as [[d| |]|];
    cbn; unfold fail; try congruence.
  unfold bind, ret. apply chdir_scan_fail.
Qed.

(** ** [jfs_stat] *)

Lemma stat_missing (nm : string) (s : fs) (d : dirnode_t) :
  block_at s (current_dir s) = Some (Dirnode d) ->
  dir_ok d ->
  nm ∉ name <$> dir_entries d ->
  jfs_stat nm s = Fail E_NOT_EXISTS s.
Proof.
  intros Hcwd Hok Habs. unfold block_at in Hcwd.
  unfold jfs_stat. run_lookup Hcwd Hok.
  by rewrite (dir_find_absent d nm Habs).
Qed.

Lemma stat_num_data_blocks (fsz : Z) :
  0 < BLOCK_SIZE -> 0 <= fsz < 4294967296 ->
  (if 0 <? fsz then u32 (u32 (fsz - 1) / BLOCK_SIZE + 1) else 0) = blocks_for fsz.
Proof.
  intros Hbs Hsz. unfold blocks_for.
  destruct (0 <? fsz) eqn:Hpos.
  - apply Z.ltb_lt in Hpos. unfold u32.
    rewrite (Z.mod_small (fsz - 1)) by lia.
    assert (0 <= (fsz - 1) / BLOCK_SIZE <= fsz - 1).
    { split; [apply Z.div_pos; lia|].
      apply Z.div_le_upper_bound; nia. }
    rewrite Z.mod_small by lia.
    replace (fsz + BLOCK_SIZE - 1) with (fsz - 1 + 1 * BLOCK_SIZE) by lia.
    by rewrite Z.div_add by lia.
  - apply Z.ltb_ge in Hpos. replace fsz with 0 by lia.
    symmetry. apply Z.div_small. lia.
Qed.

Lemma stat_file (nm : string) (s : fs) (d : dirnode_t) (k : nat) (e : dirent) (ino : inode_t) :
  0 < BLOCK_SIZE ->
  block_at s (current_dir s) = Some (Dirnode d) ->
  dir_ok d ->
  dir_find d nm = Some (k, e) ->
  block_at s (block_num e) = Some (Inode ino) ->
  0 <= file_size ino < 4294967296 ->
  jfs_stat nm s =
    Ok {| st_is_dir := IS_FILE; st_name := nm; st_block_num := block_num e;
          st_num_data_blocks := blocks_for (file_size ino);
          st_file_size := file_size ino |} s.
Proof.
  intros Hbs Hcwd Hok Hf Hb Hsz. unfold block_at in Hcwd.
  unfold jfs_stat. run_lookup Hcwd Hok. rewrite Hf.
  apply dir_find_slot in Hf as (Hk & _ & _). rewrite found_index.
  erewrite bind_Ok by (by apply arr_get_Ok).
  erewrite bind_Ok by apply read_block_Ok. rewrite Hb.
  by rewrite stat_num_data_blocks.
Qed.

(** C9: [jfs_stat] fails with [E_NOT_EXISTS] on a name the current
    directory does not hold; on an entry it returns the name and the
    entry's block handle, with size and block count 0 for a directory, and
    for a file the size and [ceil(file_size / BLOCK_SIZE)] blocks, which is
    0 for an empty file. *)
Theorem stat_spec (nm : string) (s : fs) (d : dirnode_t) :
  ConfigOK cfg ->
  block_at s (current_dir s) = Some (Dirnode d) ->
  dir_ok d ->
  (nm ∉ name <$> dir_entries d -> jfs_stat nm s = Fail E_NOT_EXISTS s) /\
  (forall k e dd,
     dir_find d nm = Some (k, e) ->
     block_at s (block_num e) = Some (Dirnode dd) ->
     jfs_stat nm s =
       Ok {| st_is_dir := IS_DIR; st_name := nm; st_block_num := block_num e;
             st_num_data_blocks := 0; st_file_size := 0 |} s) /\
  (forall k e ino,
     dir_find d nm = Some (k, e) ->
     block_at s (block_num e) = Some (Inode ino) ->
     0 <= file_size ino < 4294967296 ->
     jfs_stat nm s =
       Ok {| st_is_dir := IS_FILE; st_name := nm; st_block_num := block_num e;
             st_num_data_blocks := (file_size ino + BLOCK_SIZE - 1) / BLOCK_SIZE;
             st_file_size := file_size ino |} s /\
     (file_size ino = 0 -> (file_size ino + BLOCK_SIZE - 1) / BLOCK_SIZE = 0)).
Proof.
  intros Hcfg Hcwd Hok. pose proof (block_size_pos _ Hcfg) as Hbs.
  split; [|split].
  - intros Habs. by apply (stat_missing nm s d).
  - intros k e dd Hf Hb. unfold block_at in Hcwd, Hb.
    unfold jfs_stat. run_lookup Hcwd Hok. rewrite Hf.
    apply dir_find_slot in Hf as (Hk & _ & _). rewrite found_index.
    erewrite bind_Ok by (by apply arr_get_Ok).
    unfold bind, read_block. by rewrite Hb.
  - intros k e ino Hf Hb Hsz. split.
    + by apply (stat_file nm s d k).
    + intros ->. apply Z.div_small. lia.
Qed.

(** ** Removing an entry: the compaction loop *)

Lemma shift_loop (es : list dirent) (m j : nat) s :
  (j + m < length es)%nat ->
  for_range (Z.of_nat j) m
    (fun j es => e <- arr_get es (j + 1);; arr_set es j e) es s
  = Ok (take j es ++ take m (drop (S j) es) ++ drop (j + m) es) s.
Proof.
  revert j es. induction m as [|m IH]; intros j es Hlen.
  - cbn [for_range]. rewrite Nat.add_0_r, take_0. cbn [app]. by rewrite take_drop.
  - destruct (es !! S j) as [e|] eqn:He;
      [|apply lookup_ge_None in He; lia].
    cbn [for_range].
    replace (Z.of_nat j + 1) with (Z.of_nat (S j)) by lia.
    erewrite bind_Ok; cycle 1.
    { erewrite bind_Ok by (by apply arr_get_Ok). apply arr_set_Ok. lia. }
    rewrite IH by (rewrite length_insert; lia).
    f_equal.
    rewrite (take_S_r _ _ e) by (apply list_lookup_insert_eq; lia).
    rewrite take_insert_ge by lia.
    rewrite !drop_insert_lt by lia.
    rewrite (drop_S _ _ _ He). cbn [take].
    rewrite <- app_assoc. cbn. do 4 f_equal. lia.
Qed.

(** The loop leaves the array at its size and moves every later entry
    down by one slot. *)
Lemma shift_entries_spec (d : dirnode_t) (k : nat) s :
  dir_ok d -> Z.of_nat k < num_entries d ->
  exists es,
    shift_entries d (Z.of_nat k) s = Ok es s /\
    length es = length (entries d) /\
    take (Z.to_nat (num_entries d - 1)) es = delete k (dir_entries d).
Proof.
  intros [Hlen Hn] Hk. unfold shift_entries.
  set (n := Z.to_nat (num_entries d)).
  replace (Z.to_nat (num_entries d - 1 - Z.of_nat k)) with (n - 1 - k)%nat by lia.
  rewrite shift_loop by lia.
  eexists. split; [done|]. split.
  - rewrite !length_app, !length_take, !length_drop. lia.
  - replace (Z.to_nat (num_entries d - 1)) with (k + (n - 1 - k))%nat by lia.
    rewrite take_app_add' by (rewrite length_take; lia).
    rewrite take_app_length' by (rewrite length_take, length_drop; lia).
    rewrite delete_take_drop. unfold dir_entries. fold n.
    rewrite take_take, Nat.min_l by lia.
    rewrite take_drop_commute. do 3 f_equal. lia.
Qed.

(** ** [jfs_rmdir] *)

Ltac run_scan Hcwd Hok :=
  unfold bind at 1, get_current_dir; unfold bind at 1, read_block;
  rewrite Hcwd; cbn [as_dirnode]; unfold bind at 1, ret;
  rewrite scan_entries_dir by done.

Lemma is_dir_Dirnode (h : Z) (dd : dirnode_t) (s : fs) :
  block_at s h = Some (Dirnode dd) -> is_dir h s = Ok true s.
Proof. intros H. unfold is_dir, bind, read_block. unfold block_at in H. by rewrite H. Qed.

Lemma is_dir_Inode (h : Z) (ino : inode_t) (s : fs) :
  block_at s h = Some (Inode ino) -> is_dir h s = Ok false s.
Proof. intros H. unfold is_dir, bind, read_block. unfold block_at in H. by rewrite H. Qed.

(** C8: [jfs_rmdir] fails with [E_NOT_EXISTS] on a name the current
    directory does not hold, with [E_NOT_DIR] when the entry's block is an
    inode, and with [E_NOT_EMPTY] when the target directory has entries;
    otherwise it releases the target block and persists the current
    directory with one entry less, the entry removed and the later ones
    moved down in their order. *)
Theorem rmdir_spec (nm : string) (s : fs) (d : dirnode_t) :
  ConfigOK cfg ->
  block_at s (current_dir s) = Some (Dirnode d) ->
  dir_ok d ->
  (nm ∉ name <$> dir_entries d -> jfs_rmdir nm s = Fail E_NOT_EXISTS s) /\
  (forall k e ino,
     dir_find d nm = Some (k, e) ->
     block_at s (block_num e) = Some (Inode ino) ->
     jfs_rmdir nm s = Fail E_NOT_DIR s) /\
  (forall k e dd,
     dir_find d nm = Some (k, e) ->
     block_at s (block_num e) = Some (Dirnode dd) ->
     0 < num_entries dd ->
     jfs_rmdir nm s = Fail E_NOT_EMPTY s) /\
  (forall k e dd,
     dir_find d nm = Some (k, e) ->
     block_at s (block_num e) = Some (Dirnode dd) ->
     num_entries dd = 0 ->
     block_num e ∉ bad_release (disk s) ->
     current_dir s ∉ bad_write (disk s) ->
     exists d',
       jfs_rmdir nm s =
         Ok tt (with_store s (<[current_dir s := Dirnode d']> (blocks (disk s)))
                             (block_num e :: free_list (disk s))) /\
       num_entries d' = num_entries d - 1 /\
       length (entries d') = length (entries d) /\
       dir_entries d' = delete k (dir_entries d)).
Proof.
  intros Hcfg Hcwd Hok. unfold block_at in Hcwd.
  split; [|split; [|split]].
  - intros Habs. unfold jfs_rmdir. run_scan Hcwd Hok.
    by rewrite (dir_find_absent d nm Habs).
  - intros k e ino Hf Hb. unfold jfs_rmdir. run_scan Hcwd Hok. rewrite Hf.
    unfold rmdir_entry. by erewrite bind_Ok by (by eapply is_dir_Inode).
  - intros k e dd Hf Hb Hne. unfold jfs_rmdir. run_scan Hcwd Hok. rewrite Hf.
    unfold rmdir_entry. erewrite bind_Ok by (by eapply is_dir_Dirnode).
    cbn [negb]. erewrite bind_Ok by apply read_block_Ok. rewrite Hb.
    cbn [as_dirnode]. unfold bind at 1, ret.
    by rewrite (proj2 (Z.ltb_lt _ _) Hne).
  - intros k e dd Hf Hb Hz Hrel Hwr. unfold jfs_rmdir. run_scan Hcwd Hok. rewrite Hf.
    apply dir_find_slot in Hf as (Hk & _ & Hlt).
    destruct (shift_entries_spec d k
                (with_store s (blocks (disk s)) (block_num e :: free_list (disk s)))
                Hok Hlt) as (es & Hshift & Hlen & Htake).
    exists {| num_entries := num_entries d - 1; entries := es |}.
    split; [|done].
    unfold rmdir_entry. erewrite bind_Ok by (by eapply is_dir_Dirnode).
    cbn [negb]. erewrite bind_Ok by apply read_block_Ok. rewrite Hb.
    cbn [as_dirnode]. unfold bind at 1, ret.
    rewrite Hz. cbn [Z.ltb Z.compare].
    erewrite bind_Ok by (by apply release_block_Ok). cbn [negb].
    erewrite bind_Ok by exact Hshift.
    erewrite bind_Ok by (by apply write_block_Ok). cbn [negb].
    unfold ret, u16. rewrite Z.mod_small; [done|].
    destruct Hok as [_ Hn]. pose proof (max_dir_entries_short _ Hcfg). lia.
Qed.

(** ** [jfs_remove] *)

Lemma with_store_id (s : fs) : with_store s (blocks (disk s)) (free_list (disk s)) = s.
Proof. by destruct s as [[] ?]. Qed.

(** The release loop hands back the populated slots, in order, and stops
    at the first [0] or at the end of the array. *)
Lemma release_data_spec (dbs : list Z) (n i : nat) (s : fs) :
  (i + n)%nat = length dbs ->
  (forall h, h ∈ populated (drop i dbs) -> h ∉ bad_release (disk s)) ->
  release_data dbs (Z.of_nat i) n s =
    Ok tt (with_store s (blocks (disk s))
             (reverse (populated (drop i dbs)) ++ free_list (disk s))).
Proof.
  revert i s. induction n as [|n IH]; intros i s Hlen Hbad.
  - rewrite drop_ge by lia. cbn. unfold ret. by rewrite with_store_id.
  - destruct (dbs !! i) as [h|] eqn:Hh;
      [|apply lookup_ge_None in Hh; lia].
    cbn [release_data]. erewrite bind_Ok by (by apply arr_get_Ok).
    rewrite (drop_S _ _ _ Hh) in Hbad |- *. cbn [populated] in Hbad |- *.
    destruct (h =? 0) eqn:Hz.
    + cbn. unfold ret. by rewrite with_store_id.
    + erewrite bind_Ok by (apply release_block_Ok, Hbad, elem_of_cons; by left).
      cbn [negb]. replace (Z.of_nat i + 1) with (Z.of_nat (S i)) by lia.
      rewrite IH; [|lia|].
      * rewrite reverse_cons, <- app_assoc. done.
      * intros h' Hin. cbn. apply Hbad, elem_of_cons. by right.
Qed.

Lemma delete_name_absent (l : list dirent) (k : nat) (e : dirent) :
  NoDup (name <$> l) -> l !! k = Some e -> name e ∉ name <$> delete k l.
Proof.
  intros Hnd Hk. rewrite list_fmap_delete.
  assert ((name <$> l) !! k = Some (name e)) as Hk'
    by (by rewrite list_lookup_fmap, Hk).
  rewrite delete_take_drop.
  rewrite <- (take_drop_middle _ _ _ Hk') in Hnd.
  apply NoDup_app in Hnd as (_ & Hdisj & Hnd).
  apply NoDup_cons in Hnd as [Hnotin _].
  rewrite elem_of_app. intros [Hin|Hin]; [|done].
  apply (Hdisj _ Hin), elem_of_cons. by left.
Qed.

(** C7: [jfs_remove] fails with [E_NOT_EXISTS] on a name the current
    directory does not hold and with [E_IS_DIR] when the entry's block is
    a directory node; otherwise it releases the populated data-block
    handles up to the first [0] slot, then the inode block, once, persists
    the current directory without the entry, and [jfs_stat] on the name
    then fails with [E_NOT_EXISTS]. *)
Theorem remove_spec (nm : string) (s : fs) (d : dirnode_t) :
  ConfigOK cfg ->
  block_at s (current_dir s) = Some (Dirnode d) ->
  dir_ok d ->
  (nm ∉ name <$> dir_entries d -> jfs_remove nm s = Fail E_NOT_EXISTS s) /\
  (forall k e dd,
     dir_find d nm = Some (k, e) ->
     block_at s (block_num e) = Some (Dirnode dd) ->
     jfs_remove nm s = Fail E_IS_DIR s) /\
  (forall k e ino,
     dir_find d nm = Some (k, e) ->
     block_at s (block_num e) = Some (Inode ino) ->
     length (data_blocks ino) = Z.to_nat MAX_DATA_BLOCKS ->
     (forall h, h ∈ block_num e :: populated (data_blocks ino) ->
                h ∉ bad_release (disk s)) ->
     current_dir s ∉ bad_write (disk s) ->
     NoDup (name <$> dir_entries d) ->
     exists d' s',
       jfs_remove nm s = Ok tt s' /\
       s' = with_store s (<[current_dir s := Dirnode d']> (blocks (disk s)))
              (block_num e :: reverse (populated (data_blocks ino)) ++ free_list (disk s)) /\
       Z.of_nat (length (populated (data_blocks ino))) <= MAX_DATA_BLOCKS /\
       num_entries d' = num_entries d - 1 /\
       dir_entries d' = delete k (dir_entries d) /\
       jfs_stat nm s' = Fail E_NOT_EXISTS s').
Proof.
  intros Hcfg Hcwd Hok. unfold block_at in Hcwd.
  split; [|split].
  - intros Habs. unfold jfs_remove. run_lookup Hcwd Hok.
    by rewrite (dir_find_absent d nm Habs).
  - intros k e dd Hf Hb. unfold jfs_remove. run_lookup Hcwd Hok. rewrite Hf.
    apply dir_find_slot in Hf as (Hk & _ & _). rewrite found_index.
    erewrite bind_Ok by (by apply arr_get_Ok).
    erewrite bind_Ok by apply read_block_Ok. by rewrite Hb.
  - intros k e ino Hf Hb Hlen Hrel Hwr Hnd.
    pose proof Hf as (Hk & Hnm & Hlt)%dir_find_slot.
    set (s1 := with_store s (blocks (disk s))
                 (reverse (populated (data_blocks ino)) ++ free_list (disk s))).
    set (s2 := with_store s (blocks (disk s))
                 (block_num e :: reverse (populated (data_blocks ino)) ++ free_list (disk s))).
    destruct (shift_entries_spec d k s2 Hok Hlt) as (es & Hshift & Hes & Htake).
    set (d' := {| num_entries := num_entries d - 1; entries := es |}).
    assert (dir_entries d' = delete k (dir_entries d)) as Hd' by done.
    exists d', (with_store s (<[current_dir s := Dirnode d']> (blocks (disk s)))
                  (block_num e :: reverse (populated (data_blocks ino)) ++ free_list (disk s))).
    split; [|split; [done|split; [|split; [done|split; [done|]]]]].
    + unfold jfs_remove. run_lookup Hcwd Hok. rewrite Hf, found_index.
      erewrite bind_Ok by (by apply arr_get_Ok).
      erewrite bind_Ok by apply read_block_Ok. rewrite Hb.
      erewrite bind_Ok; cycle 1.
      { apply (release_data_spec _ _ 0); [cbn; lia|].
        intros h Hh. rewrite drop_0 in Hh. apply Hrel, elem_of_cons. by right. }
      rewrite drop_0. fold s1.
      erewrite bind_Ok; cycle 1.
      { apply release_block_Ok. cbn. apply Hrel, elem_of_cons. by left. }
      cbn [negb]. change (with_store s1 _ _) with s2.
      erewrite bind_Ok by exact Hshift.
      erewrite bind_Ok by (by apply write_block_Ok). cbn [negb].
      unfold ret, u16. rewrite Z.mod_small; [done|].
      destruct Hok as [_ Hn]. pose proof (max_dir_entries_short _ Hcfg). lia.
    + pose proof (max_data_blocks_nonneg _ Hcfg).
      assert (length (populated (data_blocks ino)) <= length (data_blocks ino))%nat; [|lia].
      clear. induction (data_blocks ino) as [|h l IH]; cbn; [lia|].
      destruct (h =? 0); cbn; lia.
    + apply (stat_missing nm _ d').
      * unfold block_at. cbn. apply lookup_insert_eq.
      * destruct Hok as [Hl Hn]. split; cbn; [congruence|lia].
      * rewrite Hd', <- Hnm. apply delete_name_absent; [done|].
        unfold dir_entries. rewrite lookup_take_lt by lia. done.
Qed.

(** ** [jfs_read] *)

Lemma MIN_min (a b : Z) : MIN a b = Z.min a b.
Proof. unfold MIN. destruct (Z.ltb_spec a b); lia. Qed.

Lemma u16_small (z : Z) : 0 <= z < 65536 -> u16 z = z.
Proof. apply Z.mod_small. Qed.

Lemma blocks_for_bounds (n : Z) :
  0 < BLOCK_SIZE -> 0 <= n ->
  0 <= blocks_for n /\ n <= blocks_for n * BLOCK_SIZE < n + BLOCK_SIZE.
Proof.
  intros Hbs Hn. unfold blocks_for.
  pose proof (Z_div_mod_eq_full (n + BLOCK_SIZE - 1) BLOCK_SIZE).
  pose proof (Z.mod_pos_bound (n + BLOCK_SIZE - 1) BLOCK_SIZE Hbs).
  assert (0 <= (n + BLOCK_SIZE - 1) / BLOCK_SIZE) by (apply Z.div_pos; lia).
  nia.
Qed.

Lemma block_bytes_Data (s : fs) (h : Z) (bytes : list byte) :
  block_at s h = Some (Data bytes) -> block_bytes s h = bytes.
Proof. intros H. unfold block_bytes. by rewrite H. Qed.

Lemma length_data_blocks (s : fs) (hs : list Z) :
  Forall (is_data_block s) hs ->
  Z.of_nat (length (mjoin (block_bytes s <$> hs))) = Z.of_nat (length hs) * BLOCK_SIZE.
Proof.
  induction 1 as [|h hs (bytes & Hb & Hlen) _ IH]; [done|].
  change (mjoin (block_bytes s <$> h :: hs))
    with (block_bytes s h ++ mjoin (block_bytes s <$> hs)).
  rewrite length_app, (block_bytes_Data _ _ _ Hb). cbn [length]. nia.
Qed.

(** The gathering loop: after the blocks [hs], which sit in the inode from
    slot [i] on, the buffer has grown by the next bytes of their
    concatenation, up to [bytes_to_read]. *)
Lemma read_loop (hs dbs : list Z) (i : nat) (btr have : Z) (out : list byte) (s : fs) :
  0 < BLOCK_SIZE ->
  0 <= have <= btr -> btr < 65536 ->
  (forall j h, hs !! j = Some h -> dbs !! (i + j)%nat = Some h) ->
  Forall (is_data_block s) hs ->
  for_range (Z.of_nat i) (length hs) (read_body dbs btr) (have, out) s =
    Ok (Z.min btr (have + Z.of_nat (length hs) * BLOCK_SIZE),
        out ++ take (Z.to_nat (btr - have)) (mjoin (block_bytes s <$> hs))) s.
Proof.
  intros Hbs. revert i have out.
  induction hs as [|h hs IH]; intros i have out Hhave Hbtr Hslot Hdata.
  - cbn. unfold ret. rewrite take_nil, app_nil_r. do 2 f_equal. lia.
  - apply Forall_cons in Hdata as [(bytes & Hb & Hlen) Hdata].
    cbn [length for_range].
    set (btb := Z.min (btr - have) BLOCK_SIZE).
    erewrite bind_Ok; cycle 1.
    { unfold read_body. cbn [fst snd].
      erewrite bind_Ok; cycle 1.
      { apply arr_get_Ok. rewrite <- (Nat.add_0_r i). by apply Hslot. }
      erewrite bind_Ok by apply read_block_Ok. rewrite Hb. cbn [as_data].
      unfold bind, ret. rewrite MIN_min. fold btb.
      rewrite (u16_small btb) by lia. rewrite u16_small by lia. done. }
    replace (Z.of_nat i + 1) with (Z.of_nat (S i)) by lia.
    rewrite IH; [|lia|lia| |done]; cycle 1.
    { intros j h' Hj. replace (S i + j)%nat with (i + S j)%nat by lia. by apply Hslot. }
    f_equal. f_equal; [lia|].
    rewrite <- app_assoc. f_equal.
    change (mjoin (block_bytes s <$> h :: hs))
      with (block_bytes s h ++ mjoin (block_bytes s <$> hs)).
    rewrite (block_bytes_Data _ _ _ Hb).
    rewrite take_app. f_equal.
    + destruct (Z.le_ge_cases (btr - have) BLOCK_SIZE).
      * f_equal. lia.
      * rewrite !take_ge by lia. done.
    + f_equal. lia.
Qed.

(** Reading a file that is in order returns the first
    [min(file_size, count)] bytes of its content and leaves the state. *)
Lemma read_file (nm : string) (count : Z) (s : fs) (d : dirnode_t)
    (k : nat) (e : dirent) (ino : inode_t) :
  ConfigOK cfg ->
  block_at s (current_dir s) = Some (Dirnode d) ->
  dir_ok d ->
  dir_find d nm = Some (k, e) ->
  block_at s (block_num e) = Some (Inode ino) ->
  file_ok s ino ->
  0 <= count < 65536 ->
  jfs_read nm count s =
    Ok (Z.min (file_size ino) count,
        take (Z.to_nat (Z.min (file_size ino) count)) (file_content s ino)) s.
Proof.
  intros Hcfg Hcwd Hok Hf Hb (Hsz & Hlen & Hdata) Hcount.
  pose proof (block_size_pos _ Hcfg) as Hbs.
  pose proof (max_file_size_short _ Hcfg) as Hshort.
  pose proof (max_file_size_blocks _ Hcfg) as Hcap.
  unfold block_at in Hcwd.
  unfold jfs_read. run_lookup Hcwd Hok. rewrite Hf.
  apply dir_find_slot in Hf as (Hk & _ & _). rewrite found_index.
  erewrite bind_Ok by (by apply arr_get_Ok).
  erewrite bind_Ok by apply read_block_Ok. rewrite Hb.
  rewrite MIN_min. set (n := Z.min (file_size ino) count).
  rewrite (u16_small n) by lia.
  destruct (blocks_for_bounds n Hbs ltac:(lia)) as [Hbu0 Hbu].
  destruct (blocks_for_bounds (file_size ino) Hbs ltac:(lia)) as [Hnb0 Hnb].
  fold (blocks_for n). rewrite u16_small by nia.
  assert (blocks_for n <= blocks_for (file_size ino)) as Hle
    by (apply Z.div_le_mono; lia).
  assert (blocks_for (file_size ino) <= MAX_DATA_BLOCKS) as Hmax by nia.
  set (hs := take (Z.to_nat (blocks_for n)) (data_blocks ino)).
  assert (length hs = Z.to_nat (blocks_for n)) as Hhs
    by (unfold hs; rewrite length_take; lia).
  assert (Forall (is_data_block s) hs) as Hhsdata.
  { unfold hs.
    replace (Z.to_nat (blocks_for n))
      with (Z.to_nat (blocks_for n) `min` Z.to_nat (blocks_for (file_size ino)))%nat by lia.
    rewrite <- take_take. by apply Forall_take. }
  assert (forall j h, hs !! j = Some h -> data_blocks ino !! (0 + j)%nat = Some h) as Hslot.
  { intros j h Hj. unfold hs in Hj. by apply lookup_take_Some in Hj as [Hj _]. }
  assert (0 <= 0 <= n) as Hn0 by lia. assert (n < 65536) as Hn1 by lia.
  pose proof (read_loop hs (data_blocks ino) 0 n 0 [] s Hbs Hn0 Hn1 Hslot Hhsdata) as Hloop.
  rewrite Hhs in Hloop. change (Z.of_nat 0) with 0 in Hloop. rewrite Hloop.
  f_equal. f_equal; [lia|].
  cbn [app]. rewrite Z.sub_0_r. unfold file_content.
  rewrite take_take. replace (Z.to_nat n `min` Z.to_nat (file_size ino))%nat
    with (Z.to_nat n) by lia.
  rewrite <- (take_drop (Z.to_nat (blocks_for n)) (data_blocks ino)) at 1.
  fold hs. rewrite fmap_app, join_app.
  rewrite take_app_le; [done|].
  pose proof (length_data_blocks s hs Hhsdata). lia.
Qed.

(** C6: [jfs_read] fails with [E_NOT_EXISTS] on a name the current
    directory does not hold and with [E_IS_DIR] when the entry's block is
    a directory node; otherwise it returns [n = min(file_size, count)] and
    the first [n] bytes of the file's content, and the state after the call
    is the state before it. *)
Theorem read_spec (nm : string) (count : Z) (s : fs) (d : dirnode_t) :
  ConfigOK cfg ->
  block_at s (current_dir s) = Some (Dirnode d) ->
  dir_ok d ->
  (nm ∉ name <$> dir_entries d -> jfs_read nm count s = Fail E_NOT_EXISTS s) /\
  (forall k e dd,
     dir_find d nm = Some (k, e) ->
     block_at s (block_num e) = Some (Dirnode dd) ->
     jfs_read nm count s = Fail E_IS_DIR s) /\
  (forall k e ino,
     dir_find d nm = Some (k, e) ->
     block_at s (block_num e) = Some (Inode ino) ->
     file_ok s ino ->
     0 <= count < 65536 ->
     jfs_read nm count s =
       Ok (Z.min (file_size ino) count,
           take (Z.to_nat (Z.min (file_size ino) count)) (file_content s ino)) s).
Proof.
  intros Hcfg Hcwd Hok. split; [|split].
  - intros Habs. unfold block_at in Hcwd.
    unfold jfs_read. run_lookup Hcwd Hok.
    by rewrite (dir_find_absent d nm Habs).
  - intros k e dd Hf Hb. unfold block_at in Hcwd.
    unfold jfs_read. run_lookup Hcwd Hok. rewrite Hf.
    apply dir_find_slot in Hf as (Hk & _ & _). rewrite found_index.
    erewrite bind_Ok by (by apply arr_get_Ok).
    erewrite bind_Ok by apply read_block_Ok. by rewrite Hb.
  - intros k e ino Hf Hb Hfile Hcount. by eapply read_file.
Qed.

(** ** [jfs_write]: the size check *)

(** C5: a write that would take the file past [MAX_FILE_SIZE] returns
    [E_MAX_FILE_SIZE]; the state is the one before the call, so nothing of
    the write is committed and [jfs_stat] on the file succeeds with the
    same record as before.  The sum is the 32-bit sum of the code, which
    an inode within [MAX_FILE_SIZE] never wraps. *)
Theorem write_too_large (nm : string) (buf : list byte) (count : Z) (s : fs)
    (d : dirnode_t) (k : nat) (e : dirent) (ino : inode_t) :
  ConfigOK cfg ->
  block_at s (current_dir s) = Some (Dirnode d) ->
  dir_ok d ->
  dir_find d nm = Some (k, e) ->
  block_at s (block_num e) = Some (Inode ino) ->
  0 <= file_size ino -> 0 <= count < 65536 ->
  file_size ino + count < 4294967296 ->
  MAX_FILE_SIZE < file_size ino + count ->
  exists s' r,
    jfs_write nm buf count s = Fail E_MAX_FILE_SIZE s' /\
    s' = s /\
    jfs_stat nm s = Ok r s /\
    jfs_stat nm s' = Ok r s' /\
    st_file_size r = file_size ino /\
    st_num_data_blocks r = blocks_for (file_size ino) /\
    st_block_num r = block_num e /\
    st_is_dir r = IS_FILE.
Proof.
  intros Hcfg Hcwd Hok Hf Hb Hsz Hcount Hwrap Hbig.
  pose proof (block_size_pos _ Hcfg) as Hbs.
  pose proof Hf as (Hk & _ & _)%dir_find_slot.
  unfold block_at in Hcwd.
  exists s. eexists. split; [|split; [done|]].
  - unfold jfs_write. run_lookup Hcwd Hok. rewrite Hf, found_index.
    erewrite bind_Ok by (by apply arr_get_Ok).
    erewrite bind_Ok by apply read_block_Ok. rewrite Hb.
    unfold u32. rewrite Z.mod_small by lia.
    by rewrite (proj2 (Z.ltb_lt _ _) Hbig).
  - assert (jfs_stat nm s = Ok _ s) as Hstat
      by (apply (stat_file nm s d k e ino); [done..|lia]).
    by rewrite Hstat.
Qed.

(** ** [jfs_creat] *)

Lemma allocate_block_Ok (h : Z) (rest : list Z) (s : fs) :
  free_list (disk s) = h :: rest ->
  allocate_block s = Ok h (with_store s (blocks (disk s)) rest).
Proof. intros H. unfold allocate_block. by rewrite H. Qed.

Lemma dir_add_entries (d : dirnode_t) (e : dirent) :
  dir_ok d -> num_entries d < MAX_DIR_ENTRIES ->
  dir_entries (dir_add d e) = dir_entries d ++ [e].
Proof.
  intros [Hlen Hn] Hroom. unfold dir_entries, dir_add. cbn [num_entries entries].
  replace (Z.to_nat (num_entries d + 1)) with (S (Z.to_nat (num_entries d))) by lia.
  rewrite (take_S_r _ _ e) by (apply list_lookup_insert_eq; lia).
  by rewrite take_insert_ge by lia.
Qed.

Lemma dir_add_ok (d : dirnode_t) (e : dirent) :
  dir_ok d -> num_entries d < MAX_DIR_ENTRIES -> dir_ok (dir_add d e).
Proof.
  intros [Hlen Hn] Hroom. split; cbn; [by rewrite length_insert|lia].
Qed.

Lemma dir_add_find (d : dirnode_t) (e : dirent) :
  dir_ok d -> num_entries d < MAX_DIR_ENTRIES ->
  name e ∉ name <$> dir_entries d ->
  dir_find (dir_add d e) (name e) = Some (Z.to_nat (num_entries d), e).
Proof.
  intros Hok Hroom Hfresh. pose proof Hok as [Hlen Hn].
  assert (length (dir_entries d) = Z.to_nat (num_entries d)) as Hl
    by (unfold dir_entries; rewrite length_take; lia).
  unfold dir_find. rewrite dir_add_entries by done.
  apply list_find_Some. split; [|split; [done|]].
  - rewrite lookup_app_r by lia. by rewrite Hl, Nat.sub_diag.
  - intros j y Hj Hlt Hy. apply Hfresh, list_elem_of_fmap.
    exists y. split; [done|].
    rewrite lookup_app_l in Hj by lia. by eapply list_elem_of_lookup_2.
Qed.

(** Creating a file under a fresh name, with room in the directory and a
    usable free block: the inode is persisted empty and the directory
    gains the entry. *)
Lemma creat_fresh (nm : string) (s : fs) (d : dirnode_t) (h0 : Z) (rest : list Z) :
  ConfigOK cfg ->
  block_at s (current_dir s) = Some (Dirnode d) ->
  dir_ok d ->
  num_entries d < MAX_DIR_ENTRIES ->
  Z.of_nat (String.length nm) <= MAX_NAME_LENGTH ->
  nm ∉ name <$> dir_entries d ->
  free_list (disk s) = h0 :: rest ->
  h0 <> 0 ->
  h0 ∉ bad_write (disk s) -> current_dir s ∉ bad_write (disk s) ->
  jfs_creat nm s =
    Ok tt (with_store s
             (<[current_dir s := Dirnode (dir_add d {| block_num := h0; name := nm |})]>
                (<[h0 := Inode {| file_size := 0; data_blocks := zero_data_blocks |}]>
                   (blocks (disk s))))
             rest).
Proof.
  intros Hcfg Hcwd Hok Hroom Hname Hfresh Hfree Hh0 Hw0 Hwc.
  pose proof Hok as [Hlen Hn]. unfold block_at in Hcwd.
  unfold jfs_creat. unfold bind at 1, get_current_dir.
  rewrite (proj2 (Z.ltb_ge _ _) Hname).
  unfold bind at 1, read_block. rewrite Hcwd. cbn [as_dirnode].
  unfold bind at 1, ret at 1.
  erewrite bind_Ok by (by apply find_entry_dir).
  rewrite (dir_find_absent d nm Hfresh), Z.eqb_refl. cbn [negb].
  rewrite (proj2 (Z.leb_gt _ _) Hroom).
  erewrite bind_Ok by (by apply allocate_block_Ok).
  rewrite (proj2 (Z.eqb_neq _ _) Hh0).
  erewrite bind_Ok by (by apply write_block_Ok). cbn [negb].
  erewrite bind_Ok; cycle 1.
  { rewrite <- (Z2Nat.id (num_entries d)) at 1 by lia. apply arr_set_Ok. lia. }
  erewrite bind_Ok by (by apply write_block_Ok). cbn [negb].
  pose proof (max_dir_entries_short _ Hcfg).
  rewrite u16_small by lia. done.
Qed.

(** ** [jfs_write]: the three loops *)

(** The allocation loop fills [data_block_nums] from slot [i] on with the
    next free handles, as long as they are there. *)
Lemma alloc_loop (nsp : Z) (hs rest : list Z) (i : nat) (arr : list Z) (s : fs) :
  free_list (disk s) = hs ++ rest ->
  Forall (fun h => h <> 0) hs ->
  (i + length hs <= length arr)%nat ->
  for_range (Z.of_nat i) (length hs) (alloc_body nsp) arr s =
    Ok (take i arr ++ hs ++ drop (i + length hs) arr)
       (with_store s (blocks (disk s)) rest).
Proof.
  revert i arr s. induction hs as [|h hs IH]; intros i arr s Hfree Hnz Hlen.
  - cbn [for_range length app]. cbn in Hfree. rewrite <- Hfree.
    unfold ret. by rewrite Nat.add_0_r, take_drop, with_store_id.
  - apply Forall_cons in Hnz as [Hh Hnz]. cbn [length] in Hlen.
    cbn [for_range length].
    erewrite bind_Ok; cycle 1.
    { unfold alloc_body.
      erewrite bind_Ok by (by apply allocate_block_Ok).
      erewrite bind_Ok by (apply arr_set_Ok; lia).
      erewrite bind_Ok by (apply arr_get_Ok, list_lookup_insert_eq; lia).
      by rewrite (proj2 (Z.eqb_neq _ _) Hh). }
    replace (Z.of_nat i + 1) with (Z.of_nat (S i)) by lia.
    rewrite IH; [|done|done|rewrite length_insert; lia].
    f_equal.
    rewrite (take_S_r _ _ h) by (apply list_lookup_insert_eq; lia).
    rewrite take_insert_ge by lia. rewrite drop_insert_lt by lia.
    rewrite <- app_assoc. cbn [app length]. by rewrite Nat.add_succ_r.
Qed.

(** The loop that writes the chunks persists one chunk per handle. *)
Lemma write_loop (abuf : list byte) (ws nsp : Z) (dbn hs : list Z) (i : nat) (bw : Z) (s : fs) :
  0 < BLOCK_SIZE ->
  0 <= bw <= ws -> ws < 65536 ->
  (forall j h, hs !! j = Some h -> dbn !! (i + j)%nat = Some h) ->
  Forall (fun h => h ∉ bad_write (disk s)) hs ->
  exists bw',
    for_range (Z.of_nat i) (length hs) (write_body abuf ws nsp dbn) bw s =
      Ok bw' (with_store s (put_chunks hs abuf ws bw (blocks (disk s)))
                           (free_list (disk s))).
Proof.
  intros Hbs. revert i bw s.
  induction hs as [|h hs IH]; intros i bw s Hbw Hws Hslot Hgood.
  - exists bw. cbn. unfold ret. by rewrite with_store_id.
  - apply Forall_cons in Hgood as [Hh Hgood].
    set (btw := Z.min (ws - bw) BLOCK_SIZE).
    set (s1 := with_store s (<[h := Data (chunk abuf ws bw)]> (blocks (disk s)))
                 (free_list (disk s))).
    destruct (IH (S i) (bw + btw) s1) as [bw' Hloop]; [lia|lia| |done|].
    { intros j h' Hj. replace (S i + j)%nat with (i + S j)%nat by lia. by apply Hslot. }
    exists bw'. cbn [for_range length].
    erewrite bind_Ok; cycle 1.
    { unfold write_body.
      erewrite bind_Ok; cycle 1.
      { apply arr_get_Ok. rewrite <- (Nat.add_0_r i). by apply Hslot. }
      rewrite MIN_min. fold btw. rewrite (u16_small btw) by lia.
      erewrite bind_Ok by (by apply write_block_Ok). cbn [negb].
      rewrite u16_small by lia. done. }
    replace (Z.of_nat i + 1) with (Z.of_nat (S i)) by lia.
    etrans; [exact Hloop|done].
Qed.

(** The loop that copies the handles into the inode. *)
Lemma update_loop (dbn : list Z) (m i : nat) (dbs : list Z) (s : fs) :
  (i + m <= length dbn)%nat -> (i + m <= length dbs)%nat ->
  for_range (Z.of_nat i) m (update_body dbn) dbs s =
    Ok (take i dbs ++ take m (drop i dbn) ++ drop (i + m) dbs) s.
Proof.
  revert i dbs. induction m as [|m IH]; intros i dbs Hn Hs.
  - cbn [for_range]. rewrite Nat.add_0_r, take_0. cbn [app]. by rewrite take_drop.
  - destruct (dbn !! i) as [h|] eqn:Hh;
      [|apply lookup_ge_None in Hh; lia].
    cbn [for_range].
    erewrite bind_Ok; cycle 1.
    { unfold update_body. erewrite bind_Ok by (by apply arr_get_Ok).
      apply arr_set_Ok. lia. }
    replace (Z.of_nat i + 1) with (Z.of_nat (S i)) by lia.
    rewrite IH by (rewrite ?length_insert; lia).
    f_equal.
    rewrite (take_S_r _ _ h) by (apply list_lookup_insert_eq; lia).
    rewrite take_insert_ge by lia. rewrite drop_insert_lt by lia.
    rewrite (drop_S _ _ _ Hh). cbn [take].
    rewrite <- app_assoc. cbn [app]. by rewrite Nat.add_succ_r.
Qed.

(** ** [jfs_write] on an empty file *)

Lemma u32_small (z : Z) : 0 <= z < 4294967296 -> u32 z = z.
Proof. apply Z.mod_small. Qed.

Lemma write_fresh (nm : string) (b : list byte) (s : fs) (d : dirnode_t)
    (k : nat) (e : dirent) (ino : inode_t) (hs rest : list Z) :
  ConfigOK cfg ->
  block_at s (current_dir s) = Some (Dirnode d) ->
  dir_ok d ->
  dir_find d nm = Some (k, e) ->
  block_at s (block_num e) = Some (Inode ino) ->
  file_size ino = 0 ->
  length (data_blocks ino) = Z.to_nat MAX_DATA_BLOCKS ->
  b <> [] ->
  Z.of_nat (length b) <= MAX_FILE_SIZE ->
  free_list (disk s) = hs ++ rest ->
  Z.of_nat (length hs) = blocks_for (Z.of_nat (length b)) ->
  Forall (fun h => h <> 0) hs ->
  Forall (fun h => h ∉ bad_write (disk s)) hs ->
  block_num e ∉ bad_write (disk s) ->
  jfs_write nm b (Z.of_nat (length b)) s =
    Ok tt (with_store s
             (<[block_num e :=
                  Inode {| file_size := Z.of_nat (length b);
                           data_blocks := hs ++ drop (length hs) (data_blocks ino) |}]>
                (put_chunks hs b (Z.of_nat (length b)) 0 (blocks (disk s))))
             rest).
Proof.
  intros Hcfg Hcwd Hok Hf Hb Hfs Hdbs Hne Hsize Hfree Hhs Hnz Hgood Hgoodi.
  assert (0 < Z.of_nat (length b)) as Hpos by (destruct b; [done|cbn [length]; lia]).
  pose proof (block_size_pos _ Hcfg) as Hbs.
  pose proof (max_file_size_short _ Hcfg) as Hshort.
  pose proof (max_file_size_blocks _ Hcfg) as Hcap.
  pose proof (blocks_for_bounds (Z.of_nat (length b)) Hbs ltac:(lia)) as [Hbn0 Hbn].
  pose proof Hf as (Hk & _ & _)%dir_find_slot.
  unfold block_at in Hcwd.
  assert (append_position_of 0 = 0) as Hap
    by (unfold append_position_of; by rewrite Z.mod_0_l by lia).
  assert (next_start_position_of 0 = 0) as Hnsp by done.
  assert (blocks_needed_of (Z.of_nat (length b)) = Z.of_nat (length hs)) as Hneed.
  { unfold blocks_needed_of. fold (blocks_for (Z.of_nat (length b))).
    rewrite u16_small by nia. done. }
  unfold jfs_write. run_lookup Hcwd Hok. rewrite Hf, found_index.
  erewrite bind_Ok by (by apply arr_get_Ok).
  erewrite bind_Ok by apply read_block_Ok. rewrite Hb.
  rewrite !Hfs, !Hap, !Hnsp. rewrite Z.add_0_l, Z.add_0_r.
  rewrite u32_small by lia. rewrite (proj2 (Z.ltb_ge _ _) Hsize).
  rewrite Z.ltb_irrefl. cbn [andb]. unfold bind at 1.
  rewrite (u16_small (Z.of_nat (length b))) by lia.
  rewrite Hneed, Nat2Z.id, Z.sub_0_r.
  rewrite (proj2 (Z.eqb_neq _ 0)) by nia.
  pose proof (alloc_loop 0 hs rest 0 (replicate (length hs) 0) s Hfree Hnz) as Halloc.
  rewrite length_replicate in Halloc. specialize (Halloc ltac:(lia)).
  rewrite take_0, drop_ge in Halloc by (rewrite length_replicate; lia).
  cbn [app] in Halloc. rewrite app_nil_r in Halloc.
  change (Z.of_nat 0) with 0 in Halloc.
  erewrite bind_Ok by exact Halloc.
  set (s1 := with_store s (blocks (disk s)) rest).
  destruct (write_loop b (Z.of_nat (length b)) 0 hs hs 0 0 s1 Hbs) as [bw' Hwrite];
    [lia|lia|done|done|].
  change (Z.of_nat 0) with 0 in Hwrite.
  erewrite bind_Ok by exact Hwrite.
  pose proof (update_loop hs (length hs) 0 (data_blocks ino)
                (with_store s1 (put_chunks hs b (Z.of_nat (length b)) 0 (blocks (disk s1)))
                   (free_list (disk s1)))) as Hupd.
  change (Z.of_nat 0) with 0 in Hupd.
  erewrite bind_Ok by (apply Hupd; cbn; nia).
  rewrite take_0, drop_0, take_ge by done. cbn [app Nat.add].
  erewrite bind_Ok by (by apply write_block_Ok). cbn [negb].
  rewrite u32_small by lia. done.
Qed.

(** ** What the written chunks hold *)

Lemma put_chunks_other (hs : list Z) (abuf : list byte) (ws bw : Z)
    (bl : gmap Z block) (h : Z) :
  h ∉ hs -> put_chunks hs abuf ws bw bl !! h = bl !! h.
Proof.
  revert bw bl. induction hs as [|h' hs IH]; intros bw bl Hh; [done|].
  apply not_elem_of_cons in Hh as [Hne Hh].
  cbn [put_chunks]. rewrite IH by done. by apply lookup_insert_ne.
Qed.

Lemma put_chunks_lookup (hs : list Z) (abuf : list byte) (ws bw : Z)
    (bl : gmap Z block) (j : nat) (h : Z) :
  NoDup hs -> hs !! j = Some h ->
  put_chunks hs abuf ws bw bl !! h = Data <$> chunks_from abuf ws bw (length hs) !! j.
Proof.
  revert bw bl j. induction hs as [|h' hs IH]; intros bw bl j Hnd Hj; [done|].
  apply NoDup_cons in Hnd as [Hnotin Hnd].
  cbn [put_chunks length chunks_from].
  destruct j as [|j]; cbn in Hj.
  - injection Hj as ->. rewrite put_chunks_other by done.
    by rewrite lookup_insert_eq.
  - by apply IH.
Qed.

Lemma length_chunks_from (abuf : list byte) (ws bw : Z) (n : nat) :
  length (chunks_from abuf ws bw n) = n.
Proof. revert bw. induction n as [|n IH]; intros bw; cbn; [done|by rewrite IH]. Qed.

Lemma length_chunk (abuf : list byte) (ws bw : Z) :
  0 < BLOCK_SIZE -> Z.of_nat (length abuf) = ws -> 0 <= bw <= ws ->
  Z.of_nat (length (chunk abuf ws bw)) = BLOCK_SIZE.
Proof.
  intros Hbs Hlen Hbw. unfold chunk, memcpy, zeros.
  rewrite !length_app, !length_take, !length_drop, length_replicate. lia.
Qed.

Lemma chunks_from_length (abuf : list byte) (ws bw : Z) (n : nat) :
  0 < BLOCK_SIZE -> Z.of_nat (length abuf) = ws -> 0 <= bw <= ws ->
  Forall (fun c => Z.of_nat (length c) = BLOCK_SIZE) (chunks_from abuf ws bw n).
Proof.
  intros Hbs Hlen. revert bw. induction n as [|n IH]; intros bw Hbw; cbn; [done|].
  constructor; [by apply length_chunk|]. apply IH. lia.
Qed.

(** The chunks, one after the other, are the buffer followed by padding. *)
Lemma chunks_from_join (abuf : list byte) (ws bw : Z) (n : nat) :
  0 < BLOCK_SIZE -> Z.of_nat (length abuf) = ws -> 0 <= bw <= ws ->
  Z.of_nat n = blocks_for (ws - bw) ->
  exists pad, mjoin (chunks_from abuf ws bw n) = drop (Z.to_nat bw) abuf ++ pad.
Proof.
  intros Hbs Hlen. revert bw. induction n as [|n IH]; intros bw Hbw Hn.
  - exists []. cbn. rewrite drop_ge; [done|].
    pose proof (blocks_for_bounds (ws - bw) Hbs ltac:(lia)). lia.
  - pose proof (blocks_for_bounds (ws - bw) Hbs ltac:(lia)) as [_ Hb].
    cbn [chunks_from].
    change (mjoin (?c :: ?cs)) with (c ++ mjoin cs).
    destruct (Z.le_gt_cases BLOCK_SIZE (ws - bw)) as [Hfull|Hpart].
    + destruct (IH (bw + Z.min (ws - bw) BLOCK_SIZE)) as [pad Hpad]; [lia| |].
      { rewrite Z.min_r by lia. unfold blocks_for in *.
        replace (ws - bw + BLOCK_SIZE - 1)
          with (ws - (bw + BLOCK_SIZE) + BLOCK_SIZE - 1 + 1 * BLOCK_SIZE) in Hn by lia.
        rewrite Z.div_add in Hn by lia. lia. }
      exists pad. rewrite Hpad. unfold chunk, memcpy.
      rewrite Z.min_r by lia. rewrite take_0. cbn [app].
      rewrite (drop_ge (zeros _)) by (unfold zeros; rewrite length_replicate; lia).
      rewrite app_nil_r, app_assoc. f_equal.
      replace (Z.to_nat (bw + BLOCK_SIZE)) with (Z.to_nat bw + Z.to_nat BLOCK_SIZE)%nat by lia.
      rewrite <- drop_drop. apply take_drop.
    + eexists. unfold chunk, memcpy.
      rewrite Z.min_l by lia. rewrite take_0. cbn [app].
      rewrite take_ge by (rewrite length_drop; lia).
      rewrite <- app_assoc. done.
Qed.

(** The file that [jfs_write] leaves behind an empty inode: with the
    chunks of [b] at the distinct handles [hs] and the inode at another
    handle, the inode is in order and its content is [b]. *)
Lemma written_file (s : fs) (ih : Z) (hs tl : list Z) (b : list byte) (bl : gmap Z block) :
  ConfigOK cfg ->
  let ino := {| file_size := Z.of_nat (length b); data_blocks := hs ++ tl |} in
  blocks (disk s) = <[ih := Inode ino]> (put_chunks hs b (Z.of_nat (length b)) 0 bl) ->
  ih ∉ hs -> NoDup hs ->
  Z.of_nat (length b) <= MAX_FILE_SIZE ->
  Z.of_nat (length hs) = blocks_for (Z.of_nat (length b)) ->
  length (hs ++ tl) = Z.to_nat MAX_DATA_BLOCKS ->
  file_ok s ino /\ file_content s ino = b.
Proof.
  intros Hcfg ino Hbl Hih Hnd Hsize Hhs Hlen.
  pose proof (block_size_pos _ Hcfg) as Hbs.
  set (ws := Z.of_nat (length b)) in *.
  assert (forall j h, hs !! j = Some h ->
            exists c, chunks_from b ws 0 (length hs) !! j = Some c /\
                      block_at s h = Some (Data c)) as Hat.
  { intros j h Hj.
    destruct (chunks_from b ws 0 (length hs) !! j) as [c|] eqn:Hc; cycle 1.
    { apply lookup_ge_None in Hc. rewrite length_chunks_from in Hc.
      apply lookup_lt_Some in Hj. lia. }
    exists c. split; [done|].
    unfold block_at. rewrite Hbl, lookup_insert_ne; cycle 1.
    { intros ->. by apply Hih, (list_elem_of_lookup_2 _ j). }
    by rewrite (put_chunks_lookup _ _ _ _ _ j), Hc. }
  assert (Forall (is_data_block s) hs) as Hdata.
  { apply Forall_lookup. intros j h Hj.
    destruct (Hat j h Hj) as (c & Hc & Hb). exists c. split; [done|].
    eapply (Forall_lookup_1 _ _ _ _ (chunks_from_length b ws 0 (length hs) Hbs eq_refl ltac:(lia))).
    exact Hc. }
  assert (block_bytes s <$> hs = chunks_from b ws 0 (length hs)) as Hbytes.
  { apply list_eq. intros j. rewrite list_lookup_fmap.
    destruct (hs !! j) as [h|] eqn:Hj; cbn.
    - destruct (Hat j h Hj) as (c & Hc & Hb).
      by rewrite (block_bytes_Data _ _ _ Hb).
    - symmetry. apply lookup_ge_None. rewrite length_chunks_from.
      by apply lookup_ge_None. }
  split.
  - split; [cbn; lia|]. split; [done|].
    unfold ino. cbn [file_size data_blocks]. rewrite <- Hhs, Nat2Z.id.
    by rewrite take_app_length.
  - unfold file_content, ino. cbn [file_size data_blocks].
    rewrite fmap_app, join_app, Hbytes.
    destruct (chunks_from_join b ws 0 (length hs) Hbs eq_refl ltac:(lia)) as [pad Hpad].
    { by rewrite Z.sub_0_r. }
    rewrite Hpad. change (Z.to_nat 0) with 0%nat. rewrite drop_0.
    rewrite <- app_assoc. unfold ws. rewrite Nat2Z.id. apply take_app_length.
Qed.

(** ** Create, write, read *)

(** X19: for a byte sequence [b] of at least one and at most
    [MAX_FILE_SIZE] bytes and a fresh name within [MAX_NAME_LENGTH], in a
    directory with room and on a store with enough usable free blocks,
    [jfs_creat], [jfs_write] of [b] and [jfs_read] of [length b] bytes all
    succeed, and the read returns the count [length b] and the bytes
    [b]. *)
Theorem creat_write_read (nm : string) (b : list byte) (s : fs) (d : dirnode_t)
    (h0 : Z) (hs rest : list Z) :
  ConfigOK cfg ->
  block_at s (current_dir s) = Some (Dirnode d) ->
  dir_ok d ->
  num_entries d < MAX_DIR_ENTRIES ->
  Z.of_nat (String.length nm) <= MAX_NAME_LENGTH ->
  nm ∉ name <$> dir_entries d ->
  b <> [] ->
  Z.of_nat (length b) <= MAX_FILE_SIZE ->
  free_list (disk s) = h0 :: hs ++ rest ->
  Z.of_nat (length hs) = blocks_for (Z.of_nat (length b)) ->
  NoDup (current_dir s :: h0 :: hs) ->
  0 ∉ h0 :: hs ->
  (forall h, h ∈ current_dir s :: h0 :: hs -> h ∉ bad_write (disk s)) ->
  exists s1 s2,
    jfs_creat nm s = Ok tt s1 /\
    jfs_write nm b (Z.of_nat (length b)) s1 = Ok tt s2 /\
    jfs_read nm (Z.of_nat (length b)) s2 = Ok (Z.of_nat (length b), b) s2.
Proof.
  intros Hcfg Hcwd Hok Hroom Hname Hfresh Hne Hsize Hfree Hhs Hnd Hnz Hgood.
  pose proof (block_size_pos _ Hcfg) as Hbs.
  pose proof (max_file_size_short _ Hcfg) as Hshort.
  pose proof (max_file_size_blocks _ Hcfg) as Hcap.
  pose proof (max_data_blocks_nonneg _ Hcfg) as Hmdb.
  pose proof (blocks_for_bounds (Z.of_nat (length b)) Hbs ltac:(lia)) as [Hbn0 Hbn].
  apply NoDup_cons in Hnd as [Hc Hnd]. apply not_elem_of_cons in Hc as [Hc0 Hchs].
  apply NoDup_cons in Hnd as [Hh0 Hnd].
  apply not_elem_of_cons in Hnz as [Hz0 Hzhs].
  set (e0 := {| block_num := h0; name := nm |}).
  set (ino0 := {| file_size := 0; data_blocks := zero_data_blocks |}).
  set (s1 := with_store s (<[current_dir s := Dirnode (dir_add d e0)]>
                             (<[h0 := Inode ino0]> (blocks (disk s))))
               (hs ++ rest)).
  set (ino2 := {| file_size := Z.of_nat (length b);
                  data_blocks := hs ++ drop (length hs) (data_blocks ino0) |}).
  set (s2 := with_store s1 (<[h0 := Inode ino2]>
                              (put_chunks hs b (Z.of_nat (length b)) 0 (blocks (disk s1))))
               rest).
  assert (block_at s1 (current_dir s1) = Some (Dirnode (dir_add d e0))) as Hcwd1
    by apply lookup_insert_eq.
  assert (dir_find (dir_add d e0) nm = Some (Z.to_nat (num_entries d), e0)) as Hf1
    by (by apply (dir_add_find d e0)).
  assert (dir_ok (dir_add d e0)) as Hok1 by (by apply dir_add_ok).
  assert (length (data_blocks ino0) = Z.to_nat MAX_DATA_BLOCKS) as Hlen0
    by apply length_replicate.
  assert (forall h, h = current_dir s \/ h = h0 \/ h ∈ hs -> h ∉ bad_write (disk s)) as Hgood'.
  { intros h Hh. apply Hgood. rewrite !elem_of_cons. tauto. }
  exists s1, s2. split; [|split].
  - apply creat_fresh; try done; apply Hgood'; tauto.
  - apply (write_fresh nm b s1 (dir_add d e0) (Z.to_nat (num_entries d)) e0 ino0);
      try done.
    + unfold block_at. cbn. rewrite lookup_insert_ne by done. apply lookup_insert_eq.
    + apply Forall_forall. intros h Hh ->. done.
    + apply Forall_forall. intros h Hh. cbn. apply Hgood'. tauto.
    + cbn. apply Hgood'. tauto.
  - destruct (written_file s2 h0 hs (drop (length hs) (data_blocks ino0)) b
                (blocks (disk s1)) Hcfg) as [Hfile Hcontent]; try done.
    { rewrite length_app, length_drop, Hlen0. nia. }
    fold ino2 in Hfile, Hcontent.
    rewrite (read_file nm (Z.of_nat (length b)) s2 (dir_add d e0)
               (Z.to_nat (num_entries d)) e0 ino2 Hcfg); try done.
    + rewrite Hcontent. cbn [file_size]. rewrite Z.min_id, Nat2Z.id.
      by rewrite take_ge.
    + unfold block_at. cbn. rewrite lookup_insert_ne by done.
      rewrite put_chunks_other by done. apply lookup_insert_eq.
    + unfold block_at. cbn. apply lookup_insert_eq.
    + lia.
Qed.

(** ** What a call leaves as it is *)

Section Frame.
Context (R : fs -> fs -> Prop) `{!PreOrder R}.

Lemma frame_ret {A} (a : A) : frame R (ret a).
Proof. intros s. exact (reflexivity (R:=R) s). Qed.

Lemma frame_fail {A} (e : errcode) : frame R (@fail A e).
Proof. intros s. exact (reflexivity (R:=R) s). Qed.

Lemma frame_undef {A} (f : fault) : frame R (@undef A f).
Proof. by intros s. Qed.

Lemma frame_bind {A B} (m : M A) (k : A -> M B) :
  frame R m -> (forall a, frame R (k a)) -> frame R (bind m k).
Proof.
  intros Hm Hk s. unfold bind. specialize (Hm s).
  destruct (m s) as [a s1|e s1|f]; [|done..].
  specialize (Hk a s1). destruct (k a s1); [by etrans..|done].
Qed.

Lemma frame_for_range {L} (body : Z -> L -> M L) (n : nat) (i : Z) (acc : L) :
  (forall j a, frame R (body j a)) -> frame R (for_range i n body acc).
Proof.
  intros Hbody. revert i acc. induction n as [|n IH]; intros i acc; cbn [for_range].
  - apply frame_ret.
  - apply frame_bind; [apply Hbody|]. intros a. apply IH.
Qed.

Lemma frame_arr_get {A} (a : list A) (i : Z) : frame R (arr_get a i).
Proof.
  unfold arr_get. destruct (bool_decide _); [|apply frame_undef].
  destruct (a !! _); [apply frame_ret|apply frame_undef].
Qed.

Lemma frame_arr_set {A} (a : list A) (i : Z) (x : A) : frame R (arr_set a i x).
Proof.
  unfold arr_set. destruct (bool_decide _); [apply frame_ret|apply frame_undef].
Qed.

Lemma frame_scan {A} (es : list dirent) (nm : string)
    (found : Z -> dirent -> M A) (missing : M A) (n : nat) (i : Z) :
  (forall j e, frame R (found j e)) -> frame R missing ->
  frame R (scan_entries es nm found missing i n).
Proof.
  intros Hfound Hmissing. revert i. induction n as [|n IH]; intros i; cbn [scan_entries].
  - done.
  - apply frame_bind; [apply frame_arr_get|]. intros e.
    destruct (bool_decide _); [apply Hfound|apply IH].
Qed.

Lemma frame_as_dirnode (b : block) : frame R (as_dirnode b).
Proof. destruct b; [apply frame_ret|apply frame_undef..]. Qed.

Lemma frame_as_data (b : block) : frame R (as_data b).
Proof. destruct b; [apply frame_undef..|apply frame_ret]. Qed.

Lemma frame_get_current_dir : frame R get_current_dir.
Proof. intros s. exact (reflexivity (R:=R) s). Qed.

Lemma frame_read_block (h : Z) : frame R (read_block h).
Proof. intros s. exact (reflexivity (R:=R) s). Qed.

Lemma frame_is_dir (h : Z) : frame R (is_dir h).
Proof.
  unfold is_dir. apply frame_bind; [apply frame_read_block|].
  intros [[| |]|]; first [apply frame_ret|apply frame_undef].
Qed.

End Frame.

(** Takes a [frame] goal apart along the structure of the code. *)
Ltac frame_step prims :=
  lazymatch goal with
  | |- PreOrder _ => typeclasses eauto
  | |- frame _ (ret _) => apply frame_ret
  | |- frame _ (fail _) => apply frame_fail
  | |- frame _ (undef _) => apply frame_undef
  | |- frame _ get_current_dir => apply frame_get_current_dir
  | |- frame _ (read_block _) => apply frame_read_block
  | |- frame _ (is_dir _) => apply frame_is_dir
  | |- frame _ (arr_get _ _) => apply frame_arr_get
  | |- frame _ (arr_set _ _ _) => apply frame_arr_set
  | |- frame _ (as_dirnode _) => apply frame_as_dirnode
  | |- frame _ (as_data _) => apply frame_as_data
  | |- frame _ (bind _ _) => apply frame_bind; [..|intros ?]
  | |- frame _ (for_range _ _ _ _) => apply frame_for_range; [..|intros ? ?]
  | |- frame _ (scan_entries _ _ _ _ _ _) => apply frame_scan; [..|intros ? ?|]
  | |- frame _ (match ?x with _ => _ end) => destruct x
  | |- _ => prims
  end.

Ltac frame_steps prims := repeat frame_step prims.

(** X1: [jfs_stat], [jfs_read] and [jfs_ls] return in the state they
    were called in, whatever they return. *)
Theorem read_only_calls (nm : string) (count : Z) (directories files : list (option string)) :
  frame eq (jfs_stat nm) /\ frame eq (jfs_read nm count) /\
  frame eq (jfs_ls directories files).
Proof.
  split; [|split].
  - unfold jfs_stat, find_entry. frame_steps ltac:(fail).
  - unfold jfs_read, find_entry, read_body. frame_steps ltac:(fail).
  - unfold jfs_ls, ls_body. frame_steps ltac:(fail).
Qed.

Lemma frame_mkdir_scan (R : fs -> fs -> Prop) `{!PreOrder R}
    (es : list dirent) (nm : string) (n : nat) (i cnt : Z) :
  frame R (mkdir_scan es nm i n cnt).
Proof.
  revert i cnt. induction n as [|n IH]; intros i cnt; cbn [mkdir_scan].
  - by apply frame_ret.
  - apply frame_bind; [done|by apply frame_arr_get|]. intros e.
    destruct (bool_decide _); [by apply frame_fail|apply IH].
Qed.

Lemma frame_release_data (R : fs -> fs -> Prop) `{!PreOrder R}
    (dbs : list Z) (n : nat) (i : Z) :
  (forall h, frame R (release_block h)) -> frame R (release_data dbs i n).
Proof.
  intros Hrel. revert i. induction n as [|n IH]; intros i; cbn [release_data].
  - by apply frame_ret.
  - apply frame_bind; [done|by apply frame_arr_get|]. intros h.
    destruct (h =? 0); [by apply frame_ret|].
    apply frame_bind; [done|apply Hrel|]. intros [|]; cbn [negb]; [apply IH|].
    by apply frame_fail.
Qed.

#[local] Instance same_cursor_preorder : PreOrder same_cursor.
Proof. split; unfold same_cursor; [by intros s|intros s1 s2 s3; congruence]. Qed.

Lemma cursor_write_block (h : Z) (b : block) : frame same_cursor (write_block h b).
Proof. intros s. unfold write_block. by destruct (bool_decide _). Qed.

Lemma cursor_release_block (h : Z) : frame same_cursor (release_block h).
Proof. intros s. unfold release_block. by destruct (bool_decide _). Qed.

Lemma cursor_allocate_block : frame same_cursor allocate_block.
Proof. intros s. unfold allocate_block. by destruct (free_list (disk s)). Qed.

Ltac cursor_prims :=
  lazymatch goal with
  | |- frame _ (write_block _ _) => apply cursor_write_block
  | |- frame _ (release_block _) => apply cursor_release_block
  | |- frame _ allocate_block => apply cursor_allocate_block
  | |- frame _ (mkdir_scan _ _ _ _ _) => apply frame_mkdir_scan
  | |- frame _ (release_data _ _ _) => apply frame_release_data; [..|intros ?]
  end.

(** X2: no call other than [jfs_chdir] moves [current_dir], whatever
    it returns. *)
Theorem cursor_moves_only_in_chdir (nm : string) (buf : list byte) (count : Z)
    (directories files : list (option string)) :
  frame same_cursor (jfs_mkdir nm) /\
  frame same_cursor (jfs_rmdir nm) /\
  frame same_cursor (jfs_creat nm) /\
  frame same_cursor (jfs_remove nm) /\
  frame same_cursor (jfs_stat nm) /\
  frame same_cursor (jfs_write nm buf count) /\
  frame same_cursor (jfs_read nm count) /\
  frame same_cursor (jfs_ls directories files).
Proof.
  repeat split.
  - unfold jfs_mkdir. frame_steps ltac:(idtac; cursor_prims).
  - unfold jfs_rmdir, rmdir_entry, shift_entries. frame_steps ltac:(idtac; cursor_prims).
  - unfold jfs_creat, find_entry. frame_steps ltac:(idtac; cursor_prims).
  - unfold jfs_remove, find_entry, shift_entries. frame_steps ltac:(idtac; cursor_prims).
  - unfold jfs_stat, find_entry. frame_steps ltac:(idtac; cursor_prims).
  - unfold jfs_write, find_entry, alloc_body, write_body, update_body, release_range.
    cbv zeta. frame_steps ltac:(idtac; cursor_prims).
  - unfold jfs_read, find_entry, read_body. frame_steps ltac:(idtac; cursor_prims).
  - unfold jfs_ls, ls_body. frame_steps ltac:(idtac; cursor_prims).
Qed.

(** ** [jfs_chdir], in full *)

(** X3: [jfs_chdir] with [NULL] puts the cursor on block 1.  With a
    name it fails with [E_NOT_EXISTS] when the current directory does not
    hold the name and with [E_NOT_DIR] when the entry's block is an inode
    or cannot be read; when the block is a directory node the cursor moves
    to it.  The store is never touched. *)
Theorem chdir_spec (nm : string) (s : fs) (d : dirnode_t) :
  block_at s (current_dir s) = Some (Dirnode d) ->
  dir_ok d ->
  jfs_chdir None s = Ok tt (with_cursor s 1) /\
  (nm ∉ name <$> dir_entries d -> jfs_chdir (Some nm) s = Fail E_NOT_EXISTS s) /\
  (forall k e ino,
     dir_find d nm = Some (k, e) ->
     block_at s (block_num e) = Some (Inode ino) ->
     jfs_chdir (Some nm) s = Fail E_NOT_DIR s) /\
  (forall k e,
     dir_find d nm = Some (k, e) ->
     block_at s (block_num e) = None ->
     jfs_chdir (Some nm) s = Fail E_NOT_DIR s) /\
  (forall k e dd,
     dir_find d nm = Some (k, e) ->
     block_at s (block_num e) = Some (Dirnode dd) ->
     jfs_chdir (Some nm) s = Ok tt (with_cursor s (block_num e))).
Proof.
  intros Hcwd Hok. unfold block_at in Hcwd.
  split; [done|]. split; [|split; [|split]].
  - intros Habs. unfold jfs_chdir. run_scan Hcwd Hok.
    by rewrite (dir_find_absent d nm Habs).
  - intros k e ino Hf Hb. unfold jfs_chdir. run_scan Hcwd Hok. rewrite Hf.
    unfold chdir_entry. by erewrite bind_Ok by (by eapply is_dir_Inode).
  - intros k e Hf Hb. unfold jfs_chdir. run_scan Hcwd Hok. rewrite Hf.
    unfold chdir_entry, is_dir. unfold bind, read_block.
    unfold block_at in Hb. by rewrite Hb.
  - intros k e dd Hf Hb. unfold jfs_chdir. run_scan Hcwd Hok. rewrite Hf.
    unfold chdir_entry. by erewrite bind_Ok by (by eapply is_dir_Dirnode).
Qed.

(** ** [jfs_mkdir] and [jfs_creat], case by case *)

Lemma arr_set_at {A} (a : list A) (i : Z) (x : A) s :
  0 <= i < Z.of_nat (length a) -> arr_set a i x s = Ok (<[Z.to_nat i := x]> a) s.
Proof. intros H. unfold arr_set. by rewrite bool_decide_eq_true_2. Qed.

Lemma mkdir_scan_spec (es : list dirent) (nm : string) (n i : nat) (cnt : Z) s :
  (i + n <= length es)%nat -> 0 <= cnt -> cnt + Z.of_nat n < 65536 ->
  mkdir_scan es nm (Z.of_nat i) n cnt s =
    match list_find (fun e => name e = nm) (take n (drop i es)) with
    | Some _ => Fail E_EXISTS s
    | None => Ok (cnt + Z.of_nat n) s
    end.
Proof.
  revert i cnt. induction n as [|n IH]; intros i cnt Hlen Hc0 Hc.
  - cbn. unfold ret. do 2 f_equal. lia.
  - destruct (es !! i) as [x|] eqn:Hx;
      [|apply lookup_ge_None in Hx; lia].
    cbn [mkdir_scan]. erewrite bind_Ok by (by apply arr_get_Ok).
    rewrite (drop_S _ _ _ Hx). cbn [take list_find].
    unfold decide_rel, list_find. cbn.
    case_bool_decide as Hnm.
    + by rewrite decide_True by done.
    + rewrite decide_False by done.
      replace (Z.of_nat i + 1) with (Z.of_nat (S i)) by lia.
      rewrite u16_small by lia. rewrite IH by lia.
      replace (cnt + Z.of_nat (S n)) with (cnt + 1 + Z.of_nat n) by lia.
      unfold list_find.
      by destruct (_ (take n (drop (S i) es))) as [[k e]|].
Qed.

Lemma mkdir_scan_dir (d : dirnode_t) (nm : string) s :
  ConfigOK cfg -> dir_ok d ->
  mkdir_scan (entries d) nm 0 (Z.to_nat (num_entries d)) 0 s =
    match dir_find d nm with
    | Some _ => Fail E_EXISTS s
    | None => Ok (num_entries d) s
    end.
Proof.
  intros Hcfg [Hlen Hn]. pose proof (max_dir_entries_short _ Hcfg).
  rewrite (mkdir_scan_spec _ _ _ 0) by (cbn; lia).
  rewrite drop_0. fold (dir_entries d). fold (dir_find d nm).
  destruct (dir_find d nm); [done|]. do 2 f_equal. lia.
Qed.

Ltac run_mkdir_scan Hcfg Hcwd Hok :=
  unfold bind at 1, get_current_dir; unfold bind at 1, read_block;
  rewrite Hcwd; cbn [as_dirnode]; unfold bind at 1, ret at 1;
  unfold bind at 1; rewrite mkdir_scan_dir by done.

Lemma mkdir_exists (nm : string) (s : fs) (d : dirnode_t) (k : nat) (e : dirent) :
  ConfigOK cfg ->
  block_at s (current_dir s) = Some (Dirnode d) -> dir_ok d ->
  dir_find d nm = Some (k, e) ->
  jfs_mkdir nm s = Fail E_EXISTS s.
Proof.
  intros Hcfg Hcwd Hok Hf. unfold block_at in Hcwd.
  unfold jfs_mkdir. run_mkdir_scan Hcfg Hcwd Hok. by rewrite Hf.
Qed.

Lemma creat_exists (nm : string) (s : fs) (d : dirnode_t) (k : nat) (e : dirent) :
  block_at s (current_dir s) = Some (Dirnode d) -> dir_ok d ->
  Z.of_nat (String.length nm) <= MAX_NAME_LENGTH ->
  dir_find d nm = Some (k, e) ->
  jfs_creat nm s = Fail E_EXISTS s.
Proof.
  intros Hcwd Hok Hfits Hf. unfold block_at in Hcwd.
  unfold jfs_creat. unfold bind at 1, get_current_dir.
  rewrite (proj2 (Z.ltb_ge _ _) Hfits).
  unfold bind at 1, read_block. rewrite Hcwd. cbn [as_dirnode].
  unfold bind at 1, ret at 1.
  erewrite bind_Ok by (by apply find_entry_dir).
  by rewrite Hf, found_index.
Qed.

(** Making a directory under a fresh name, with room in the directory and
    a usable free block. *)
Lemma mkdir_fresh (nm : string) (s : fs) (d : dirnode_t) (h : Z) (rest : list Z) :
  ConfigOK cfg ->
  block_at s (current_dir s) = Some (Dirnode d) ->
  dir_ok d ->
  nm ∉ name <$> dir_entries d ->
  Z.of_nat (String.length nm) <= MAX_NAME_LENGTH ->
  num_entries d < MAX_DIR_ENTRIES ->
  free_list (disk s) = h :: rest -> h <> 0 ->
  h ∉ bad_write (disk s) -> current_dir s ∉ bad_write (disk s) ->
  jfs_mkdir nm s =
    Ok tt (with_store s
             (<[current_dir s := Dirnode (dir_add d {| block_num := h; name := nm |})]>
                (<[h := Dirnode empty_dirnode]> (blocks (disk s))))
             rest).
Proof.
  intros Hcfg Hcwd Hok Habs Hfits Hroom Hfree Hh Hwh Hwc.
  unfold block_at in Hcwd. pose proof Hok as [Hlen Hn].
  pose proof (max_dir_entries_short _ Hcfg) as Hshort.
  unfold jfs_mkdir. run_mkdir_scan Hcfg Hcwd Hok.
  rewrite (dir_find_absent d nm Habs).
  rewrite (proj2 (Z.ltb_ge _ _) Hfits), (proj2 (Z.leb_gt _ _) Hroom).
  erewrite bind_Ok by (by apply allocate_block_Ok).
  rewrite (proj2 (Z.eqb_neq _ _) Hh).
  erewrite bind_Ok by (by apply write_block_Ok). cbn [negb].
  erewrite bind_Ok by (apply arr_set_at; lia).
  erewrite bind_Ok by (by apply write_block_Ok). cbn [negb].
  rewrite u16_small by lia. done.
Qed.

(** X4: [jfs_mkdir] checks in this order: a name the current directory
    holds gives [E_EXISTS], then a name longer than [MAX_NAME_LENGTH] gives
    [E_MAX_NAME_LENGTH], then a full directory gives [E_MAX_DIR_ENTRIES],
    then an exhausted store gives [E_DISK_FULL], each with the state as it
    was.  Otherwise the new handle holds an empty directory node and the
    current directory is persisted with the entry in its next slot. *)
Theorem mkdir_spec (nm : string) (s : fs) (d : dirnode_t) :
  ConfigOK cfg ->
  block_at s (current_dir s) = Some (Dirnode d) ->
  dir_ok d ->
  (forall k e, dir_find d nm = Some (k, e) -> jfs_mkdir nm s = Fail E_EXISTS s) /\
  (nm ∉ name <$> dir_entries d ->
   MAX_NAME_LENGTH < Z.of_nat (String.length nm) ->
   jfs_mkdir nm s = Fail E_MAX_NAME_LENGTH s) /\
  (nm ∉ name <$> dir_entries d ->
   Z.of_nat (String.length nm) <= MAX_NAME_LENGTH ->
   num_entries d = MAX_DIR_ENTRIES ->
   jfs_mkdir nm s = Fail E_MAX_DIR_ENTRIES s) /\
  (nm ∉ name <$> dir_entries d ->
   Z.of_nat (String.length nm) <= MAX_NAME_LENGTH ->
   num_entries d < MAX_DIR_ENTRIES ->
   free_list (disk s) = [] ->
   jfs_mkdir nm s = Fail E_DISK_FULL s) /\
  (forall h rest,
     nm ∉ name <$> dir_entries d ->
     Z.of_nat (String.length nm) <= MAX_NAME_LENGTH ->
     num_entries d < MAX_DIR_ENTRIES ->
     free_list (disk s) = h :: rest -> h <> 0 ->
     h ∉ bad_write (disk s) -> current_dir s ∉ bad_write (disk s) ->
     jfs_mkdir nm s =
       Ok tt (with_store s
                (<[current_dir s := Dirnode (dir_add d {| block_num := h; name := nm |})]>
                   (<[h := Dirnode empty_dirnode]> (blocks (disk s))))
                rest)).
Proof.
  intros Hcfg Hcwd Hok. pose proof Hcwd as Hcwd'. unfold block_at in Hcwd.
  pose proof Hok as [Hlen Hn].
  pose proof (max_dir_entries_short _ Hcfg) as Hshort.
  split; [|split; [|split; [|split]]].
  - intros k e Hf. by apply (mkdir_exists nm s d k e).
  - intros Habs Hlong. unfold jfs_mkdir. run_mkdir_scan Hcfg Hcwd Hok.
    rewrite (dir_find_absent d nm Habs).
    by rewrite (proj2 (Z.ltb_lt _ _) Hlong).
  - intros Habs Hfits Hfull. unfold jfs_mkdir. run_mkdir_scan Hcfg Hcwd Hok.
    rewrite (dir_find_absent d nm Habs).
    rewrite (proj2 (Z.ltb_ge _ _) Hfits).
    by rewrite (proj2 (Z.leb_le MAX_DIR_ENTRIES (num_entries d))) by lia.
  - intros Habs Hfits Hroom Hfree. unfold jfs_mkdir. run_mkdir_scan Hcfg Hcwd Hok.
    rewrite (dir_find_absent d nm Habs).
    rewrite (proj2 (Z.ltb_ge _ _) Hfits), (proj2 (Z.leb_gt _ _) Hroom).
    unfold bind, allocate_block. by rewrite Hfree.
  - intros h rest Habs Hfits Hroom Hfree Hh Hwh Hwc. by apply mkdir_fresh.
Qed.

Ltac run_creat_lookup Hfits Hcwd Hok :=
  unfold bind at 1, get_current_dir;
  rewrite (proj2 (Z.ltb_ge _ _) Hfits);
  unfold bind at 1, read_block; rewrite Hcwd; cbn [as_dirnode];
  unfold bind at 1, ret at 1;
  erewrite bind_Ok by (by apply find_entry_dir).

(** X5: [jfs_creat] checks the length of the name first, before it
    reads anything: a name longer than [MAX_NAME_LENGTH] gives
    [E_MAX_NAME_LENGTH] in every state.  Then a name the current directory
    holds gives [E_EXISTS], a full directory [E_MAX_DIR_ENTRIES] and an
    exhausted store [E_DISK_FULL], each with the state as it was.
    Otherwise the new handle holds an inode of size 0 with no data block
    and the current directory is persisted with the entry in its next
    slot. *)
Theorem creat_spec (nm : string) (s : fs) (d : dirnode_t) :
  ConfigOK cfg ->
  block_at s (current_dir s) = Some (Dirnode d) ->
  dir_ok d ->
  (MAX_NAME_LENGTH < Z.of_nat (String.length nm) ->
   jfs_creat nm s = Fail E_MAX_NAME_LENGTH s) /\
  (forall k e,
     Z.of_nat (String.length nm) <= MAX_NAME_LENGTH ->
     dir_find d nm = Some (k, e) ->
     jfs_creat nm s = Fail E_EXISTS s) /\
  (nm ∉ name <$> dir_entries d ->
   Z.of_nat (String.length nm) <= MAX_NAME_LENGTH ->
   num_entries d = MAX_DIR_ENTRIES ->
   jfs_creat nm s = Fail E_MAX_DIR_ENTRIES s) /\
  (nm ∉ name <$> dir_entries d ->
   Z.of_nat (String.length nm) <= MAX_NAME_LENGTH ->
   num_entries d < MAX_DIR_ENTRIES ->
   free_list (disk s) = [] ->
   jfs_creat nm s = Fail E_DISK_FULL s) /\
  (forall h rest,
     nm ∉ name <$> dir_entries d ->
     Z.of_nat (String.length nm) <= MAX_NAME_LENGTH ->
     num_entries d < MAX_DIR_ENTRIES ->
     free_list (disk s) = h :: rest -> h <> 0 ->
     h ∉ bad_write (disk s) -> current_dir s ∉ bad_write (disk s) ->
     jfs_creat nm s =
       Ok tt (with_store s
                (<[current_dir s := Dirnode (dir_add d {| block_num := h; name := nm |})]>
                   (<[h := Inode {| file_size := 0; data_blocks := zero_data_blocks |}]>
                      (blocks (disk s))))
                rest)).
Proof.
  intros Hcfg Hcwd Hok. pose proof Hok as [Hlen Hn].
  split; [|split; [|split; [|split]]].
  - intros Hlong. unfold jfs_creat. unfold bind, get_current_dir.
    by rewrite (proj2 (Z.ltb_lt _ _) Hlong).
  - intros k e Hfits Hf. by apply (creat_exists nm s d k e).
  - intros Habs Hfits Hfull. unfold block_at in Hcwd.
    unfold jfs_creat. run_creat_lookup Hfits Hcwd Hok.
    rewrite (dir_find_absent d nm Habs), Z.eqb_refl. cbn [negb].
    by rewrite (proj2 (Z.leb_le MAX_DIR_ENTRIES (num_entries d))) by lia.
  - intros Habs Hfits Hroom Hfree. unfold block_at in Hcwd.
    unfold jfs_creat. run_creat_lookup Hfits Hcwd Hok.
    rewrite (dir_find_absent d nm Habs), Z.eqb_refl. cbn [negb].
    rewrite (proj2 (Z.leb_gt _ _) Hroom).
    unfold bind, allocate_block. by rewrite Hfree.
  - intros h rest Habs Hfits Hroom Hfree Hh Hwh Hwc. by apply creat_fresh.
Qed.

(** ** When a write fails in [jfs_creat] and [jfs_mkdir] *)

(** X6: when the store refuses the write of the new inode or of
    the current directory, [jfs_creat] returns [E_UNKNOWN] after it gave
    the handle back: the free list is the one before the call and the
    current directory is persisted as it was. *)
Theorem creat_write_failure (nm : string) (s : fs) (d : dirnode_t) (h : Z) (rest : list Z) :
  ConfigOK cfg ->
  block_at s (current_dir s) = Some (Dirnode d) ->
  dir_ok d ->
  nm ∉ name <$> dir_entries d ->
  Z.of_nat (String.length nm) <= MAX_NAME_LENGTH ->
  num_entries d < MAX_DIR_ENTRIES ->
  free_list (disk s) = h :: rest -> h <> 0 ->
  h ∉ bad_release (disk s) ->
  h ∈ bad_write (disk s) \/ current_dir s ∈ bad_write (disk s) ->
  exists s',
    jfs_creat nm s = Fail E_UNKNOWN s' /\
    free_list (disk s') = free_list (disk s) /\
    block_at s' (current_dir s') = Some (Dirnode d).
Proof.
  intros Hcfg Hcwd Hok Habs Hfits Hroom Hfree Hh Hrel Hbad.
  pose proof Hok as [Hlen Hn]. pose proof Hcwd as Hcwd'. unfold block_at in Hcwd.
  destruct (decide (h ∈ bad_write (disk s))) as [Hwh|Hwh].
  - eexists. split; [|split].
    + unfold jfs_creat. run_creat_lookup Hfits Hcwd Hok.
      rewrite (dir_find_absent d nm Habs), Z.eqb_refl. cbn [negb].
      rewrite (proj2 (Z.leb_gt _ _) Hroom).
      erewrite bind_Ok by (by apply allocate_block_Ok).
      rewrite (proj2 (Z.eqb_neq _ _) Hh).
      erewrite bind_Ok; cycle 1.
      { unfold write_block. cbn. by rewrite bool_decide_eq_true_2. }
      cbn [negb].
      erewrite bind_Ok by (by apply release_block_Ok).
      unfold fail. reflexivity.
    + cbn. by rewrite Hfree.
    + done.
  - destruct Hbad as [?|Hwc]; [done|].
    assert (h <> current_dir s) as Hne by (by intros ->).
    eexists. split; [|split].
    + unfold jfs_creat. run_creat_lookup Hfits Hcwd Hok.
      rewrite (dir_find_absent d nm Habs), Z.eqb_refl. cbn [negb].
      rewrite (proj2 (Z.leb_gt _ _) Hroom).
      erewrite bind_Ok by (by apply allocate_block_Ok).
      rewrite (proj2 (Z.eqb_neq _ _) Hh).
      erewrite bind_Ok by (by apply write_block_Ok). cbn [negb].
      erewrite bind_Ok by (apply arr_set_at; lia).
      erewrite bind_Ok; cycle 1.
      { unfold write_block. cbn. by rewrite bool_decide_eq_true_2. }
      cbn [negb].
      erewrite bind_Ok by (by apply release_block_Ok).
      unfold fail. reflexivity.
    + cbn. by rewrite Hfree.
    + unfold block_at. cbn. by rewrite lookup_insert_ne.
Qed.

(** X7: [jfs_mkdir] does not give the handle back on a refused write.
    When the store refuses the write of the new directory block or of the
    current directory, [jfs_mkdir] returns [E_UNKNOWN] with the handle it
    took still allocated, and the current directory is persisted as it
    was. *)
Theorem mkdir_write_failure (nm : string) (s : fs) (d : dirnode_t) (h : Z) (rest : list Z) :
  ConfigOK cfg ->
  block_at s (current_dir s) = Some (Dirnode d) ->
  dir_ok d ->
  nm ∉ name <$> dir_entries d ->
  Z.of_nat (String.length nm) <= MAX_NAME_LENGTH ->
  num_entries d < MAX_DIR_ENTRIES ->
  free_list (disk s) = h :: rest -> h <> 0 ->
  h ∈ bad_write (disk s) \/ current_dir s ∈ bad_write (disk s) ->
  exists s',
    jfs_mkdir nm s = Fail E_UNKNOWN s' /\
    free_list (disk s') = rest /\
    block_at s' (current_dir s') = Some (Dirnode d).
Proof.
  intros Hcfg Hcwd Hok Habs Hfits Hroom Hfree Hh Hbad.
  pose proof Hok as [Hlen Hn]. pose proof Hcwd as Hcwd'. unfold block_at in Hcwd.
  destruct (decide (h ∈ bad_write (disk s))) as [Hwh|Hwh].
  - eexists. split; [|split].
    + unfold jfs_mkdir. run_mkdir_scan Hcfg Hcwd Hok.
      rewrite (dir_find_absent d nm Habs).
      rewrite (proj2 (Z.ltb_ge _ _) Hfits), (proj2 (Z.leb_gt _ _) Hroom).
      erewrite bind_Ok by (by apply allocate_block_Ok).
      rewrite (proj2 (Z.eqb_neq _ _) Hh).
      erewrite bind_Ok; cycle 1.
      { unfold write_block. cbn. by rewrite bool_decide_eq_true_2. }
      cbn [negb]. unfold fail. reflexivity.
    + done.
    + done.
  - destruct Hbad as [?|Hwc]; [done|].
    assert (h <> current_dir s) as Hne by (by intros ->).
    eexists. split; [|split].
    + unfold jfs_mkdir. run_mkdir_scan Hcfg Hcwd Hok.
      rewrite (dir_find_absent d nm Habs).
      rewrite (proj2 (Z.ltb_ge _ _) Hfits), (proj2 (Z.leb_gt _ _) Hroom).
      erewrite bind_Ok by (by apply allocate_block_Ok).
      rewrite (proj2 (Z.eqb_neq _ _) Hh).
      erewrite bind_Ok by (by apply write_block_Ok). cbn [negb].
      erewrite bind_Ok by (apply arr_set_at; lia).
      erewrite bind_Ok; cycle 1.
      { unfold write_block. cbn. by rewrite bool_decide_eq_true_2. }
      cbn [negb]. unfold fail. reflexivity.
    + done.
    + unfold block_at. cbn. by rewrite lookup_insert_ne.
Qed.

(** ** The directory after a new entry *)

Lemma dir_add_unique (d : dirnode_t) (e : dirent) :
  dir_ok d -> num_entries d < MAX_DIR_ENTRIES ->
  names_unique d -> name e ∉ name <$> dir_entries d ->
  names_unique (dir_add d e).
Proof.
  intros Hok Hroom Hnd Hfresh. unfold names_unique.
  rewrite dir_add_entries, fmap_app by done.
  apply NoDup_app. split; [done|]. split.
  - intros x Hx Hin. apply list_elem_of_singleton in Hin. by subst.
  - apply NoDup_singleton.
Qed.

(** X8: once [jfs_creat] or [jfs_mkdir] has put a name in the
    current directory, the directory node it persisted is within its
    bounds, its names are still unique, its entries are the old ones
    followed by the new one, and a second [jfs_creat] or [jfs_mkdir] of the
    name returns [E_EXISTS] and changes nothing. *)
Theorem create_keeps_names_unique (nm : string) (s : fs) (d : dirnode_t) (h : Z) (rest : list Z) :
  ConfigOK cfg ->
  block_at s (current_dir s) = Some (Dirnode d) ->
  dir_ok d -> names_unique d ->
  nm ∉ name <$> dir_entries d ->
  Z.of_nat (String.length nm) <= MAX_NAME_LENGTH ->
  num_entries d < MAX_DIR_ENTRIES ->
  free_list (disk s) = h :: rest -> h <> 0 ->
  h ∉ bad_write (disk s) -> current_dir s ∉ bad_write (disk s) ->
  forall op, op = jfs_creat \/ op = jfs_mkdir ->
  exists s1 d1,
    op nm s = Ok tt s1 /\
    block_at s1 (current_dir s1) = Some (Dirnode d1) /\
    dir_ok d1 /\ names_unique d1 /\
    dir_entries d1 = dir_entries d ++ [ {| block_num := h; name := nm |} ] /\
    jfs_creat nm s1 = Fail E_EXISTS s1 /\
    jfs_mkdir nm s1 = Fail E_EXISTS s1.
Proof.
  intros Hcfg Hcwd Hok Hnd Habs Hfits Hroom Hfree Hh Hwh Hwc op Hop.
  set (e := {| block_num := h; name := nm |}).
  assert (dir_ok (dir_add d e)) as Hok1 by (by apply dir_add_ok).
  assert (dir_find (dir_add d e) nm = Some (Z.to_nat (num_entries d), e)) as Hf1
    by (by apply (dir_add_find d e)).
  assert (forall s1, block_at s1 (current_dir s1) = Some (Dirnode (dir_add d e)) ->
            jfs_creat nm s1 = Fail E_EXISTS s1 /\ jfs_mkdir nm s1 = Fail E_EXISTS s1) as Hsecond.
  { intros s1 Hcwd1. split.
    - by apply (creat_exists nm s1 (dir_add d e) (Z.to_nat (num_entries d)) e).
    - by apply (mkdir_exists nm s1 (dir_add d e) (Z.to_nat (num_entries d)) e). }
  destruct Hop as [-> | ->]; eexists; exists (dir_add d e).
  - split; [by apply creat_fresh|].
    assert (block_at (with_store s
              (<[current_dir s := Dirnode (dir_add d e)]>
                 (<[h := Inode {| file_size := 0; data_blocks := zero_data_blocks |}]>
                    (blocks (disk s)))) rest)
              (current_dir s) = Some (Dirnode (dir_add d e))) as Hcwd1
      by apply lookup_insert_eq.
    split; [exact Hcwd1|]. split; [done|]. split; [by apply dir_add_unique|].
    split; [by apply dir_add_entries|]. by apply Hsecond.
  - split; [by apply mkdir_fresh|].
    assert (block_at (with_store s
              (<[current_dir s := Dirnode (dir_add d e)]>
                 (<[h := Dirnode empty_dirnode]> (blocks (disk s)))) rest)
              (current_dir s) = Some (Dirnode (dir_add d e))) as Hcwd1
      by apply lookup_insert_eq.
    split; [exact Hcwd1|]. split; [done|]. split; [by apply dir_add_unique|].
    split; [by apply dir_add_entries|]. by apply Hsecond.
Qed.

(** X9: right after [jfs_creat], [jfs_stat] on the name returns a
    file of size 0 with no data block, at the handle the store handed
    out. *)
Theorem creat_then_stat (nm : string) (s : fs) (d : dirnode_t) (h : Z) (rest : list Z) :
  ConfigOK cfg ->
  block_at s (current_dir s) = Some (Dirnode d) ->
  dir_ok d ->
  nm ∉ name <$> dir_entries d ->
  Z.of_nat (String.length nm) <= MAX_NAME_LENGTH ->
  num_entries d < MAX_DIR_ENTRIES ->
  free_list (disk s) = h :: rest -> h <> 0 ->
  h <> current_dir s ->
  h ∉ bad_write (disk s) -> current_dir s ∉ bad_write (disk s) ->
  exists s1,
    jfs_creat nm s = Ok tt s1 /\
    jfs_stat nm s1 =
      Ok {| st_is_dir := IS_FILE; st_name := nm; st_block_num := h;
            st_num_data_blocks := 0; st_file_size := 0 |} s1.
Proof.
  intros Hcfg Hcwd Hok Habs Hfits Hroom Hfree Hh Hne Hwh Hwc.
  pose proof (block_size_pos _ Hcfg) as Hbs.
  set (e := {| block_num := h; name := nm |}).
  eexists. split; [by apply creat_fresh|].
  rewrite (stat_file nm _ (dir_add d e) (Z.to_nat (num_entries d)) e
             {| file_size := 0; data_blocks := zero_data_blocks |}); try done.
  - cbn [file_size]. do 2 f_equal. unfold blocks_for. apply Z.div_small. lia.
  - apply lookup_insert_eq.
  - by apply dir_add_ok.
  - by apply (dir_add_find d e).
  - unfold block_at. cbn. rewrite lookup_insert_ne by done. apply lookup_insert_eq.
Qed.

(** ** [jfs_write]: the look-up *)

(** X10: [jfs_write] fails with [E_NOT_EXISTS] on a name the
    current directory does not hold and with [E_IS_DIR] when the entry's
    block is a directory node, whatever the bytes; the state is as it
    was. *)
Theorem write_lookup_errors (nm : string) (buf : list byte) (count : Z) (s : fs) (d : dirnode_t) :
  block_at s (current_dir s) = Some (Dirnode d) ->
  dir_ok d ->
  (nm ∉ name <$> dir_entries d -> jfs_write nm buf count s = Fail E_NOT_EXISTS s) /\
  (forall k e dd,
     dir_find d nm = Some (k, e) ->
     block_at s (block_num e) = Some (Dirnode dd) ->
     jfs_write nm buf count s = Fail E_IS_DIR s).
Proof.
  intros Hcwd Hok. unfold block_at in Hcwd. split.
  - intros Habs. unfold jfs_write. run_lookup Hcwd Hok.
    by rewrite (dir_find_absent d nm Habs).
  - intros k e dd Hf Hb. unfold jfs_write. run_lookup Hcwd Hok. rewrite Hf.
    apply dir_find_slot in Hf as (Hk & _ & _). rewrite found_index.
    erewrite bind_Ok by (by apply arr_get_Ok).
    erewrite bind_Ok by apply read_block_Ok. by rewrite Hb.
Qed.

(** ** [jfs_ls] *)

Lemma is_dir_entry_spec (s : fs) (e : dirent) :
  no_data_target s e -> is_dir (block_num e) s = Ok (is_dir_entry s e) s.
Proof.
  intros Hnd. unfold is_dir, is_dir_entry, bind, read_block, block_at.
  specialize (Hnd). unfold no_data_target, block_at in Hnd.
  destruct (blocks (disk s) !! block_num e) as [[| |bytes]|]; try done.
  by destruct (Hnd bytes).
Qed.

(** The listing loop: each array receives, from its count on, the names
    of its kind in the order of the entries. *)
Lemma ls_loop (es l : list dirent) (i : nat) (D F : list (option string)) (dc fc : nat) s :
  (forall j e, l !! j = Some e -> es !! (i + j)%nat = Some e) ->
  Forall (no_data_target s) l ->
  (dc + length l <= length D)%nat -> (fc + length l <= length F)%nat ->
  let dn := name <$> List.filter (is_dir_entry s) l in
  let fn := name <$> List.filter (fun e => negb (is_dir_entry s e)) l in
  for_range (Z.of_nat i) (length l) (ls_body es) (D, F, Z.of_nat dc, Z.of_nat fc) s =
    Ok (take dc D ++ (Some <$> dn) ++ drop (dc + length dn) D,
        take fc F ++ (Some <$> fn) ++ drop (fc + length fn) F,
        Z.of_nat (dc + length dn), Z.of_nat (fc + length fn)) s.
Proof.
  revert i D F dc fc. induction l as [|e l IH]; intros i D F dc fc Hslot Hnd HD HF dn fn.
  - subst dn fn. cbn [for_range length List.filter fmap list_fmap app].
    unfold ret. by rewrite !Nat.add_0_r, !take_drop.
  - apply Forall_cons in Hnd as [He Hnd]. cbn [length] in HD, HF.
    assert (es !! i = Some e) as Hi
      by (rewrite <- (Nat.add_0_r i); by apply Hslot).
    assert (forall j e', l !! j = Some e' -> es !! (S i + j)%nat = Some e') as Hslot'.
    { intros j e' Hj. replace (S i + j)%nat with (i + S j)%nat by lia. by apply Hslot. }
    cbn [for_range length].
    replace (Z.of_nat i + 1) with (Z.of_nat (S i)) by lia.
    subst dn fn. cbn [List.filter].
    destruct (is_dir_entry s e) eqn:Hd; cbn [negb].
    + erewrite bind_Ok; cycle 1.
      { unfold ls_body. erewrite bind_Ok by (by apply arr_get_Ok).
        erewrite bind_Ok by (by apply is_dir_entry_spec). rewrite Hd.
        erewrite bind_Ok by (apply arr_set_Ok; lia).
        replace (Z.of_nat dc + 1) with (Z.of_nat (S dc)) by lia. done. }
      rewrite IH; [|done|done|rewrite length_insert; lia|lia].
      f_equal. rewrite fmap_cons. cbn [fmap list_fmap length].
      rewrite (take_S_r _ _ (Some (name e))) by (apply list_lookup_insert_eq; lia).
      rewrite take_insert_ge by lia. rewrite drop_insert_lt by lia.
      rewrite <- app_assoc. cbn [app].
      by rewrite !Nat.add_succ_r.
    + erewrite bind_Ok; cycle 1.
      { unfold ls_body. erewrite bind_Ok by (by apply arr_get_Ok).
        erewrite bind_Ok by (by apply is_dir_entry_spec). rewrite Hd.
        erewrite bind_Ok by (apply arr_set_Ok; lia).
        replace (Z.of_nat fc + 1) with (Z.of_nat (S fc)) by lia. done. }
      rewrite IH; [|done|done|lia|rewrite length_insert; lia].
      f_equal. rewrite fmap_cons. cbn [fmap list_fmap length].
      rewrite (take_S_r _ _ (Some (name e))) by (apply list_lookup_insert_eq; lia).
      rewrite take_insert_ge by lia. rewrite drop_insert_lt by lia.
      rewrite <- app_assoc. cbn [app].
      by rewrite !Nat.add_succ_r.
Qed.

Lemma length_filter_le {A} (f : A -> bool) (l : list A) :
  (length (List.filter f l) <= length l)%nat.
Proof. induction l as [|x l IH]; cbn; [done|]. destruct (f x); cbn; lia. Qed.

Lemma terminated_prefix (names : list string) (D : list (option string)) :
  (length names < length D)%nat ->
  let D' := <[length names := None]> ((Some <$> names) ++ drop (length names) D) in
  take (S (length names)) D' = (Some <$> names) ++ [None] /\ length D' = length D.
Proof.
  intros Hlen D'. subst D'.
  destruct (drop (length names) D) as [|x rest] eqn:Hdrop.
  { apply (f_equal length) in Hdrop. rewrite length_drop in Hdrop. cbn in Hdrop. lia. }
  assert (length (Some <$> names) = length names) as Hl by apply length_fmap.
  rewrite insert_app_r_alt by lia. rewrite Hl, Nat.sub_diag. cbn [insert list_insert].
  split.
  - rewrite take_app, Hl. rewrite take_ge by lia.
    replace (S (length names) - length names)%nat with 1%nat by lia. done.
  - rewrite length_app, Hl. cbn [length].
    apply (f_equal length) in Hdrop. rewrite length_drop in Hdrop. cbn in Hdrop. lia.
Qed.

Lemma filter_partition_perm {A} (f : A -> bool) (l : list A) :
  List.filter f l ++ List.filter (fun x => negb (f x)) l ≡ₚ l.
Proof.
  induction l as [|x l IH]; cbn; [done|].
  destruct (f x); cbn; [by rewrite IH|].
  by rewrite <- Permutation_middle, IH.
Qed.

(** X11: [jfs_ls] leaves in [directories] the names of the entries whose
    block is a directory node, in the order of the entries and followed by
    [NULL], and in [files] the names of all other entries, likewise; every
    name of the current directory is in one of the two, and the state is
    as it was. *)
Theorem ls_spec (directories files : list (option string)) (s : fs) (d : dirnode_t) :
  block_at s (current_dir s) = Some (Dirnode d) ->
  dir_ok d ->
  length directories = Z.to_nat (MAX_DIR_ENTRIES + 1) ->
  length files = Z.to_nat (MAX_DIR_ENTRIES + 1) ->
  Forall (no_data_target s) (dir_entries d) ->
  exists D F,
    jfs_ls directories files s = Ok (D, F) s /\
    take (S (length (ls_directories s d))) D = (Some <$> ls_directories s d) ++ [None] /\
    take (S (length (ls_files s d))) F = (Some <$> ls_files s d) ++ [None] /\
    length D = length directories /\ length F = length files /\
    ls_directories s d ++ ls_files s d ≡ₚ name <$> dir_entries d.
Proof.
  intros Hcwd Hok HD HF Hnd. pose proof Hok as [Hlen Hn]. unfold block_at in Hcwd.
  assert (length (dir_entries d) = Z.to_nat (num_entries d)) as Hl
    by (unfold dir_entries; rewrite length_take; lia).
  pose proof (length_filter_le (is_dir_entry s) (dir_entries d)) as Hdl.
  pose proof (length_filter_le (fun e => negb (is_dir_entry s e)) (dir_entries d)) as Hfl.
  assert (length (ls_directories s d) < length directories)%nat as HdD
    by (unfold ls_directories; rewrite length_fmap; lia).
  assert (length (ls_files s d) < length files)%nat as HfF
    by (unfold ls_files; rewrite length_fmap; lia).
  destruct (terminated_prefix (ls_directories s d) directories HdD) as [HD1 HD2].
  destruct (terminated_prefix (ls_files s d) files HfF) as [HF1 HF2].
  eexists _, _. split; [|split; [exact HD1|split; [exact HF1|split; [exact HD2|split; [exact HF2|]]]]].
  - unfold jfs_ls. unfold bind at 1, get_current_dir. unfold bind at 1, read_block.
    rewrite Hcwd. cbn [as_dirnode]. unfold bind at 1, ret at 1.
    pose proof (ls_loop (entries d) (dir_entries d) 0 directories files 0 0 s) as Hloop.
    rewrite Hl in Hloop. change (Z.of_nat 0) with 0 in Hloop.
    erewrite bind_Ok; cycle 1.
    { apply Hloop; [|done|lia|lia].
      intros j e Hj. unfold dir_entries in Hj. by apply lookup_take_Some in Hj as [Hj _]. }
    rewrite !take_0. cbn [app Nat.add].
    fold (ls_directories s d). fold (ls_files s d).
    erewrite bind_Ok; cycle 1.
    { apply arr_set_Ok. rewrite length_app, length_fmap, length_drop. lia. }
    erewrite bind_Ok; cycle 1.
    { apply arr_set_Ok. rewrite length_app, length_fmap, length_drop. lia. }
    done.
  - unfold ls_directories, ls_files. rewrite <- fmap_app.
    by rewrite filter_partition_perm.
Qed.

(** ** Taking an entry out, and round trips *)

Lemma rmdir_empty (nm : string) (s : fs) (d : dirnode_t) (k : nat) (e : dirent) (dd : dirnode_t) :
  ConfigOK cfg ->
  block_at s (current_dir s) = Some (Dirnode d) ->
  dir_ok d ->
  dir_find d nm = Some (k, e) ->
  block_at s (block_num e) = Some (Dirnode dd) ->
  num_entries dd = 0 ->
  block_num e ∉ bad_release (disk s) ->
  current_dir s ∉ bad_write (disk s) ->
  exists d',
    jfs_rmdir nm s =
      Ok tt (with_store s (<[current_dir s := Dirnode d']> (blocks (disk s)))
                          (block_num e :: free_list (disk s))) /\
    num_entries d' = num_entries d - 1 /\
    length (entries d') = length (entries d) /\
    dir_entries d' = delete k (dir_entries d).
Proof.
  intros Hcfg Hcwd Hok Hf Hb Hz Hrel Hwr. unfold block_at in Hcwd.
  unfold jfs_rmdir. run_scan Hcwd Hok. rewrite Hf.
  apply dir_find_slot in Hf as (Hk & _ & Hlt).
  destruct (shift_entries_spec d k
              (with_store s (blocks (disk s)) (block_num e :: free_list (disk s)))
              Hok Hlt) as (es & Hshift & Hlen & Htake).
  exists {| num_entries := num_entries d - 1; entries := es |}.
  split; [|done].
  unfold rmdir_entry. erewrite bind_Ok by (by eapply is_dir_Dirnode).
  cbn [negb]. erewrite bind_Ok by apply read_block_Ok. rewrite Hb.
  cbn [as_dirnode]. unfold bind at 1, ret.
  rewrite Hz. cbn [Z.ltb Z.compare].
  erewrite bind_Ok by (by apply release_block_Ok). cbn [negb].
  erewrite bind_Ok by exact Hshift.
  erewrite bind_Ok by (by apply write_block_Ok). cbn [negb].
  unfold ret, u16. rewrite Z.mod_small; [done|].
  destruct Hok as [_ Hn]. pose proof (max_dir_entries_short _ Hcfg). lia.
Qed.

Lemma remove_file (nm : string) (s : fs) (d : dirnode_t) (k : nat) (e : dirent) (ino : inode_t) :
  ConfigOK cfg ->
  block_at s (current_dir s) = Some (Dirnode d) ->
  dir_ok d ->
  dir_find d nm = Some (k, e) ->
  block_at s (block_num e) = Some (Inode ino) ->
  length (data_blocks ino) = Z.to_nat MAX_DATA_BLOCKS ->
  (forall h, h ∈ block_num e :: populated (data_blocks ino) -> h ∉ bad_release (disk s)) ->
  current_dir s ∉ bad_write (disk s) ->
  exists d',
    jfs_remove nm s =
      Ok tt (with_store s (<[current_dir s := Dirnode d']> (blocks (disk s)))
               (block_num e :: reverse (populated (data_blocks ino)) ++ free_list (disk s))) /\
    num_entries d' = num_entries d - 1 /\
    length (entries d') = length (entries d) /\
    dir_entries d' = delete k (dir_entries d).
Proof.
  intros Hcfg Hcwd Hok Hf Hb Hlen Hrel Hwr. unfold block_at in Hcwd.
  pose proof Hf as (Hk & Hnm & Hlt)%dir_find_slot.
  set (s1 := with_store s (blocks (disk s))
               (reverse (populated (data_blocks ino)) ++ free_list (disk s))).
  set (s2 := with_store s (blocks (disk s))
               (block_num e :: reverse (populated (data_blocks ino)) ++ free_list (disk s))).
  destruct (shift_entries_spec d k s2 Hok Hlt) as (es & Hshift & Hes & Htake).
  exists {| num_entries := num_entries d - 1; entries := es |}.
  split; [|done].
  unfold jfs_remove. run_lookup Hcwd Hok. rewrite Hf, found_index.
  erewrite bind_Ok by (by apply arr_get_Ok).
  erewrite bind_Ok by apply read_block_Ok. rewrite Hb.
  erewrite bind_Ok; cycle 1.
  { apply (release_data_spec _ _ 0); [cbn; lia|].
    intros h Hh. rewrite drop_0 in Hh. apply Hrel, elem_of_cons. by right. }
  rewrite drop_0. fold s1.
  erewrite bind_Ok; cycle 1.
  { apply release_block_Ok. cbn. apply Hrel, elem_of_cons. by left. }
  cbn [negb]. change (with_store s1 _ _) with s2.
  erewrite bind_Ok by exact Hshift.
  erewrite bind_Ok by (by apply write_block_Ok). cbn [negb].
  unfold ret, u16. rewrite Z.mod_small; [done|].
  destruct Hok as [_ Hn]. pose proof (max_dir_entries_short _ Hcfg). lia.
Qed.

Lemma dir_add_delete (d : dirnode_t) (e : dirent) :
  dir_ok d -> num_entries d < MAX_DIR_ENTRIES ->
  delete (Z.to_nat (num_entries d)) (dir_entries (dir_add d e)) = dir_entries d.
Proof.
  intros Hok Hroom. pose proof Hok as [Hlen Hn].
  assert (length (dir_entries d) = Z.to_nat (num_entries d)) as Hl
    by (unfold dir_entries; rewrite length_take; lia).
  rewrite dir_add_entries by done. rewrite delete_take_drop.
  rewrite <- Hl. rewrite take_app_length.
  rewrite drop_app_ge by lia.
  replace (S (length (dir_entries d)) - length (dir_entries d))%nat with 1%nat by lia.
  cbn. by rewrite app_nil_r.
Qed.

(** X12: [jfs_mkdir] followed by [jfs_rmdir] of the same name
    succeeds and undoes it: the free list, the entries of the current
    directory and the cursor are those before the two calls. *)
Theorem mkdir_then_rmdir (nm : string) (s : fs) (d : dirnode_t) (h : Z) (rest : list Z) :
  ConfigOK cfg ->
  block_at s (current_dir s) = Some (Dirnode d) ->
  dir_ok d ->
  nm ∉ name <$> dir_entries d ->
  Z.of_nat (String.length nm) <= MAX_NAME_LENGTH ->
  num_entries d < MAX_DIR_ENTRIES ->
  free_list (disk s) = h :: rest -> h <> 0 -> h <> current_dir s ->
  h ∉ bad_write (disk s) -> current_dir s ∉ bad_write (disk s) ->
  h ∉ bad_release (disk s) ->
  exists s1 s2 d2,
    jfs_mkdir nm s = Ok tt s1 /\
    jfs_rmdir nm s1 = Ok tt s2 /\
    free_list (disk s2) = free_list (disk s) /\
    current_dir s2 = current_dir s /\
    block_at s2 (current_dir s2) = Some (Dirnode d2) /\
    num_entries d2 = num_entries d /\
    dir_entries d2 = dir_entries d.
Proof.
  intros Hcfg Hcwd Hok Habs Hfits Hroom Hfree Hh Hne Hwh Hwc Hrel.
  set (e := {| block_num := h; name := nm |}).
  set (s1 := with_store s
               (<[current_dir s := Dirnode (dir_add d e)]>
                  (<[h := Dirnode empty_dirnode]> (blocks (disk s)))) rest).
  destruct (rmdir_empty nm s1 (dir_add d e) (Z.to_nat (num_entries d)) e empty_dirnode Hcfg)
    as (d2 & Hrm & Hn2 & _ & He2); try done.
  - apply lookup_insert_eq.
  - by apply dir_add_ok.
  - by apply (dir_add_find d e).
  - unfold block_at. cbn. rewrite lookup_insert_ne by done. apply lookup_insert_eq.
  - eexists s1, _, d2. split; [by apply mkdir_fresh|]. split; [exact Hrm|].
    split; [by cbn|]. split; [done|]. split; [apply lookup_insert_eq|].
    split; [cbn in Hn2; lia|]. rewrite He2. by apply dir_add_delete.
Qed.

Lemma populated_nonzero_prefix (hs : list Z) (k : nat) :
  0 ∉ hs -> populated (hs ++ replicate k 0) = hs.
Proof.
  induction hs as [|h hs IH]; intros Hnz.
  - destruct k; done.
  - apply not_elem_of_cons in Hnz as [Hh Hnz]. cbn [app populated].
    rewrite (proj2 (Z.eqb_neq h 0)) by done. by rewrite IH.
Qed.

(** X13: [jfs_creat], [jfs_write] of a [b] that is not empty and
    [jfs_remove] in a row succeed; in between [jfs_stat] reports the size
    [length b] in [ceil(length b / BLOCK_SIZE)] blocks, and at the end
    every handle the three calls took is free again, the current directory
    has the entries it had, and the name is gone. *)
Theorem creat_write_remove (nm : string) (b : list byte) (s : fs) (d : dirnode_t)
    (h0 : Z) (hs rest : list Z) :
  ConfigOK cfg ->
  block_at s (current_dir s) = Some (Dirnode d) ->
  dir_ok d ->
  num_entries d < MAX_DIR_ENTRIES ->
  Z.of_nat (String.length nm) <= MAX_NAME_LENGTH ->
  nm ∉ name <$> dir_entries d ->
  b <> [] ->
  Z.of_nat (length b) <= MAX_FILE_SIZE ->
  free_list (disk s) = h0 :: hs ++ rest ->
  Z.of_nat (length hs) = blocks_for (Z.of_nat (length b)) ->
  NoDup (current_dir s :: h0 :: hs) ->
  0 ∉ h0 :: hs ->
  (forall h, h ∈ current_dir s :: h0 :: hs -> h ∉ bad_write (disk s)) ->
  (forall h, h ∈ h0 :: hs -> h ∉ bad_release (disk s)) ->
  exists s1 s2 s3 d3,
    jfs_creat nm s = Ok tt s1 /\
    jfs_write nm b (Z.of_nat (length b)) s1 = Ok tt s2 /\
    jfs_stat nm s2 =
      Ok {| st_is_dir := IS_FILE; st_name := nm; st_block_num := h0;
            st_num_data_blocks := blocks_for (Z.of_nat (length b));
            st_file_size := Z.of_nat (length b) |} s2 /\
    jfs_remove nm s2 = Ok tt s3 /\
    free_list (disk s3) = h0 :: reverse hs ++ rest /\
    free_list (disk s3) ≡ₚ free_list (disk s) /\
    block_at s3 (current_dir s3) = Some (Dirnode d3) /\
    dir_entries d3 = dir_entries d /\
    jfs_stat nm s3 = Fail E_NOT_EXISTS s3.
Proof.
  intros Hcfg Hcwd Hok Hroom Hname Hfresh Hne Hsize Hfree Hhs Hnd Hnz Hgood Hrel.
  pose proof (block_size_pos _ Hcfg) as Hbs.
  pose proof (max_file_size_short _ Hcfg) as Hshort.
  pose proof (max_file_size_blocks _ Hcfg) as Hcap.
  pose proof (max_data_blocks_nonneg _ Hcfg) as Hmdb.
  pose proof (blocks_for_bounds (Z.of_nat (length b)) Hbs ltac:(lia)) as [Hbn0 Hbn].
  apply NoDup_cons in Hnd as [Hc Hnd]. apply not_elem_of_cons in Hc as [Hc0 Hchs].
  apply NoDup_cons in Hnd as [Hh0 Hnd].
  apply not_elem_of_cons in Hnz as [Hz0 Hzhs].
  set (e0 := {| block_num := h0; name := nm |}).
  set (ino0 := {| file_size := 0; data_blocks := zero_data_blocks |}).
  set (s1 := with_store s (<[current_dir s := Dirnode (dir_add d e0)]>
                             (<[h0 := Inode ino0]> (blocks (disk s))))
               (hs ++ rest)).
  set (ino2 := {| file_size := Z.of_nat (length b);
                  data_blocks := hs ++ drop (length hs) (data_blocks ino0) |}).
  set (s2 := with_store s1 (<[h0 := Inode ino2]>
                              (put_chunks hs b (Z.of_nat (length b)) 0 (blocks (disk s1))))
               rest).
  assert (dir_find (dir_add d e0) nm = Some (Z.to_nat (num_entries d), e0)) as Hf1
    by (by apply (dir_add_find d e0)).
  assert (dir_ok (dir_add d e0)) as Hok1 by (by apply dir_add_ok).
  assert (length (data_blocks ino0) = Z.to_nat MAX_DATA_BLOCKS) as Hlen0
    by apply length_replicate.
  assert (forall h, h = current_dir s \/ h = h0 \/ h ∈ hs -> h ∉ bad_write (disk s)) as Hgood'.
  { intros h Hh. apply Hgood. rewrite !elem_of_cons. tauto. }
  assert (block_at s2 (current_dir s2) = Some (Dirnode (dir_add d e0))) as Hcwd2.
  { unfold block_at. cbn. rewrite lookup_insert_ne by done.
    rewrite put_chunks_other by done. apply lookup_insert_eq. }
  assert (block_at s2 h0 = Some (Inode ino2)) as Hino2 by apply lookup_insert_eq.
  assert (length (data_blocks ino2) = Z.to_nat MAX_DATA_BLOCKS) as Hlen2.
  { unfold ino2. cbn [data_blocks]. rewrite length_app, length_drop, Hlen0. nia. }
  assert (populated (data_blocks ino2) = hs) as Hpop.
  { unfold ino2, ino0. cbn [data_blocks]. unfold zero_data_blocks.
    rewrite drop_replicate. by apply populated_nonzero_prefix. }
  destruct (remove_file nm s2 (dir_add d e0) (Z.to_nat (num_entries d)) e0 ino2 Hcfg)
    as (d3 & Hrm & Hn3 & Hl3 & He3); try done.
  { intros h Hh. rewrite Hpop in Hh. cbn. by apply Hrel. }
  { cbn. apply Hgood'. tauto. }
  rewrite Hpop in Hrm. rewrite dir_add_delete in He3 by done.
  eexists s1, s2, _, d3.
  split; [apply creat_fresh; try done; apply Hgood'; tauto|].
  split.
  { apply (write_fresh nm b s1 (dir_add d e0) (Z.to_nat (num_entries d)) e0 ino0);
      try done.
    - apply lookup_insert_eq.
    - unfold block_at. cbn. rewrite lookup_insert_ne by done. apply lookup_insert_eq.
    - apply Forall_forall. intros h Hh ->. done.
    - apply Forall_forall. intros h Hh. cbn. apply Hgood'. tauto.
    - cbn. apply Hgood'. tauto. }
  split.
  { apply (stat_file nm s2 (dir_add d e0) (Z.to_nat (num_entries d)) e0 ino2); try done.
    cbn. lia. }
  split; [exact Hrm|]. split; [done|]. split.
  { cbn. rewrite Hfree. by rewrite reverse_Permutation. }
  split; [apply lookup_insert_eq|]. split; [done|].
  apply (stat_missing nm _ d3).
  - apply lookup_insert_eq.
  - destruct Hok1 as [Hl1 Hn1]. split; [congruence|].
    unfold dir_add in Hn3. cbn [num_entries] in Hn3.
    destruct Hok as [_ Hn0]. lia.
  - by rewrite He3.
Qed.

(** ** The other entries *)

Lemma list_find_cons {A} (P : A -> Prop) `{!forall x, Decision (P x)} (x : A) (l : list A) :
  list_find P (x :: l) =
    if decide (P x) then Some (0%nat, x) else prod_map S id <$> list_find P l.
Proof. reflexivity. Qed.

Lemma list_find_delete_other {A} (P : A -> Prop) `{!forall x, Decision (P x)}
    (l : list A) (k : nat) (x : A) :
  l !! k = Some x -> ~ P x ->
  snd <$> list_find P (delete k l) = snd <$> list_find P l.
Proof.
  revert k. induction l as [|y l IH]; intros k Hk Hx; [done|].
  destruct k as [|k]; cbn in Hk.
  - injection Hk as ->. cbn [delete list_delete].
    rewrite list_find_cons, decide_False by done.
    by destruct (list_find P l) as [[j z]|].
  - cbn [delete list_delete]. rewrite !list_find_cons.
    destruct (decide (P y)); [done|].
    specialize (IH k Hk Hx).
    destruct (list_find P (delete k l)) as [[j z]|],
             (list_find P l) as [[j' z']|]; cbn in *; congruence.
Qed.

Lemma dir_target_found (d : dirnode_t) (nm : string) (e : dirent) :
  dir_target d nm = Some e -> exists k, dir_find d nm = Some (k, e).
Proof.
  unfold dir_target. destruct (dir_find d nm) as [[k e']|]; cbn; [|done].
  intros [= ->]. by exists k.
Qed.

Lemma dir_target_absent (d : dirnode_t) (nm : string) :
  dir_target d nm = None -> nm ∉ name <$> dir_entries d.
Proof.
  unfold dir_target. destruct (dir_find d nm) as [[k e']|] eqn:Hf; cbn; [done|].
  intros _ Hin. apply list_elem_of_fmap in Hin as (e & -> & He).
  apply list_find_None in Hf. by apply (proj1 (Forall_forall _ _) Hf e).
Qed.

(** What [jfs_stat] returns depends on the entry the name resolves to and
    on the block behind it, and on nothing else. *)
Lemma stat_by_target (g : string) (s s' : fs) (d d' : dirnode_t) :
  0 < BLOCK_SIZE ->
  block_at s (current_dir s) = Some (Dirnode d) -> dir_ok d ->
  block_at s' (current_dir s') = Some (Dirnode d') -> dir_ok d' ->
  dir_target d' g = dir_target d g ->
  (forall e, dir_target d g = Some e ->
             block_at s' (block_num e) = block_at s (block_num e)) ->
  stat_agrees g s s'.
Proof.
  intros Hbs Hcwd Hok Hcwd' Hok' Ht Hblk. unfold stat_agrees.
  unfold block_at in Hcwd, Hcwd'.
  assert (forall (t : fs) (dt : dirnode_t) k e,
            blocks (disk t) !! current_dir t = Some (Dirnode dt) -> dir_ok dt ->
            dir_find dt g = Some (k, e) ->
            jfs_stat g t =
              match block_at t (block_num e) with
              | None => Fail E_UNKNOWN t
              | Some (Data _) => Undef BadLayout
              | Some (Dirnode _) =>
                  Ok {| st_is_dir := IS_DIR; st_name := g; st_block_num := block_num e;
                        st_num_data_blocks := 0; st_file_size := 0 |} t
              | Some (Inode ino) =>
                  Ok {| st_is_dir := IS_FILE; st_name := g; st_block_num := block_num e;
                        st_num_data_blocks :=
                          (if 0 <? file_size ino
                           then u32 (u32 (file_size ino - 1) / BLOCK_SIZE + 1) else 0);
                        st_file_size := file_size ino |} t
              end) as Hfound.
  { intros t dt k e Ht0 Hokt Hf. unfold jfs_stat. run_lookup Ht0 Hokt. rewrite Hf.
    apply dir_find_slot in Hf as (Hk & _ & _). rewrite found_index.
    erewrite bind_Ok by (by apply arr_get_Ok).
    erewrite bind_Ok by apply read_block_Ok.
    by destruct (block_at t (block_num e)) as [[| |]|]. }
  destruct (dir_target d g) as [e|] eqn:Hd.
  - destruct (dir_target_found d g e Hd) as [k Hf].
    destruct (dir_target_found d' g e Ht) as [k' Hf'].
    rewrite (Hfound s d k e), (Hfound s' d' k' e) by done.
    rewrite (Hblk e eq_refl).
    by destruct (block_at s (block_num e)) as [[| |]|].
  - rewrite (stat_missing g s d), (stat_missing g s' d'); try done;
      by apply dir_target_absent.
Qed.

Lemma stat_after_removal (nm g : string) (s : fs) (d d' : dirnode_t)
    (k : nat) (e : dirent) (fl : list Z) :
  ConfigOK cfg ->
  block_at s (current_dir s) = Some (Dirnode d) ->
  dir_ok d ->
  dir_find d nm = Some (k, e) ->
  g <> nm ->
  (forall eg, dir_target d g = Some eg -> block_num eg <> current_dir s) ->
  num_entries d' = num_entries d - 1 ->
  length (entries d') = length (entries d) ->
  dir_entries d' = delete k (dir_entries d) ->
  stat_agrees g s (with_store s (<[current_dir s := Dirnode d']> (blocks (disk s))) fl).
Proof.
  intros Hcfg Hcwd Hok Hf Hg Htree Hn' Hl' He'.
  pose proof Hf as (Hk & Hnm & Hlt)%dir_find_slot. pose proof Hok as [Hl Hn].
  apply (stat_by_target g s _ d d'); try done.
  - by apply block_size_pos.
  - apply lookup_insert_eq.
  - split; [congruence|lia].
  - unfold dir_target, dir_find. rewrite He'.
    apply (list_find_delete_other _ _ k e).
    + unfold dir_entries. by rewrite lookup_take_lt by lia.
    + congruence.
  - intros eg Heg. unfold block_at. cbn.
    rewrite lookup_insert_ne; [done|]. intros Heq. by apply (Htree eg).
Qed.

(** X14: after [jfs_remove] or [jfs_rmdir] took a name out of the
    current directory, [jfs_stat] on any other name whose entry does not
    point back at the current directory returns what it returned
    before. *)
Theorem removal_keeps_other_names (nm g : string) (s : fs) (d : dirnode_t)
    (k : nat) (e : dirent) :
  ConfigOK cfg ->
  block_at s (current_dir s) = Some (Dirnode d) ->
  dir_ok d ->
  dir_find d nm = Some (k, e) ->
  g <> nm ->
  (forall eg, dir_target d g = Some eg -> block_num eg <> current_dir s) ->
  current_dir s ∉ bad_write (disk s) ->
  (forall ino,
     block_at s (block_num e) = Some (Inode ino) ->
     length (data_blocks ino) = Z.to_nat MAX_DATA_BLOCKS ->
     (forall h, h ∈ block_num e :: populated (data_blocks ino) -> h ∉ bad_release (disk s)) ->
     exists s', jfs_remove nm s = Ok tt s' /\ stat_agrees g s s') /\
  (forall dd,
     block_at s (block_num e) = Some (Dirnode dd) ->
     num_entries dd = 0 ->
     block_num e ∉ bad_release (disk s) ->
     exists s', jfs_rmdir nm s = Ok tt s' /\ stat_agrees g s s').
Proof.
  intros Hcfg Hcwd Hok Hf Hg Htree Hwr. split.
  - intros ino Hb Hlen Hrel.
    destruct (remove_file nm s d k e ino) as (d' & Hrm & Hn' & Hl' & He'); try done.
    eexists. split; [exact Hrm|]. by apply (stat_after_removal nm g s d d' k e).
  - intros dd Hb Hz Hrel.
    destruct (rmdir_empty nm s d k e dd) as (d' & Hrm & Hn' & Hl' & He'); try done.
    eexists. split; [exact Hrm|]. by apply (stat_after_removal nm g s d d' k e).
Qed.

Lemma dir_add_target_other (d : dirnode_t) (e : dirent) (g : string) :
  dir_ok d -> num_entries d < MAX_DIR_ENTRIES -> g <> name e ->
  dir_target (dir_add d e) g = dir_target d g.
Proof.
  intros Hok Hroom Hg. unfold dir_target, dir_find.
  rewrite dir_add_entries by done.
  destruct (list_find (fun e0 => name e0 = g) (dir_entries d)) as [[j x]|] eqn:Hf.
  - by rewrite (list_find_app_l _ _ _ j x Hf).
  - rewrite list_find_app_r by done. rewrite list_find_cons.
    by rewrite decide_False by congruence.
Qed.

(** X15: after [jfs_creat] or [jfs_mkdir] put a new name in the
    current directory, [jfs_stat] on any other name returns what it
    returned before, as long as its entry points neither at the current
    directory nor at the handle the store handed out. *)
Theorem creation_keeps_other_names (nm g : string) (s : fs) (d : dirnode_t)
    (h : Z) (rest : list Z) :
  ConfigOK cfg ->
  block_at s (current_dir s) = Some (Dirnode d) ->
  dir_ok d ->
  nm ∉ name <$> dir_entries d ->
  Z.of_nat (String.length nm) <= MAX_NAME_LENGTH ->
  num_entries d < MAX_DIR_ENTRIES ->
  free_list (disk s) = h :: rest -> h <> 0 ->
  h ∉ bad_write (disk s) -> current_dir s ∉ bad_write (disk s) ->
  g <> nm ->
  (forall eg, dir_target d g = Some eg ->
              block_num eg <> current_dir s /\ block_num eg <> h) ->
  (exists s', jfs_creat nm s = Ok tt s' /\ stat_agrees g s s') /\
  (exists s', jfs_mkdir nm s = Ok tt s' /\ stat_agrees g s s').
Proof.
  intros Hcfg Hcwd Hok Habs Hfits Hroom Hfree Hh Hwh Hwc Hg Htree.
  set (e := {| block_num := h; name := nm |}).
  assert (forall b, stat_agrees g s
            (with_store s (<[current_dir s := Dirnode (dir_add d e)]>
                             (<[h := b]> (blocks (disk s)))) rest)) as Hagree.
  { intros b. apply (stat_by_target g s _ d (dir_add d e)); try done.
    - by apply block_size_pos.
    - apply lookup_insert_eq.
    - by apply dir_add_ok.
    - by apply dir_add_target_other.
    - intros eg Heg. destruct (Htree eg Heg) as [Hc Hn]. unfold block_at. cbn.
      by rewrite !lookup_insert_ne. }
  split; eexists; (split; [|apply Hagree]).
  - by apply creat_fresh.
  - by apply mkdir_fresh.
Qed.

(** ** Into a new directory *)

Lemma empty_dirnode_ok : ConfigOK cfg -> dir_ok empty_dirnode.
Proof.
  intros Hcfg. pose proof (max_dir_entries_pos _ Hcfg).
  split; [apply length_replicate|cbn; lia].
Qed.

(** X16: a directory made by [jfs_mkdir] can be entered by
    [jfs_chdir]; the cursor is then on the handle the store handed out, no
    name resolves there, and [jfs_chdir] with [NULL] puts the cursor on
    block 1. *)
Theorem mkdir_then_chdir (nm : string) (s : fs) (d : dirnode_t) (h : Z) (rest : list Z) :
  ConfigOK cfg ->
  block_at s (current_dir s) = Some (Dirnode d) ->
  dir_ok d ->
  nm ∉ name <$> dir_entries d ->
  Z.of_nat (String.length nm) <= MAX_NAME_LENGTH ->
  num_entries d < MAX_DIR_ENTRIES ->
  free_list (disk s) = h :: rest -> h <> 0 -> h <> current_dir s ->
  h ∉ bad_write (disk s) -> current_dir s ∉ bad_write (disk s) ->
  exists s1,
    jfs_mkdir nm s = Ok tt s1 /\
    jfs_chdir (Some nm) s1 = Ok tt (with_cursor s1 h) /\
    (forall g, jfs_stat g (with_cursor s1 h) = Fail E_NOT_EXISTS (with_cursor s1 h)) /\
    jfs_chdir None (with_cursor s1 h) = Ok tt (with_cursor s1 1).
Proof.
  intros Hcfg Hcwd Hok Habs Hfits Hroom Hfree Hh Hne Hwh Hwc.
  set (e := {| block_num := h; name := nm |}).
  set (s1 := with_store s
               (<[current_dir s := Dirnode (dir_add d e)]>
                  (<[h := Dirnode empty_dirnode]> (blocks (disk s)))) rest).
  assert (blocks (disk s1) !! current_dir s1 = Some (Dirnode (dir_add d e))) as Hcwd1
    by apply lookup_insert_eq.
  assert (block_at s1 h = Some (Dirnode empty_dirnode)) as Hnew.
  { unfold block_at. cbn. rewrite lookup_insert_ne by done. apply lookup_insert_eq. }
  assert (dir_ok (dir_add d e)) as Hok1 by (by apply dir_add_ok).
  exists s1. split; [by apply mkdir_fresh|]. split; [|split; [|done]].
  - assert (dir_find (dir_add d e) nm = Some (Z.to_nat (num_entries d), e)) as Hf1
      by (by apply (dir_add_find d e)).
    unfold jfs_chdir. run_scan Hcwd1 Hok1. rewrite Hf1.
    unfold chdir_entry. by erewrite bind_Ok by (by eapply is_dir_Dirnode).
  - intros g. apply (stat_missing g _ empty_dirnode).
    + exact Hnew.
    + by apply empty_dirnode_ok.
    + unfold dir_entries. cbn. apply not_elem_of_nil.
Qed.

(** ** [jfs_write] when the store runs out *)

Lemma release_loop (dbn : list Z) (n lo : nat) (s : fs) :
  (lo + n <= length dbn)%nat ->
  Forall (fun h => h ∉ bad_release (disk s)) (take n (drop lo dbn)) ->
  for_range (Z.of_nat lo) n
    (fun j (_ : unit) => h <- arr_get dbn j;; release_block h;;; ret tt) tt s =
    Ok tt (with_store s (blocks (disk s))
             (reverse (take n (drop lo dbn)) ++ free_list (disk s))).
Proof.
  revert lo s. induction n as [|n IH]; intros lo s Hlen Hgood.
  - cbn [for_range take]. rewrite take_0. unfold ret. cbn. by rewrite with_store_id.
  - destruct (dbn !! lo) as [h|] eqn:Hh; [|apply lookup_ge_None in Hh; lia].
    rewrite (drop_S _ _ _ Hh) in Hgood |- *. cbn [take] in Hgood |- *.
    apply Forall_cons in Hgood as [Hgh Hgood].
    cbn [for_range].
    erewrite bind_Ok; cycle 1.
    { erewrite bind_Ok by (by apply arr_get_Ok).
      by erewrite bind_Ok by (by apply release_block_Ok). }
    replace (Z.of_nat lo + 1) with (Z.of_nat (S lo)) by lia.
    rewrite IH by (done || lia).
    rewrite reverse_cons, <- app_assoc. done.
Qed.

Lemma release_range_spec (dbn : list Z) (lo n : nat) (s : fs) :
  (lo + n <= length dbn)%nat ->
  Forall (fun h => h ∉ bad_release (disk s)) (take n (drop lo dbn)) ->
  release_range dbn (Z.of_nat lo) (Z.of_nat (lo + n)) s =
    Ok tt (with_store s (blocks (disk s))
             (reverse (take n (drop lo dbn)) ++ free_list (disk s))).
Proof.
  intros Hlen Hgood. unfold release_range.
  replace (Z.to_nat (Z.of_nat (lo + n) - Z.of_nat lo)) with n by lia.
  by apply release_loop.
Qed.

(** The allocation loop when the free handles do not suffice: the handles
    taken in this call go back, those of the slots [lo] to [i - 1] first. *)
Lemma alloc_loop_exhausted (hs : list Z) (m lo i : nat) (arr : list Z) (s : fs) :
  free_list (disk s) = hs ->
  Forall (fun h => h <> 0) hs ->
  (length hs < m)%nat -> (lo <= i)%nat -> (i + m <= length arr)%nat ->
  Forall (fun h => h ∉ bad_release (disk s)) (take (i - lo) (drop lo arr) ++ hs) ->
  for_range (Z.of_nat i) m (alloc_body (Z.of_nat lo)) arr s =
    Fail E_DISK_FULL
      (with_store s (blocks (disk s)) (reverse (take (i - lo) (drop lo arr) ++ hs))).
Proof.
  revert m i arr s. induction hs as [|h hs IH]; intros m i arr s Hfree Hnz Hm Hlo Hlen Hgood.
  - destruct m as [|m]; [cbn in Hm; lia|]. rewrite app_nil_r in Hgood |- *.
    cbn [for_range]. apply bind_Fail. unfold alloc_body.
    erewrite bind_Ok; cycle 1.
    { unfold allocate_block. by rewrite Hfree. }
    erewrite bind_Ok by (apply arr_set_Ok; lia).
    erewrite bind_Ok by (apply arr_get_Ok, list_lookup_insert_eq; lia).
    cbn [Z.eqb].
    assert (take (i - lo) (drop lo (<[i:=0]> arr)) = take (i - lo) (drop lo arr)) as Hsame.
    { rewrite !take_drop_commute. f_equal. apply take_insert_ge. lia. }
    erewrite bind_Ok; cycle 1.
    { replace (Z.of_nat i) with (Z.of_nat (lo + (i - lo))) by lia.
      apply release_range_spec; [rewrite length_insert; lia|].
      by rewrite Hsame. }
    rewrite Hsame, Hfree, app_nil_r. done.
  - apply Forall_cons in Hnz as [Hh Hnz]. cbn [length] in Hm.
    destruct m as [|m]; [lia|]. cbn [for_range].
    assert (take (S i - lo) (drop lo (<[i:=h]> arr)) = take (i - lo) (drop lo arr) ++ [h])
      as Hnext.
    { replace (S i - lo)%nat with (S (i - lo)) by lia.
      rewrite (take_S_r _ _ h).
      - f_equal. rewrite !take_drop_commute. f_equal. apply take_insert_ge. lia.
      - rewrite lookup_drop. replace (lo + (i - lo))%nat with i by lia.
        apply list_lookup_insert_eq. lia. }
    erewrite bind_Ok; cycle 1.
    { unfold alloc_body.
      erewrite bind_Ok by (by apply allocate_block_Ok).
      erewrite bind_Ok by (apply arr_set_Ok; lia).
      erewrite bind_Ok by (apply arr_get_Ok, list_lookup_insert_eq; lia).
      by rewrite (proj2 (Z.eqb_neq _ _) Hh). }
    replace (Z.of_nat i + 1) with (Z.of_nat (S i)) by lia.
    rewrite IH; try done; try lia.
    + rewrite Hnext, <- app_assoc. done.
    + rewrite length_insert. lia.
    + rewrite Hnext, <- app_assoc. done.
Qed.

(** X17: a [jfs_write] to an empty file that needs more blocks
    than the store has free returns [E_DISK_FULL]; no block was written,
    and every handle the call took is free again. *)
Theorem write_disk_full (nm : string) (b : list byte) (s : fs) (d : dirnode_t)
    (k : nat) (e : dirent) (ino : inode_t) :
  ConfigOK cfg ->
  block_at s (current_dir s) = Some (Dirnode d) ->
  dir_ok d ->
  dir_find d nm = Some (k, e) ->
  block_at s (block_num e) = Some (Inode ino) ->
  file_size ino = 0 ->
  Z.of_nat (length b) <= MAX_FILE_SIZE ->
  Z.of_nat (length (free_list (disk s))) < blocks_for (Z.of_nat (length b)) ->
  Forall (fun h => h <> 0) (free_list (disk s)) ->
  Forall (fun h => h ∉ bad_release (disk s)) (free_list (disk s)) ->
  exists s',
    jfs_write nm b (Z.of_nat (length b)) s = Fail E_DISK_FULL s' /\
    blocks (disk s') = blocks (disk s) /\
    free_list (disk s') = reverse (free_list (disk s)) /\
    free_list (disk s') ≡ₚ free_list (disk s).
Proof.
  intros Hcfg Hcwd Hok Hf Hb Hfs Hsize Hfew Hnz Hgood.
  pose proof (block_size_pos _ Hcfg) as Hbs.
  pose proof (max_file_size_short _ Hcfg) as Hshort.
  pose proof (blocks_for_bounds (Z.of_nat (length b)) Hbs ltac:(lia)) as [Hbn0 Hbn].
  pose proof Hf as (Hk & _ & _)%dir_find_slot.
  unfold block_at in Hcwd.
  assert (append_position_of 0 = 0) as Hap
    by (unfold append_position_of; by rewrite Z.mod_0_l by lia).
  assert (next_start_position_of 0 = 0) as Hnsp by done.
  assert (blocks_needed_of (Z.of_nat (length b)) = blocks_for (Z.of_nat (length b))) as Hneed.
  { unfold blocks_needed_of. fold (blocks_for (Z.of_nat (length b))).
    rewrite u16_small by nia. done. }
  eexists. split; [|split; [|split]].
  - unfold jfs_write. run_lookup Hcwd Hok. rewrite Hf, found_index.
    erewrite bind_Ok by (by apply arr_get_Ok).
    erewrite bind_Ok by apply read_block_Ok. rewrite Hb.
    rewrite !Hfs, !Hap, !Hnsp. rewrite Z.add_0_l, Z.add_0_r.
    rewrite u32_small by lia. rewrite (proj2 (Z.ltb_ge _ _) Hsize).
    rewrite Z.ltb_irrefl. cbn [andb]. unfold bind at 1.
    rewrite (u16_small (Z.of_nat (length b))) by lia.
    rewrite Hneed.
    rewrite (proj2 (Z.eqb_neq _ 0)) by lia.
    apply bind_Fail.
    apply (alloc_loop_exhausted (free_list (disk s)) _ 0 0); try done.
    + lia.
    + rewrite length_replicate. lia.
  - done.
  - cbn. by rewrite take_0.
  - cbn. rewrite take_0. apply reverse_Permutation.
Qed.

(** ** [jfs_write]: appending to a file within its first block *)

Lemma length_chunk_ge (abuf : list byte) (ws bw : Z) :
  0 < BLOCK_SIZE -> ws <= Z.of_nat (length abuf) -> 0 <= bw <= ws ->
  Z.of_nat (length (chunk abuf ws bw)) = BLOCK_SIZE.
Proof.
  intros Hbs Hlen Hbw. unfold chunk, memcpy, zeros.
  rewrite !length_app, !length_take, !length_drop, length_replicate. lia.
Qed.

Lemma chunks_from_length_ge (abuf : list byte) (ws bw : Z) (n : nat) :
  0 < BLOCK_SIZE -> ws <= Z.of_nat (length abuf) -> 0 <= bw <= ws ->
  Forall (fun c => Z.of_nat (length c) = BLOCK_SIZE) (chunks_from abuf ws bw n).
Proof.
  intros Hbs Hlen. revert bw. induction n as [|n IH]; intros bw Hbw; cbn; [done|].
  constructor; [by apply length_chunk_ge|]. apply IH. lia.
Qed.

(** The chunks, one after the other, begin with the [ws] bytes of the
    buffer that remain to be written. *)
Lemma chunks_from_join_ge (abuf : list byte) (ws bw : Z) (n : nat) :
  0 < BLOCK_SIZE -> ws <= Z.of_nat (length abuf) -> 0 <= bw <= ws ->
  Z.of_nat n = blocks_for (ws - bw) ->
  exists pad,
    mjoin (chunks_from abuf ws bw n) =
      take (Z.to_nat (ws - bw)) (drop (Z.to_nat bw) abuf) ++ pad.
Proof.
  intros Hbs Hlen. revert bw. induction n as [|n IH]; intros bw Hbw Hn.
  - exists []. cbn.
    pose proof (blocks_for_bounds (ws - bw) Hbs ltac:(lia)).
    replace (Z.to_nat (ws - bw)) with 0%nat by lia. by rewrite take_0.
  - pose proof (blocks_for_bounds (ws - bw) Hbs ltac:(lia)) as [_ Hb].
    cbn [chunks_from].
    change (mjoin (?c :: ?cs)) with (c ++ mjoin cs).
    destruct (Z.le_gt_cases BLOCK_SIZE (ws - bw)) as [Hfull|Hpart].
    + destruct (IH (bw + Z.min (ws - bw) BLOCK_SIZE)) as [pad Hpad]; [lia| |].
      { rewrite Z.min_r by lia. unfold blocks_for in *.
        replace (ws - bw + BLOCK_SIZE - 1)
          with (ws - (bw + BLOCK_SIZE) + BLOCK_SIZE - 1 + 1 * BLOCK_SIZE) in Hn by lia.
        rewrite Z.div_add in Hn by lia. lia. }
      exists pad. rewrite Hpad. unfold chunk, memcpy.
      rewrite Z.min_r by lia. rewrite take_0. cbn [app].
      rewrite (drop_ge (zeros _)) by (unfold zeros; rewrite length_replicate; lia).
      rewrite app_nil_r, app_assoc. f_equal.
      replace (Z.to_nat (bw + BLOCK_SIZE)) with (Z.to_nat bw + Z.to_nat BLOCK_SIZE)%nat by lia.
      rewrite <- drop_drop, take_take_drop. f_equal. lia.
    + eexists. unfold chunk, memcpy.
      rewrite Z.min_l by lia. rewrite take_0. cbn [app].
      rewrite <- app_assoc. done.
Qed.

(** The file behind an inode that lists the handles [hs] of the chunks of
    the first [ws] bytes of [abuf]: it is in order and its content is
    those bytes. *)
Lemma written_file_ge (s : fs) (ih : Z) (hs tl : list Z) (abuf : list byte) (ws : Z)
    (bl : gmap Z block) :
  ConfigOK cfg ->
  let ino := {| file_size := ws; data_blocks := hs ++ tl |} in
  blocks (disk s) = <[ih := Inode ino]> (put_chunks hs abuf ws 0 bl) ->
  ih ∉ hs -> NoDup hs ->
  0 <= ws <= MAX_FILE_SIZE -> ws <= Z.of_nat (length abuf) ->
  Z.of_nat (length hs) = blocks_for ws ->
  length (hs ++ tl) = Z.to_nat MAX_DATA_BLOCKS ->
  file_ok s ino /\ file_content s ino = take (Z.to_nat ws) abuf.
Proof.
  intros Hcfg ino Hbl Hih Hnd Hsize Habuf Hhs Hlen.
  pose proof (block_size_pos _ Hcfg) as Hbs.
  assert (forall j h, hs !! j = Some h ->
            exists c, chunks_from abuf ws 0 (length hs) !! j = Some c /\
                      block_at s h = Some (Data c)) as Hat.
  { intros j h Hj.
    destruct (chunks_from abuf ws 0 (length hs) !! j) as [c|] eqn:Hc; cycle 1.
    { apply lookup_ge_None in Hc. rewrite length_chunks_from in Hc.
      apply lookup_lt_Some in Hj. lia. }
    exists c. split; [done|].
    unfold block_at. rewrite Hbl, lookup_insert_ne; cycle 1.
    { intros ->. by apply Hih, (list_elem_of_lookup_2 _ j). }
    by rewrite (put_chunks_lookup _ _ _ _ _ j), Hc. }
  assert (Forall (is_data_block s) hs) as Hdata.
  { apply Forall_lookup. intros j h Hj.
    destruct (Hat j h Hj) as (c & Hc & Hb). exists c. split; [done|].
    eapply (Forall_lookup_1 _ _ _ _
              (chunks_from_length_ge abuf ws 0 (length hs) Hbs Habuf ltac:(lia))).
    exact Hc. }
  assert (block_bytes s <$> hs = chunks_from abuf ws 0 (length hs)) as Hbytes.
  { apply list_eq. intros j. rewrite list_lookup_fmap.
    destruct (hs !! j) as [h|] eqn:Hj; cbn.
    - destruct (Hat j h Hj) as (c & Hc & Hb).
      by rewrite (block_bytes_Data _ _ _ Hb).
    - symmetry. apply lookup_ge_None. rewrite length_chunks_from.
      by apply lookup_ge_None. }
  split.
  - split; [cbn; lia|]. split; [done|].
    unfold ino. cbn [file_size data_blocks]. rewrite <- Hhs, Nat2Z.id.
    by rewrite take_app_length.
  - unfold file_content, ino. cbn [file_size data_blocks].
    rewrite fmap_app, join_app, Hbytes.
    destruct (chunks_from_join_ge abuf ws 0 (length hs) Hbs Habuf ltac:(lia)) as [pad Hpad].
    { by rewrite Z.sub_0_r. }
    rewrite Hpad. change (Z.to_nat 0) with 0%nat. rewrite drop_0, Z.sub_0_r.
    rewrite <- app_assoc. rewrite take_app_le by (rewrite length_take; lia).
    rewrite take_take. f_equal. lia.
Qed.

(** The buffer in which the last block and the new bytes are merged. *)
Lemma append_buffer_prefix (bytes b : list byte) (ap : Z) :
  0 <= ap <= BLOCK_SIZE -> Z.of_nat (length bytes) = BLOCK_SIZE ->
  ap + Z.of_nat (length b) <= MAX_FILE_SIZE -> BLOCK_SIZE <= MAX_FILE_SIZE ->
  let abuf := memcpy (memcpy (zeros MAX_FILE_SIZE) 0 bytes BLOCK_SIZE) ap b
                (Z.of_nat (length b)) in
  Z.of_nat (length abuf) = MAX_FILE_SIZE /\
  take (Z.to_nat (Z.of_nat (length b) + ap)) abuf = take (Z.to_nat ap) bytes ++ b.
Proof.
  intros Hap Hbytes Hfit Hbs abuf. subst abuf.
  set (inner := memcpy (zeros MAX_FILE_SIZE) 0 bytes BLOCK_SIZE).
  assert (inner = bytes ++ drop (Z.to_nat BLOCK_SIZE) (zeros MAX_FILE_SIZE)) as Hinner.
  { unfold inner, memcpy. rewrite take_0. cbn [app].
    rewrite take_ge by lia. by rewrite Z.add_0_l. }
  assert (Z.of_nat (length inner) = MAX_FILE_SIZE) as Hil.
  { rewrite Hinner, length_app, length_drop. unfold zeros.
    rewrite length_replicate. lia. }
  assert (take (Z.to_nat ap) inner = take (Z.to_nat ap) bytes) as Htake
    by (rewrite Hinner; apply take_app_le; lia).
  assert (memcpy inner ap b (Z.of_nat (length b)) =
            take (Z.to_nat ap) bytes ++ b
              ++ drop (Z.to_nat (ap + Z.of_nat (length b))) inner) as ->.
  { unfold memcpy. by rewrite Nat2Z.id, (take_ge b), Htake by lia. }
  split.
  - rewrite !length_app, length_take, length_drop. lia.
  - rewrite app_assoc. rewrite take_app_le by (rewrite length_app, length_take; lia).
    apply take_ge. rewrite length_app, length_take. lia.
Qed.


(** X18: appending to a file whose content ends inside its first
    block ([0 < file_size < BLOCK_SIZE]).  [jfs_write] reads that block,
    releases it, merges its bytes with the new ones and allocates the
    blocks for the whole content again; the released handle [h] is the
    first one that the allocator hands back.  With enough free handles
    [hs] behind it, all of them writable, the call succeeds, and reading
    the file afterwards gives the old content followed by the new bytes. *)
Theorem append_in_first_block (nm : string) (b : list byte) (s : fs) (d : dirnode_t)
    (k : nat) (e : dirent) (ino : inode_t) (h : Z) (hs rest : list Z) :
  ConfigOK cfg ->
  BLOCK_SIZE <= MAX_FILE_SIZE ->
  block_at s (current_dir s) = Some (Dirnode d) ->
  dir_ok d ->
  dir_find d nm = Some (k, e) ->
  block_at s (block_num e) = Some (Inode ino) ->
  file_ok s ino ->
  0 < file_size ino < BLOCK_SIZE ->
  file_size ino + Z.of_nat (length b) <= MAX_FILE_SIZE ->
  data_blocks ino !! 0%nat = Some h ->
  h ∉ bad_release (disk s) ->
  free_list (disk s) = hs ++ rest ->
  Z.of_nat (S (length hs)) = blocks_for (file_size ino + Z.of_nat (length b)) ->
  NoDup (h :: hs) ->
  current_dir s ∉ hs -> block_num e ∉ hs ->
  0 ∉ h :: hs ->
  (forall h', h' ∈ block_num e :: h :: hs -> h' ∉ bad_write (disk s)) ->
  exists s',
    jfs_write nm b (Z.of_nat (length b)) s = Ok tt s' /\
    free_list (disk s') = rest /\
    jfs_read nm (file_size ino + Z.of_nat (length b)) s' =
      Ok (file_size ino + Z.of_nat (length b), file_content s ino ++ b) s'.
Proof.
  intros Hcfg Hbm Hcwd Hok Hf Hb Hfile Hfs Hsize Hh Hrel Hfree Hhs Hnd Hchs Hehs Hnz Hgood.
  pose proof (block_size_pos _ Hcfg) as Hbs.
  pose proof (max_file_size_short _ Hcfg) as Hshort.
  pose proof (max_file_size_blocks _ Hcfg) as Hcap.
  pose proof (max_data_blocks_nonneg _ Hcfg) as Hmdb.
  set (fsz := file_size ino) in *.
  set (ws := Z.of_nat (length b) + fsz).
  pose proof (blocks_for_bounds ws Hbs ltac:(lia)) as [Hbn0 Hbn].
  replace (fsz + Z.of_nat (length b)) with ws in * by (unfold ws; lia).
  destruct Hfile as (_ & Hlen & Hdata).
  assert (blocks_for fsz = 1) as Hone.
  { unfold blocks_for. replace (fsz + BLOCK_SIZE - 1) with (fsz - 1 + 1 * BLOCK_SIZE) by lia.
    rewrite Z.div_add by lia. rewrite Z.div_small by lia. done. }
  fold fsz in Hdata. rewrite Hone in Hdata.
  destruct (data_blocks ino) as [|h1 tl] eqn:Hdbs; [done|].
  injection Hh as ->.
  change (take (Z.to_nat 1) (h :: tl)) with (h :: take 0 tl) in Hdata.
  apply Forall_cons in Hdata as [(bytes & Hbytes & Hblen) _].
  assert (h <> current_dir s) as Hhc by (intros ->; congruence).
  assert (h <> block_num e) as Hhe by (intros ->; congruence).
  pose proof Hf as (Hk & _ & _)%dir_find_slot.
  set (abuf := memcpy (memcpy (zeros MAX_FILE_SIZE) 0 bytes BLOCK_SIZE) fsz b
                 (Z.of_nat (length b))).
  destruct (append_buffer_prefix bytes b fsz ltac:(lia) Hblen ltac:(lia) Hbm)
    as [Hablen Habuf].
  fold abuf in Hablen, Habuf. fold ws in Habuf.
  set (ino' := {| file_size := ws;
                  data_blocks := (h :: hs) ++ drop (length (h :: hs)) (h :: tl) |}).
  set (s' := with_store s
               (<[block_num e := Inode ino']>
                  (put_chunks (h :: hs) abuf ws 0 (blocks (disk s))))
               rest).
  assert (append_position_of fsz = fsz) as Hap.
  { unfold append_position_of. rewrite Z.mod_small by lia. apply u16_small. lia. }
  assert (last_block_num_of fsz = 0) as Hlast.
  { unfold last_block_num_of. rewrite u32_small by lia.
    by rewrite Z.div_small by lia. }
  assert (next_start_position_of fsz = 0) as Hnsp.
  { unfold next_start_position_of. rewrite Hap.
    rewrite (proj2 (Z.eqb_neq _ _)) by lia.
    fold (blocks_for fsz). rewrite (u32_small (fsz + BLOCK_SIZE - 1)) by lia.
    fold (blocks_for fsz). by rewrite Hone. }
  assert (blocks_needed_of ws = Z.of_nat (length (h :: hs))) as Hneed.
  { unfold blocks_needed_of. fold (blocks_for ws).
    rewrite u16_small by nia. by rewrite <- Hhs. }
  assert (forall h', h' = block_num e \/ h' = h \/ h' ∈ hs -> h' ∉ bad_write (disk s))
    as Hgood'.
  { intros h' Hh'. apply Hgood. rewrite !elem_of_cons. tauto. }
  apply NoDup_cons in Hnd as Hnd'. destruct Hnd' as [Hhhs Hndhs].
  exists s'. split; [|split; [done|]].
  - unfold block_at in Hcwd.
    unfold jfs_write. run_lookup Hcwd Hok. rewrite Hf, found_index.
    erewrite bind_Ok by (by apply arr_get_Ok).
    erewrite bind_Ok by apply read_block_Ok. rewrite Hb.
    fold fsz. rewrite !Hap, !Hlast, !Hnsp.
    rewrite u32_small by lia.
    rewrite (proj2 (Z.ltb_ge _ _)) by lia.
    rewrite (proj2 (Z.ltb_lt 0 fsz)) by lia. cbn [andb].
    rewrite Hdbs.
    erewrite bind_Ok; cycle 1.
    { erewrite bind_Ok by (by apply (arr_get_Ok _ 0%nat)).
      erewrite bind_Ok by apply read_block_Ok. rewrite Hbytes.
      cbn [as_data]. unfold bind at 1, ret at 1.
      erewrite bind_Ok by (by apply release_block_Ok).
      reflexivity. }
    fold abuf. rewrite (u16_small (Z.of_nat (length b) + fsz)) by lia. fold ws.
    rewrite Hneed, Nat2Z.id.
    rewrite (proj2 (Z.eqb_neq _ 0)) by (cbn [length]; lia).
    set (s0 := with_store s (blocks (disk s)) (h :: free_list (disk s))).
    pose proof (alloc_loop 0 (h :: hs) rest 0 (replicate (length (h :: hs)) 0) s0) as Halloc.
    rewrite length_replicate in Halloc.
    specialize (Halloc ltac:(by cbn; rewrite Hfree)
                       ltac:(apply Forall_forall; intros ? ? ->; done) ltac:(lia)).
    rewrite take_0, drop_ge in Halloc by (rewrite length_replicate; lia).
    cbn [app] in Halloc. rewrite app_nil_r in Halloc.
    change (Z.of_nat 0) with 0 in Halloc.
    erewrite bind_Ok by exact Halloc.
    set (s1 := with_store s0 (blocks (disk s0)) rest).
    destruct (write_loop abuf ws 0 (h :: hs) (h :: hs) 0 0 s1 Hbs) as [bw' Hwrite];
      [lia|lia|done| |].
    { apply Forall_forall. intros h' Hh'. cbn. apply Hgood'.
      apply elem_of_cons in Hh'. tauto. }
    change (Z.of_nat 0) with 0 in Hwrite.
    erewrite bind_Ok by exact Hwrite.
    pose proof (update_loop (h :: hs) (length (h :: hs)) 0 (h :: tl)
                  (with_store s1 (put_chunks (h :: hs) abuf ws 0 (blocks (disk s1)))
                     (free_list (disk s1)))) as Hupd.
    change (Z.of_nat 0) with 0 in Hupd.
    erewrite bind_Ok by (apply Hupd; [cbn; lia|rewrite Hlen; cbn [length] in *; nia]).
    rewrite take_0, drop_0, take_ge by done. cbn [app Nat.add].
    erewrite bind_Ok by (apply write_block_Ok; cbn; apply Hgood'; tauto).
    cbn [negb]. replace (fsz + (ws - fsz)) with ws by lia.
    rewrite u32_small by lia. done.
  - destruct (written_file_ge s' (block_num e) (h :: hs)
                (drop (length (h :: hs)) (h :: tl)) abuf ws (blocks (disk s)) Hcfg)
      as [Hfile' Hcontent]; try done.
    { apply not_elem_of_cons. split; [congruence|done]. }
    { lia. }
    { lia. }
    { rewrite length_app, length_drop, Hlen. cbn [length] in *. nia. }
    fold ino' in Hfile', Hcontent.
    assert (block_at s' (current_dir s') = Some (Dirnode d)) as Hcwd'.
    { unfold block_at. cbn [s' with_store disk blocks current_dir].
      rewrite lookup_insert_ne by (intros Heq; unfold block_at in *; congruence).
      rewrite put_chunks_other; [done|].
      apply not_elem_of_cons. split; [congruence|done]. }
    rewrite (read_file nm ws s' d k e ino' Hcfg); try done.
    + rewrite Hcontent. cbn [file_size ino']. rewrite Z.min_id.
      rewrite take_take, Nat.min_id, Habuf. do 3 f_equal.
      unfold file_content. fold fsz. rewrite Hdbs.
      change (mjoin (block_bytes s <$> h :: tl))
        with (block_bytes s h ++ mjoin (block_bytes s <$> tl)).
      rewrite (block_bytes_Data _ _ _ Hbytes).
      rewrite take_app_le by lia. done.
    + unfold block_at. cbn. apply lookup_insert_eq.
    + lia.
Qed.


(** ** [jfs_write]: a write of no byte *)

(** With [count = 0] on a file that is empty or ends on a block boundary,
    no block is needed, and the array of the new handles is declared with
    no element. *)
Lemma write_of_nothing (nm : string) (buf : list byte) (s : fs) (d : dirnode_t)
    (k : nat) (e : dirent) (ino : inode_t) :
  ConfigOK cfg ->
  block_at s (current_dir s) = Some (Dirnode d) ->
  dir_ok d ->
  dir_find d nm = Some (k, e) ->
  block_at s (block_num e) = Some (Inode ino) ->
  0 <= file_size ino <= MAX_FILE_SIZE ->
  file_size ino mod BLOCK_SIZE = 0 ->
  jfs_write nm buf 0 s = Undef ZeroLengthArray.
Proof.
  intros Hcfg Hcwd Hok Hf Hb Hsz Hal.
  pose proof (block_size_pos _ Hcfg) as Hbs.
  pose proof (max_file_size_short _ Hcfg) as Hshort.
  pose proof Hf as (Hk & _ & _)%dir_find_slot.
  unfold block_at in Hcwd.
  assert (append_position_of (file_size ino) = 0) as Hap
    by (unfold append_position_of; by rewrite Hal).
  assert (blocks_needed_of 0 = 0) as Hneed.
  { unfold blocks_needed_of. rewrite Z.add_0_l, Z.div_small by lia. done. }
  unfold jfs_write. run_lookup Hcwd Hok. rewrite Hf, found_index.
  erewrite bind_Ok by (by apply arr_get_Ok).
  erewrite bind_Ok by apply read_block_Ok. rewrite Hb.
  rewrite !Hap, !Z.add_0_r. rewrite u32_small by lia.
  rewrite (proj2 (Z.ltb_ge _ _)) by lia.
  rewrite Z.ltb_irrefl. cbn [andb]. unfold bind at 1.
  change (u16 0) with 0. by rewrite Hneed.
Qed.

End Properties.

(** ** The write path on files that already have data *)

(** Evaluates the calls of a goal one after the other, each on the state
    the one before it produced. *)
Ltac evaluate := repeat (split; [vm_compute; reflexivity|]); vm_compute; reflexivity.

(** Scenario D of the specification: two writes of three bytes with
    [BLOCK_SIZE = 4]; the first block is read back, released and written
    again, and the six bytes come back in order. *)
Example append_within_first_block :
  exists s1 s2 s3,
    @jfs_creat cfg4 "a.txt" fresh_disk = Ok tt s1 /\
    @jfs_write cfg4 "a.txt" (bytes_of_string "hel") 3 s1 = Ok tt s2 /\
    @jfs_write cfg4 "a.txt" (bytes_of_string "low") 3 s2 = Ok tt s3 /\
    @jfs_read cfg4 "a.txt" 6 s3 = Ok (6, bytes_of_string "hellow") s3 /\
    block_at s3 2 = Some (Inode {| file_size := 6; data_blocks := [3; 4; 0; 0] |}).
Proof. do 3 eexists. evaluate. Qed.

(** Scenario B of the specification, with the cursor followed: a new
    directory can be entered, is empty, and the root comes back. *)
Example mkdir_chdir_root :
  exists s1 s2 s3,
    @jfs_mkdir cfg4 "sub" fresh_disk = Ok tt s1 /\
    jfs_chdir (Some "sub") s1 = Ok tt s2 /\
    current_dir s2 = 2 /\
    block_at s2 2 = Some (Dirnode empty_root) /\
    jfs_chdir None s2 = Ok tt s3 /\
    s3 = s1 /\
    @jfs_mkdir cfg4 "sub" s3 = Fail E_EXISTS s3 /\
    @jfs_creat cfg4 "sub" s3 = Fail E_EXISTS s3 /\
    @jfs_creat cfg4 "longname.txt" s3 = Fail E_MAX_NAME_LENGTH s3.
Proof.
  do 3 eexists.
  do 2 (split; [vm_compute; reflexivity|]).
  do 2 (split; [vm_compute; reflexivity|]).
  split; [vm_compute; reflexivity|].
  split; [vm_compute; reflexivity|]. evaluate.
Qed.

(** Once a file fills a block, the first new handle goes to a slot of
    [data_block_nums] that is not below [blocks_needed]. *)
Lemma next_start_position_positive {cfg : Config} (fsz : Z) :
  ConfigOK cfg -> BLOCK_SIZE <= fsz <= MAX_FILE_SIZE ->
  1 <= next_start_position_of fsz.
Proof.
  intros Hcfg Hsz.
  pose proof (block_size_pos _ Hcfg) as Hbs.
  pose proof (max_file_size_short _ Hcfg) as Hshort.
  assert (1 <= fsz / BLOCK_SIZE <= fsz) as Hdiv.
  { split; [apply Z.div_le_lower_bound; lia|apply Z.div_le_upper_bound; nia]. }
  unfold next_start_position_of.
  destruct (fsz =? 0) eqn:Hz; [lia|].
  destruct (append_position_of fsz =? 0) eqn:Hap.
  - rewrite u16_small; lia.
  - rewrite (u32_small (fsz + BLOCK_SIZE - 1)) by lia.
    replace (fsz + BLOCK_SIZE - 1) with (fsz - 1 + 1 * BLOCK_SIZE) by lia.
    rewrite Z.div_add by lia.
    assert (0 <= (fsz - 1) / BLOCK_SIZE <= fsz - 1)
      by (split; [apply Z.div_pos; lia|apply Z.div_le_upper_bound; nia]).
    rewrite u32_small by lia. rewrite u16_small by lia.
    assert (fsz mod BLOCK_SIZE <> 0) as Hmod.
    { apply Z.eqb_neq in Hap. unfold append_position_of in Hap.
      pose proof (Z.mod_pos_bound fsz BLOCK_SIZE Hbs).
      rewrite u16_small in Hap; lia. }
    replace (fsz - 1) with (fsz + -1) by lia.
    enough (1 <= (fsz + -1) / BLOCK_SIZE) by lia.
    apply Z.div_le_lower_bound; [lia|].
    pose proof (Z_div_mod_eq_full fsz BLOCK_SIZE).
    pose proof (Z.mod_pos_bound fsz BLOCK_SIZE Hbs). nia.
Qed.

(** C1 (the code departs from the claim): the byte sequences of the claim
    include the empty one.  After [creat(f)], [write(f, b)] with no byte
    passes the size check, needs [blocks_needed = 0] blocks and declares
    [data_block_nums[blocks_needed]] with no element: the call is
    undefined and no read of [(0, b)] follows. *)
Theorem empty_write_undefined :
  let b : list byte := [] in
  Z.of_nat (length b) <= @MAX_FILE_SIZE cfg4 /\
  @blocks_needed_of cfg4 (Z.of_nat (length b) + @append_position_of cfg4 0) = 0 /\
  exists s1,
    @jfs_creat cfg4 "a.txt" fresh_disk = Ok tt s1 /\
    @jfs_write cfg4 "a.txt" b (Z.of_nat (length b)) s1 = Undef ZeroLengthArray.
Proof.
  cbv zeta. split; [vm_compute; congruence|].
  split; [vm_compute; reflexivity|].
  eexists. evaluate.
Qed.

(** C2 (the code departs from the claim): after [write(f, b1)] with the
    five bytes of "hello", more than one block of four bytes, the second
    write stores the first new handle in [data_block_nums[1]] and the next
    in [data_block_nums[2]] of an array of two: the call is undefined and
    no read of [b1 ++ b2] follows. *)
Theorem append_after_first_block_undefined :
  exists s1 s2,
    @jfs_creat cfg4 "a.txt" fresh_disk = Ok tt s1 /\
    @jfs_write cfg4 "a.txt" (bytes_of_string "hello") 5 s1 = Ok tt s2 /\
    @jfs_read cfg4 "a.txt" 5 s2 = Ok (5, bytes_of_string "hello") s2 /\
    @jfs_write cfg4 "a.txt" (bytes_of_string "world!") 6 s2 = Undef OutOfBounds.
Proof. do 2 eexists. evaluate. Qed.

(** C3 (the code departs from the claim): when the write of the first
    chunk fails, the call returns [E_UNKNOWN] and neither of the two blocks
    it allocated, 3 and 4, is back on the free list; and when allocation
    runs dry after a partly filled last block was released, the call
    returns [E_DISK_FULL] with that block, 3, on the free list and still in
    the persisted inode. *)
Theorem failed_write_cleanup :
  (exists s',
     @jfs_write cfg4 "a.txt" (bytes_of_string "hello!!!") 8 faulty_disk = Fail E_UNKNOWN s' /\
     free_list (disk faulty_disk) = [3; 4; 5; 6; 7; 8; 9] /\
     free_list (disk s') = [5; 6; 7; 8; 9] /\
     block_at s' 2 = Some (Inode {| file_size := 0; data_blocks := [0; 0; 0; 0] |})) /\
  (exists s',
     @jfs_write cfg4 "a.txt" (bytes_of_string "low") 3 full_disk = Fail E_DISK_FULL s' /\
     free_list (disk s') = [3] /\
     block_at s' 2 = Some (Inode short_inode) /\
     data_blocks short_inode !! 0%nat = Some 3).
Proof. split; eexists; evaluate. Qed.

(** C4 (the code departs from the claim): on the file of five bytes, whose
    inode holds two data blocks, a write of three bytes passes the size
    check, needs one new block, and indexes the one-slot array
    [data_block_nums] at 1: outside [0, blocks_needed). *)
Theorem write_index_out_of_bounds :
  let fsz := file_size demo_inode in
  let blocks_needed := @blocks_needed_of cfg4 (3 + @append_position_of cfg4 fsz) in
  let next_start_position := @next_start_position_of cfg4 fsz in
  fsz + 3 <= @MAX_FILE_SIZE cfg4 /\
  blocks_needed = 1 /\ next_start_position = 1 /\
  ~ (0 <= next_start_position < blocks_needed) /\
  @jfs_write cfg4 "a.txt" (bytes_of_string "wor") 3 demo_disk = Undef OutOfBounds.
Proof.
  cbv zeta. split; [vm_compute; congruence|].
  do 2 (split; [vm_compute; reflexivity|]).
  split; [|vm_compute; reflexivity].
  vm_compute. intros [_ H]. congruence.
Qed.

(** ** The theorems at work on the small disks *)

Lemma cfg4_ok : ConfigOK cfg4.
Proof. split; vm_compute; congruence. Defined.

Lemma empty_root_ok : @dir_ok cfg4 empty_root.
Proof. split; [reflexivity|]. vm_compute. split; congruence. Defined.

Lemma demo_root_ok : @dir_ok cfg4 demo_root.
Proof. split; [reflexivity|]. vm_compute. split; congruence. Defined.

Lemma creat_write_read_witness :
  exists s1 s2,
    @jfs_creat cfg4 "a.txt" fresh_disk = Ok tt s1 /\
    @jfs_write cfg4 "a.txt" (bytes_of_string "hello")
      (Z.of_nat (length (bytes_of_string "hello"))) s1 = Ok tt s2 /\
    @jfs_read cfg4 "a.txt" (Z.of_nat (length (bytes_of_string "hello"))) s2 =
      Ok (Z.of_nat (length (bytes_of_string "hello")), bytes_of_string "hello") s2.
Proof.
  apply (@creat_write_read cfg4 "a.txt" (bytes_of_string "hello") fresh_disk
           empty_root 2 [3; 4] [5; 6; 7; 8; 9] cfg4_ok).
  - vm_compute. reflexivity.
  - exact empty_root_ok.
  - vm_compute. reflexivity.
  - vm_compute. congruence.
  - apply not_elem_of_nil.
  - vm_compute. congruence.
  - vm_compute. congruence.
  - reflexivity.
  - vm_compute. reflexivity.
  - apply (bool_decide_unpack _). vm_compute. exact I.
  - apply (bool_decide_unpack _). vm_compute. exact I.
  - intros h _. apply not_elem_of_nil.
Defined.

Lemma demo_cwd : block_at demo_disk (current_dir demo_disk) = Some (Dirnode demo_root).
Proof. vm_compute. reflexivity. Defined.

Lemma demo_find_file :
  dir_find demo_root "a.txt" = Some (0%nat, {| block_num := 2; name := "a.txt" |}).
Proof. vm_compute. reflexivity. Defined.

Lemma demo_find_sub :
  dir_find demo_root "sub" = Some (1%nat, {| block_num := 5; name := "sub" |}).
Proof. vm_compute. reflexivity. Defined.

Lemma demo_find_docs :
  dir_find demo_root "docs" = Some (2%nat, {| block_num := 6; name := "docs" |}).
Proof. vm_compute. reflexivity. Defined.

Lemma demo_no_nope : "nope" ∉ name <$> dir_entries demo_root.
Proof. apply (bool_decide_unpack _). vm_compute. exact I. Defined.

Lemma chdir_error_frame_witness :
  jfs_chdir (Some "a.txt") demo_disk = Fail E_NOT_DIR demo_disk /\
  jfs_chdir (Some "nope") demo_disk = Fail E_NOT_EXISTS demo_disk /\
  demo_disk = demo_disk.
Proof.
  assert (jfs_chdir (Some "a.txt") demo_disk = Fail E_NOT_DIR demo_disk) as H
    by (vm_compute; reflexivity).
  split; [exact H|]. split; [vm_compute; reflexivity|].
  exact (chdir_error_frame (Some "a.txt") demo_disk E_NOT_DIR demo_disk H).
Defined.

Lemma stat_spec_witness :
  @jfs_stat cfg4 "nope" demo_disk = Fail E_NOT_EXISTS demo_disk /\
  @jfs_stat cfg4 "sub" demo_disk =
    Ok {| st_is_dir := IS_DIR; st_name := "sub"; st_block_num := 5;
          st_num_data_blocks := 0; st_file_size := 0 |} demo_disk /\
  @jfs_stat cfg4 "a.txt" demo_disk =
    Ok {| st_is_dir := IS_FILE; st_name := "a.txt"; st_block_num := 2;
          st_num_data_blocks := 2; st_file_size := 5 |} demo_disk.
Proof.
  split; [|split].
  - apply (@stat_spec cfg4 "nope" demo_disk demo_root cfg4_ok demo_cwd demo_root_ok).
    exact demo_no_nope.
  - destruct (@stat_spec cfg4 "sub" demo_disk demo_root cfg4_ok demo_cwd demo_root_ok)
      as (_ & Hdir & _).
    apply (Hdir 1%nat {| block_num := 5; name := "sub" |} empty_root).
    + exact demo_find_sub.
    + vm_compute. reflexivity.
  - destruct (@stat_spec cfg4 "a.txt" demo_disk demo_root cfg4_ok demo_cwd demo_root_ok)
      as (_ & _ & Hfile).
    apply (Hfile 0%nat {| block_num := 2; name := "a.txt" |} demo_inode).
    + exact demo_find_file.
    + vm_compute. reflexivity.
    + vm_compute. split; congruence.
Defined.

Lemma rmdir_spec_witness :
  jfs_rmdir "nope" demo_disk = Fail E_NOT_EXISTS demo_disk /\
  jfs_rmdir "a.txt" demo_disk = Fail E_NOT_DIR demo_disk /\
  jfs_rmdir "docs" demo_disk = Fail E_NOT_EMPTY demo_disk /\
  exists d',
    jfs_rmdir "sub" demo_disk =
      Ok tt (with_store demo_disk (<[1 := Dirnode d']> demo_blocks) [5; 8; 9]) /\
    num_entries d' = 2 /\
    length (entries d') = 3%nat /\
    dir_entries d' = [ {| block_num := 2; name := "a.txt" |};
                       {| block_num := 6; name := "docs" |} ].
Proof.
  split; [|split; [|split]].
  - apply (@rmdir_spec cfg4 "nope" demo_disk demo_root cfg4_ok demo_cwd demo_root_ok).
    exact demo_no_nope.
  - destruct (@rmdir_spec cfg4 "a.txt" demo_disk demo_root cfg4_ok demo_cwd demo_root_ok)
      as (_ & Hfile & _).
    apply (Hfile 0%nat {| block_num := 2; name := "a.txt" |} demo_inode).
    + exact demo_find_file.
    + vm_compute. reflexivity.
  - destruct (@rmdir_spec cfg4 "docs" demo_disk demo_root cfg4_ok demo_cwd demo_root_ok)
      as (_ & _ & Hfull & _).
    apply (Hfull 2%nat {| block_num := 6; name := "docs" |} demo_docs).
    + exact demo_find_docs.
    + vm_compute. reflexivity.
    + vm_compute. reflexivity.
  - destruct (@rmdir_spec cfg4 "sub" demo_disk demo_root cfg4_ok demo_cwd demo_root_ok)
      as (_ & _ & _ & Hempty).
    apply (Hempty 1%nat {| block_num := 5; name := "sub" |} empty_root).
    + exact demo_find_sub.
    + vm_compute. reflexivity.
    + reflexivity.
    + apply not_elem_of_nil.
    + apply not_elem_of_nil.
Defined.

Lemma remove_spec_witness :
  @jfs_remove cfg4 "nope" demo_disk = Fail E_NOT_EXISTS demo_disk /\
  @jfs_remove cfg4 "sub" demo_disk = Fail E_IS_DIR demo_disk /\
  exists d' s',
    @jfs_remove cfg4 "a.txt" demo_disk = Ok tt s' /\
    s' = with_store demo_disk (<[1 := Dirnode d']> demo_blocks) [2; 4; 3; 8; 9] /\
    Z.of_nat (length (populated (data_blocks demo_inode))) <= 4 /\
    num_entries d' = 2 /\
    dir_entries d' = [ {| block_num := 5; name := "sub" |};
                       {| block_num := 6; name := "docs" |} ] /\
    @jfs_stat cfg4 "a.txt" s' = Fail E_NOT_EXISTS s'.
Proof.
  split; [|split].
  - apply (@remove_spec cfg4 "nope" demo_disk demo_root cfg4_ok demo_cwd demo_root_ok).
    exact demo_no_nope.
  - destruct (@remove_spec cfg4 "sub" demo_disk demo_root cfg4_ok demo_cwd demo_root_ok)
      as (_ & Hdir & _).
    apply (Hdir 1%nat {| block_num := 5; name := "sub" |} empty_root).
    + exact demo_find_sub.
    + vm_compute. reflexivity.
  - destruct (@remove_spec cfg4 "a.txt" demo_disk demo_root cfg4_ok demo_cwd demo_root_ok)
      as (_ & _ & Hfile).
    apply (Hfile 0%nat {| block_num := 2; name := "a.txt" |} demo_inode).
    + exact demo_find_file.
    + vm_compute. reflexivity.
    + reflexivity.
    + intros h _. apply not_elem_of_nil.
    + apply not_elem_of_nil.
    + apply (bool_decide_unpack _). vm_compute. exact I.
Defined.

Lemma demo_file_ok : @file_ok cfg4 demo_disk demo_inode.
Proof.
  split; [vm_compute; split; congruence|]. split; [reflexivity|].
  repeat constructor.
  - exists (bytes_of_string "hell"). split; vm_compute; reflexivity.
  - exists (bytes_of_string "o" ++ [zero_byte; zero_byte; zero_byte]).
    split; vm_compute; reflexivity.
Defined.

Lemma read_spec_witness :
  @jfs_read cfg4 "nope" 3 demo_disk = Fail E_NOT_EXISTS demo_disk /\
  @jfs_read cfg4 "sub" 3 demo_disk = Fail E_IS_DIR demo_disk /\
  @jfs_read cfg4 "a.txt" 3 demo_disk = Ok (3, bytes_of_string "hel") demo_disk /\
  @jfs_read cfg4 "a.txt" 9 demo_disk = Ok (5, bytes_of_string "hello") demo_disk.
Proof.
  split; [|split; [|split]].
  - apply (@read_spec cfg4 "nope" 3 demo_disk demo_root cfg4_ok demo_cwd demo_root_ok).
    exact demo_no_nope.
  - destruct (@read_spec cfg4 "sub" 3 demo_disk demo_root cfg4_ok demo_cwd demo_root_ok)
      as (_ & Hdir & _).
    apply (Hdir 1%nat {| block_num := 5; name := "sub" |} empty_root).
    + exact demo_find_sub.
    + vm_compute. reflexivity.
  - destruct (@read_spec cfg4 "a.txt" 3 demo_disk demo_root cfg4_ok demo_cwd demo_root_ok)
      as (_ & _ & Hfile).
    apply (Hfile 0%nat {| block_num := 2; name := "a.txt" |} demo_inode).
    + exact demo_find_file.
    + vm_compute. reflexivity.
    + exact demo_file_ok.
    + vm_compute. split; congruence.
  - destruct (@read_spec cfg4 "a.txt" 9 demo_disk demo_root cfg4_ok demo_cwd demo_root_ok)
      as (_ & _ & Hfile).
    apply (Hfile 0%nat {| block_num := 2; name := "a.txt" |} demo_inode).
    + exact demo_find_file.
    + vm_compute. reflexivity.
    + exact demo_file_ok.
    + vm_compute. split; congruence.
Defined.

Lemma write_too_large_witness :
  exists s' r,
    @jfs_write cfg4 "a.txt" (bytes_of_string "hello, world") 12 demo_disk =
      Fail E_MAX_FILE_SIZE s' /\
    s' = demo_disk /\
    @jfs_stat cfg4 "a.txt" demo_disk = Ok r demo_disk /\
    @jfs_stat cfg4 "a.txt" s' = Ok r s' /\
    st_file_size r = 5 /\
    st_num_data_blocks r = @blocks_for cfg4 5 /\
    st_block_num r = 2 /\
    st_is_dir r = IS_FILE.
Proof.
  apply (@write_too_large cfg4 "a.txt" (bytes_of_string "hello, world") 12 demo_disk
           demo_root 0%nat {| block_num := 2; name := "a.txt" |} demo_inode
           cfg4_ok demo_cwd demo_root_ok demo_find_file).
  - vm_compute. reflexivity.
  - vm_compute. congruence.
  - vm_compute. split; congruence.
  - vm_compute. reflexivity.
  - vm_compute. reflexivity.
Defined.


(** ** The further properties on the concrete disks *)

Lemma fresh_cwd : block_at fresh_disk (current_dir fresh_disk) = Some (Dirnode empty_root).
Proof. vm_compute. reflexivity. Defined.

Lemma one_file_root_ok : @dir_ok cfg4 one_file_root.
Proof. split; [reflexivity|]. vm_compute. split; congruence. Defined.

Lemma faulty_cwd :
  block_at faulty_disk (current_dir faulty_disk) = Some (Dirnode one_file_root).
Proof. vm_compute. reflexivity. Defined.

Lemma full_cwd : block_at full_disk (current_dir full_disk) = Some (Dirnode one_file_root).
Proof. vm_compute. reflexivity. Defined.

Lemma short_cwd : block_at short_disk (current_dir short_disk) = Some (Dirnode one_file_root).
Proof. vm_compute. reflexivity. Defined.

Lemma scarce_cwd :
  block_at scarce_disk (current_dir scarce_disk) = Some (Dirnode one_file_root).
Proof. vm_compute. reflexivity. Defined.

Lemma one_file_find :
  dir_find one_file_root "a.txt" = Some (0%nat, {| block_num := 2; name := "a.txt" |}).
Proof. vm_compute. reflexivity. Defined.

Lemma fresh_no_name (nm : string) : nm ∉ name <$> dir_entries empty_root.
Proof. apply not_elem_of_nil. Defined.

Lemma one_file_no_b : "b" ∉ name <$> dir_entries one_file_root.
Proof. apply (bool_decide_unpack _). vm_compute. exact I. Defined.

Lemma chdir_spec_witness :
  jfs_chdir None demo_disk = Ok tt (with_cursor demo_disk 1) /\
  jfs_chdir (Some "nope") demo_disk = Fail E_NOT_EXISTS demo_disk /\
  jfs_chdir (Some "a.txt") demo_disk = Fail E_NOT_DIR demo_disk /\
  jfs_chdir (Some "sub") demo_disk = Ok tt (with_cursor demo_disk 5).
Proof.
  split; [|split; [|split]].
  - apply (@chdir_spec cfg4 "nope" demo_disk demo_root demo_cwd demo_root_ok).
  - apply (@chdir_spec cfg4 "nope" demo_disk demo_root demo_cwd demo_root_ok).
    exact demo_no_nope.
  - destruct (@chdir_spec cfg4 "a.txt" demo_disk demo_root demo_cwd demo_root_ok)
      as (_ & _ & Hfile & _).
    apply (Hfile 0%nat {| block_num := 2; name := "a.txt" |} demo_inode).
    + exact demo_find_file.
    + vm_compute. reflexivity.
  - destruct (@chdir_spec cfg4 "sub" demo_disk demo_root demo_cwd demo_root_ok)
      as (_ & _ & _ & _ & Hdir).
    apply (Hdir 1%nat {| block_num := 5; name := "sub" |} empty_root).
    + exact demo_find_sub.
    + vm_compute. reflexivity.
Defined.

Lemma mkdir_spec_witness :
  @jfs_mkdir cfg4 "sub" demo_disk = Fail E_EXISTS demo_disk /\
  @jfs_mkdir cfg4 "a_long_name" fresh_disk = Fail E_MAX_NAME_LENGTH fresh_disk /\
  @jfs_mkdir cfg4 "nope" demo_disk = Fail E_MAX_DIR_ENTRIES demo_disk /\
  @jfs_mkdir cfg4 "b" full_disk = Fail E_DISK_FULL full_disk /\
  @jfs_mkdir cfg4 "sub" fresh_disk =
    Ok tt (with_store fresh_disk
             (<[current_dir fresh_disk :=
                  Dirnode (dir_add empty_root {| block_num := 2; name := "sub" |})]>
                (<[2 := Dirnode (@empty_dirnode cfg4)]> (blocks (disk fresh_disk))))
             [3; 4; 5; 6; 7; 8; 9]).
Proof.
  split; [|split; [|split; [|split]]].
  - destruct (@mkdir_spec cfg4 "sub" demo_disk demo_root cfg4_ok demo_cwd demo_root_ok)
      as (Hex & _).
    exact (Hex _ _ demo_find_sub).
  - destruct (@mkdir_spec cfg4 "a_long_name" fresh_disk empty_root cfg4_ok fresh_cwd
                empty_root_ok) as (_ & Hlong & _).
    apply Hlong; [apply fresh_no_name|]. vm_compute. reflexivity.
  - destruct (@mkdir_spec cfg4 "nope" demo_disk demo_root cfg4_ok demo_cwd demo_root_ok)
      as (_ & _ & Hmax & _).
    apply Hmax; [exact demo_no_nope| |reflexivity]. vm_compute. congruence.
  - destruct (@mkdir_spec cfg4 "b" full_disk one_file_root cfg4_ok full_cwd
                one_file_root_ok) as (_ & _ & _ & Hfull & _).
    apply Hfull; [exact one_file_no_b| | |reflexivity].
    + vm_compute. congruence.
    + vm_compute. reflexivity.
  - destruct (@mkdir_spec cfg4 "sub" fresh_disk empty_root cfg4_ok fresh_cwd
                empty_root_ok) as (_ & _ & _ & _ & Hnew).
    apply (Hnew 2 [3; 4; 5; 6; 7; 8; 9]).
    + apply fresh_no_name.
    + vm_compute. congruence.
    + vm_compute. reflexivity.
    + reflexivity.
    + congruence.
    + apply not_elem_of_nil.
    + apply not_elem_of_nil.
Defined.

Lemma creat_spec_witness :
  @jfs_creat cfg4 "a_long_name" demo_disk = Fail E_MAX_NAME_LENGTH demo_disk /\
  @jfs_creat cfg4 "a.txt" demo_disk = Fail E_EXISTS demo_disk /\
  @jfs_creat cfg4 "nope" demo_disk = Fail E_MAX_DIR_ENTRIES demo_disk /\
  @jfs_creat cfg4 "b" full_disk = Fail E_DISK_FULL full_disk /\
  @jfs_creat cfg4 "a.txt" fresh_disk =
    Ok tt (with_store fresh_disk
             (<[current_dir fresh_disk :=
                  Dirnode (dir_add empty_root {| block_num := 2; name := "a.txt" |})]>
                (<[2 := Inode {| file_size := 0; data_blocks := @zero_data_blocks cfg4 |}]>
                   (blocks (disk fresh_disk))))
             [3; 4; 5; 6; 7; 8; 9]).
Proof.
  split; [|split; [|split; [|split]]].
  - destruct (@creat_spec cfg4 "a_long_name" demo_disk demo_root cfg4_ok demo_cwd
                demo_root_ok) as (Hlong & _).
    apply Hlong. vm_compute. reflexivity.
  - destruct (@creat_spec cfg4 "a.txt" demo_disk demo_root cfg4_ok demo_cwd demo_root_ok)
      as (_ & Hex & _).
    apply (Hex 0%nat {| block_num := 2; name := "a.txt" |}); [|exact demo_find_file].
    vm_compute. congruence.
  - destruct (@creat_spec cfg4 "nope" demo_disk demo_root cfg4_ok demo_cwd demo_root_ok)
      as (_ & _ & Hmax & _).
    apply Hmax; [exact demo_no_nope| |reflexivity]. vm_compute. congruence.
  - destruct (@creat_spec cfg4 "b" full_disk one_file_root cfg4_ok full_cwd
                one_file_root_ok) as (_ & _ & _ & Hfull & _).
    apply Hfull; [exact one_file_no_b| | |reflexivity].
    + vm_compute. congruence.
    + vm_compute. reflexivity.
  - destruct (@creat_spec cfg4 "a.txt" fresh_disk empty_root cfg4_ok fresh_cwd
                empty_root_ok) as (_ & _ & _ & _ & Hnew).
    apply (Hnew 2 [3; 4; 5; 6; 7; 8; 9]).
    + apply fresh_no_name.
    + vm_compute. congruence.
    + vm_compute. reflexivity.
    + reflexivity.
    + congruence.
    + apply not_elem_of_nil.
    + apply not_elem_of_nil.
Defined.

Lemma creat_write_failure_witness :
  exists s',
    @jfs_creat cfg4 "b" faulty_disk = Fail E_UNKNOWN s' /\
    free_list (disk s') = free_list (disk faulty_disk) /\
    block_at s' (current_dir s') = Some (Dirnode one_file_root).
Proof.
  apply (@creat_write_failure cfg4 "b" faulty_disk one_file_root 3 [4; 5; 6; 7; 8; 9]
           cfg4_ok faulty_cwd one_file_root_ok one_file_no_b).
  - vm_compute. congruence.
  - vm_compute. reflexivity.
  - reflexivity.
  - congruence.
  - apply not_elem_of_nil.
  - left. apply (bool_decide_unpack _). vm_compute. exact I.
Defined.

Lemma mkdir_write_failure_witness :
  exists s',
    @jfs_mkdir cfg4 "b" faulty_disk = Fail E_UNKNOWN s' /\
    free_list (disk s') = [4; 5; 6; 7; 8; 9] /\
    block_at s' (current_dir s') = Some (Dirnode one_file_root).
Proof.
  apply (@mkdir_write_failure cfg4 "b" faulty_disk one_file_root 3 [4; 5; 6; 7; 8; 9]
           cfg4_ok faulty_cwd one_file_root_ok one_file_no_b).
  - vm_compute. congruence.
  - vm_compute. reflexivity.
  - reflexivity.
  - congruence.
  - left. apply (bool_decide_unpack _). vm_compute. exact I.
Defined.

Lemma create_keeps_names_unique_witness :
  exists s1 d1,
    @jfs_mkdir cfg4 "b" scarce_disk = Ok tt s1 /\
    block_at s1 (current_dir s1) = Some (Dirnode d1) /\
    @dir_ok cfg4 d1 /\ names_unique d1 /\
    dir_entries d1 = dir_entries one_file_root ++ [ {| block_num := 3; name := "b" |} ] /\
    @jfs_creat cfg4 "b" s1 = Fail E_EXISTS s1 /\
    @jfs_mkdir cfg4 "b" s1 = Fail E_EXISTS s1.
Proof.
  apply (@create_keeps_names_unique cfg4 "b" scarce_disk one_file_root 3 []
           cfg4_ok scarce_cwd one_file_root_ok).
  - apply (bool_decide_unpack _). vm_compute. exact I.
  - exact one_file_no_b.
  - vm_compute. congruence.
  - vm_compute. reflexivity.
  - reflexivity.
  - congruence.
  - apply not_elem_of_nil.
  - apply not_elem_of_nil.
  - right. reflexivity.
Defined.

Lemma creat_then_stat_witness :
  exists s1,
    @jfs_creat cfg4 "b" scarce_disk = Ok tt s1 /\
    @jfs_stat cfg4 "b" s1 =
      Ok {| st_is_dir := IS_FILE; st_name := "b"; st_block_num := 3;
            st_num_data_blocks := 0; st_file_size := 0 |} s1.
Proof.
  apply (@creat_then_stat cfg4 "b" scarce_disk one_file_root 3 []
           cfg4_ok scarce_cwd one_file_root_ok one_file_no_b).
  - vm_compute. congruence.
  - vm_compute. reflexivity.
  - reflexivity.
  - congruence.
  - vm_compute. congruence.
  - apply not_elem_of_nil.
  - apply not_elem_of_nil.
Defined.

Lemma write_lookup_errors_witness :
  @jfs_write cfg4 "nope" (bytes_of_string "hi") 2 demo_disk = Fail E_NOT_EXISTS demo_disk /\
  @jfs_write cfg4 "sub" (bytes_of_string "hi") 2 demo_disk = Fail E_IS_DIR demo_disk.
Proof.
  split.
  - apply (@write_lookup_errors cfg4 "nope" (bytes_of_string "hi") 2 demo_disk demo_root
             demo_cwd demo_root_ok).
    exact demo_no_nope.
  - destruct (@write_lookup_errors cfg4 "sub" (bytes_of_string "hi") 2 demo_disk demo_root
                demo_cwd demo_root_ok) as (_ & Hdir).
    apply (Hdir 1%nat {| block_num := 5; name := "sub" |} empty_root).
    + exact demo_find_sub.
    + vm_compute. reflexivity.
Defined.

Lemma ls_spec_witness :
  exists D F,
    jfs_ls (replicate 4 None) (replicate 4 None) demo_disk = Ok (D, F) demo_disk /\
    take (S (length (ls_directories demo_disk demo_root))) D =
      (Some <$> ls_directories demo_disk demo_root) ++ [None] /\
    take (S (length (ls_files demo_disk demo_root))) F =
      (Some <$> ls_files demo_disk demo_root) ++ [None] /\
    length D = length (replicate 4 (@None string)) /\
    length F = length (replicate 4 (@None string)) /\
    ls_directories demo_disk demo_root ++ ls_files demo_disk demo_root
      ≡ₚ name <$> dir_entries demo_root.
Proof.
  apply (@ls_spec cfg4 (replicate 4 None) (replicate 4 None) demo_disk demo_root
           demo_cwd demo_root_ok).
  - reflexivity.
  - reflexivity.
  - repeat constructor; intros bytes H; vm_compute in H; discriminate.
Defined.

Lemma mkdir_then_rmdir_witness :
  exists s1 s2 d2,
    @jfs_mkdir cfg4 "sub" fresh_disk = Ok tt s1 /\
    jfs_rmdir "sub" s1 = Ok tt s2 /\
    free_list (disk s2) = free_list (disk fresh_disk) /\
    current_dir s2 = current_dir fresh_disk /\
    block_at s2 (current_dir s2) = Some (Dirnode d2) /\
    num_entries d2 = num_entries empty_root /\
    dir_entries d2 = dir_entries empty_root.
Proof.
  apply (@mkdir_then_rmdir cfg4 "sub" fresh_disk empty_root 2 [3; 4; 5; 6; 7; 8; 9]
           cfg4_ok fresh_cwd empty_root_ok).
  - apply fresh_no_name.
  - vm_compute. congruence.
  - vm_compute. reflexivity.
  - reflexivity.
  - congruence.
  - vm_compute. congruence.
  - apply not_elem_of_nil.
  - apply not_elem_of_nil.
  - apply not_elem_of_nil.
Defined.

Lemma creat_write_remove_witness :
  exists s1 s2 s3 d3,
    @jfs_creat cfg4 "a.txt" fresh_disk = Ok tt s1 /\
    @jfs_write cfg4 "a.txt" (bytes_of_string "hello")
      (Z.of_nat (length (bytes_of_string "hello"))) s1 = Ok tt s2 /\
    @jfs_stat cfg4 "a.txt" s2 =
      Ok {| st_is_dir := IS_FILE; st_name := "a.txt"; st_block_num := 2;
            st_num_data_blocks :=
              @blocks_for cfg4 (Z.of_nat (length (bytes_of_string "hello")));
            st_file_size := Z.of_nat (length (bytes_of_string "hello")) |} s2 /\
    @jfs_remove cfg4 "a.txt" s2 = Ok tt s3 /\
    free_list (disk s3) = 2 :: reverse [3; 4] ++ [5; 6; 7; 8; 9] /\
    free_list (disk s3) ≡ₚ free_list (disk fresh_disk) /\
    block_at s3 (current_dir s3) = Some (Dirnode d3) /\
    dir_entries d3 = dir_entries empty_root /\
    @jfs_stat cfg4 "a.txt" s3 = Fail E_NOT_EXISTS s3.
Proof.
  apply (@creat_write_remove cfg4 "a.txt" (bytes_of_string "hello") fresh_disk
           empty_root 2 [3; 4] [5; 6; 7; 8; 9] cfg4_ok fresh_cwd empty_root_ok).
  - vm_compute. reflexivity.
  - vm_compute. congruence.
  - apply fresh_no_name.
  - vm_compute. congruence.
  - vm_compute. congruence.
  - reflexivity.
  - vm_compute. reflexivity.
  - apply (bool_decide_unpack _). vm_compute. exact I.
  - apply (bool_decide_unpack _). vm_compute. exact I.
  - intros h _. apply not_elem_of_nil.
  - intros h _. apply not_elem_of_nil.
Defined.

Lemma removal_keeps_other_names_witness :
  (exists s', @jfs_remove cfg4 "a.txt" demo_disk = Ok tt s' /\
              @stat_agrees cfg4 "sub" demo_disk s') /\
  (exists s', jfs_rmdir "sub" demo_disk = Ok tt s' /\
              @stat_agrees cfg4 "a.txt" demo_disk s').
Proof.
  split.
  - destruct (@removal_keeps_other_names cfg4 "a.txt" "sub" demo_disk demo_root 0%nat
                {| block_num := 2; name := "a.txt" |} cfg4_ok demo_cwd demo_root_ok
                demo_find_file) as (Hfile & _).
    + congruence.
    + intros eg H. vm_compute in H. injection H as <-. vm_compute. congruence.
    + apply not_elem_of_nil.
    + apply (Hfile demo_inode).
      * vm_compute. reflexivity.
      * reflexivity.
      * intros h _. apply not_elem_of_nil.
  - destruct (@removal_keeps_other_names cfg4 "sub" "a.txt" demo_disk demo_root 1%nat
                {| block_num := 5; name := "sub" |} cfg4_ok demo_cwd demo_root_ok
                demo_find_sub) as (_ & Hdir).
    + congruence.
    + intros eg H. vm_compute in H. injection H as <-. vm_compute. congruence.
    + apply not_elem_of_nil.
    + apply (Hdir empty_root).
      * vm_compute. reflexivity.
      * reflexivity.
      * apply not_elem_of_nil.
Defined.

Lemma creation_keeps_other_names_witness :
  (exists s', @jfs_creat cfg4 "b" scarce_disk = Ok tt s' /\
              @stat_agrees cfg4 "a.txt" scarce_disk s') /\
  (exists s', @jfs_mkdir cfg4 "b" scarce_disk = Ok tt s' /\
              @stat_agrees cfg4 "a.txt" scarce_disk s').
Proof.
  apply (@creation_keeps_other_names cfg4 "b" "a.txt" scarce_disk one_file_root 3 []
           cfg4_ok scarce_cwd one_file_root_ok one_file_no_b).
  - vm_compute. congruence.
  - vm_compute. reflexivity.
  - reflexivity.
  - congruence.
  - apply not_elem_of_nil.
  - apply not_elem_of_nil.
  - congruence.
  - intros eg H. vm_compute in H. injection H as <-. vm_compute. split; congruence.
Defined.

Lemma mkdir_then_chdir_witness :
  exists s1,
    @jfs_mkdir cfg4 "sub" fresh_disk = Ok tt s1 /\
    jfs_chdir (Some "sub") s1 = Ok tt (with_cursor s1 2) /\
    (forall g, @jfs_stat cfg4 g (with_cursor s1 2) = Fail E_NOT_EXISTS (with_cursor s1 2)) /\
    jfs_chdir None (with_cursor s1 2) = Ok tt (with_cursor s1 1).
Proof.
  apply (@mkdir_then_chdir cfg4 "sub" fresh_disk empty_root 2 [3; 4; 5; 6; 7; 8; 9]
           cfg4_ok fresh_cwd empty_root_ok).
  - apply fresh_no_name.
  - vm_compute. congruence.
  - vm_compute. reflexivity.
  - reflexivity.
  - congruence.
  - vm_compute. congruence.
  - apply not_elem_of_nil.
  - apply not_elem_of_nil.
Defined.

Lemma write_disk_full_witness :
  exists s',
    @jfs_write cfg4 "a.txt" (bytes_of_string "hello")
      (Z.of_nat (length (bytes_of_string "hello"))) scarce_disk = Fail E_DISK_FULL s' /\
    blocks (disk s') = blocks (disk scarce_disk) /\
    free_list (disk s') = reverse (free_list (disk scarce_disk)) /\
    free_list (disk s') ≡ₚ free_list (disk scarce_disk).
Proof.
  apply (@write_disk_full cfg4 "a.txt" (bytes_of_string "hello") scarce_disk
           one_file_root 0%nat {| block_num := 2; name := "a.txt" |}
           {| file_size := 0; data_blocks := [0; 0; 0; 0] |}
           cfg4_ok scarce_cwd one_file_root_ok one_file_find).
  - vm_compute. reflexivity.
  - reflexivity.
  - vm_compute. congruence.
  - vm_compute. reflexivity.
  - repeat constructor. congruence.
  - repeat constructor. apply not_elem_of_nil.
Defined.

Lemma short_file_ok : @file_ok cfg4 short_disk short_inode.
Proof.
  split; [vm_compute; split; congruence|]. split; [reflexivity|].
  repeat constructor.
  exists (bytes_of_string "hel" ++ [zero_byte]). split; vm_compute; reflexivity.
Defined.

Lemma append_in_first_block_witness :
  exists s',
    @jfs_write cfg4 "a.txt" (bytes_of_string "lo")
      (Z.of_nat (length (bytes_of_string "lo"))) short_disk = Ok tt s' /\
    free_list (disk s') = [5; 6] /\
    @jfs_read cfg4 "a.txt"
      (file_size short_inode + Z.of_nat (length (bytes_of_string "lo"))) s' =
      Ok (file_size short_inode + Z.of_nat (length (bytes_of_string "lo")),
          file_content short_disk short_inode ++ bytes_of_string "lo") s'.
Proof.
  apply (@append_in_first_block cfg4 "a.txt" (bytes_of_string "lo") short_disk
           one_file_root 0%nat {| block_num := 2; name := "a.txt" |} short_inode
           3 [4] [5; 6] cfg4_ok).
  - vm_compute. congruence.
  - exact short_cwd.
  - exact one_file_root_ok.
  - exact one_file_find.
  - vm_compute. reflexivity.
  - exact short_file_ok.
  - vm_compute. split; reflexivity.
  - vm_compute. congruence.
  - reflexivity.
  - apply not_elem_of_nil.
  - reflexivity.
  - vm_compute. reflexivity.
  - apply (bool_decide_unpack _). vm_compute. exact I.
  - apply (bool_decide_unpack _). vm_compute. exact I.
  - apply (bool_decide_unpack _). vm_compute. exact I.
  - apply (bool_decide_unpack _). vm_compute. exact I.
  - intros h _. apply not_elem_of_nil.
Defined.
